(** * Account-link automation (APIcallsmaspool_instantlyGS.py)

    A shallow embedding of the decision logic of the browser automation
    script: the text helpers of the phone-verification bypass (number
    normalisation, OTP extraction), the SMS polling loop, the parsing of
    the number-purchase response, worklist ingestion and batching, the
    iframe-aware element resolver and the per-account workflow with its
    status reports and browser teardown.

    Python [str] values are modelled as [string]; a character is a code
    point in U+0000..U+00FF.  In that range the regular-expression class
    [\d] is exactly '0'..'9' and [str.isspace] is exactly the set given by
    [is_space] below. *)

From Stdlib Require Import String Ascii List Bool Arith ZArith Lia.
From Stdlib Require Import DecimalString.
Import ListNotations.

Open Scope string_scope.
Open Scope nat_scope.

(** ** Python string primitives *)

Module PyStr.

(** [\d] of [re] on a [str] pattern, restricted to Latin-1. *)
Definition is_digit (c : ascii) : bool :=
  (48 <=? nat_of_ascii c) && (nat_of_ascii c <=? 57).

(** [str.isspace] for one character, restricted to Latin-1:
    TAB..CR, FS..US, SPACE, NEL and NBSP. *)
Definition is_space (c : ascii) : bool :=
  let n := nat_of_ascii c in
  ((9 <=? n) && (n <=? 13)) || ((28 <=? n) && (n <=? 32))
  || (n =? 133) || (n =? 160).

(** [s.startswith(p)] *)
Fixpoint startswith (p s : string) : bool :=
  match p, s with
  | EmptyString, _ => true
  | String a p', String b s' => Ascii.eqb a b && startswith p' s'
  | String _ _, EmptyString => false
  end.

(** [s.lstrip(chars)] for a one-character set. *)
Fixpoint lstrip_char (z : ascii) (s : string) : string :=
  match s with
  | String c s' => if Ascii.eqb c z then lstrip_char z s' else s
  | EmptyString => EmptyString
  end.

(** [s.lstrip()] *)
Fixpoint lstrip (s : string) : string :=
  match s with
  | String c s' => if is_space c then lstrip s' else s
  | EmptyString => EmptyString
  end.

(** [s.rstrip()] *)
Fixpoint rstrip (s : string) : string :=
  match s with
  | String c s' =>
      match rstrip s' with
      | EmptyString => if is_space c then EmptyString else String c EmptyString
      | r => String c r
      end
  | EmptyString => EmptyString
  end.

(** [s.strip()] *)
Definition strip (s : string) : string := rstrip (lstrip s).

(** [c.lower()] for one Latin-1 character. *)
Definition lower_char (c : ascii) : ascii :=
  let n := nat_of_ascii c in
  if ((65 <=? n) && (n <=? 90))
     || ((192 <=? n) && (n <=? 222) && negb (n =? 215))
  then ascii_of_nat (n + 32) else c.

(** [s.lower()] *)
Fixpoint lower (s : string) : string :=
  match s with
  | String c s' => String (lower_char c) (lower s')
  | EmptyString => EmptyString
  end.

(** [str(n)] for a non-negative integer. *)
Definition str_of_N (n : N) : string :=
  NilZero.string_of_uint (N.to_uint n).

Definition str_of_nat (n : nat) : string := str_of_N (N.of_nat n).

(** The double-quote character. *)
Definition dquote : ascii := ascii_of_nat 34.

(** The source writes its XPath expressions in single-quoted Python
    literals with double quotes inside; here they are written with
    apostrophes, which [xpath] turns into double quotes. *)
Fixpoint xpath (s : string) : string :=
  match s with
  | String c s' =>
      String (if Ascii.eqb c "'" then dquote else c) (xpath s')
  | EmptyString => EmptyString
  end.

(** Every character of [s] satisfies [p]. *)
Fixpoint all_chars (p : ascii -> bool) (s : string) : bool :=
  match s with
  | String c s' => p c && all_chars p s'
  | EmptyString => true
  end.

End PyStr.

(** ** Phone-verification text helpers (handle_phone_verification) *)

Module Otp.
Import PyStr.

(** Lines 268-270: [formatted_number = str(phone_number)], prefixed with
    ["+"] after [lstrip("0")] unless it already starts with ["+"]. *)
Definition format_number (phone_number : string) : string :=
  if startswith "+" phone_number then phone_number
  else "+" ++ lstrip_char "0" phone_number.

(** Greedy [\d{0,n}] anchored at the start of [s]. *)
Fixpoint take_digits (n : nat) (s : string) : string :=
  match n, s with
  | S n', String c s' =>
      if is_digit c then String c (take_digits n' s') else EmptyString
  | _, _ => EmptyString
  end.

(** [(\d{4,8})] anchored at the start of [s]: the quantifier is greedy,
    so the match is the longest digit prefix of at most 8 characters,
    provided it has at least 4. *)
Definition match_here (s : string) : option string :=
  let m := take_digits 8 s in
  if 4 <=? String.length m then Some m else None.

(** [re.search(r"(\d{4,8})", s)]: the match at the leftmost position
    where the pattern matches; the result is [group(1)]. *)
Fixpoint re_search_otp (s : string) : option string :=
  match match_here s with
  | Some m => Some m
  | None =>
      match s with
      | String _ s' => re_search_otp s'
      | EmptyString => None
      end
  end.

(** Lines 316-321. *)
Definition extract_otp (sms_text : string) : string :=
  match re_search_otp sms_text with
  | Some otp_match => otp_match
  | None => strip sms_text
  end.

(** A digit run: a string of digits only. *)
Definition digit_run (r : string) : Prop := all_chars is_digit r = true.

(** [s] contains [n] consecutive digits somewhere. *)
Definition has_digit_run (n : nat) (s : string) : Prop :=
  exists pre r post,
    s = pre ++ r ++ post /\ digit_run r /\ String.length r = n.

(** [s] contains no digit at all. *)
Definition digit_free (s : string) : Prop :=
  all_chars (fun c => negb (is_digit c)) s = true.

End Otp.

(** ** Exceptions, HTTP replies and observable effects *)

Module Base.

(** The handlers of the script tell two kinds of exception apart: the
    three Selenium classes StaleElementReferenceException,
    TimeoutException and NoSuchElementException, and every other
    subclass of [Exception]. *)
Inductive exn_kind := SeleniumWait | OtherException.

(** An exception with its [str(e)]. *)
Record exn := Exn { kind : exn_kind; msg : string }.

Definition is_selenium (e : exn) : bool :=
  match kind e with
  | SeleniumWait => true
  | OtherException => false
  end.

(** The value of a call that may raise. *)
Inductive result (A : Type) : Type :=
| Ok (a : A)
| Raise (e : exn).
Arguments Ok {A} a.
Arguments Raise {A} e.

Definition TypeError {A : Type} (m : string) : result A :=
  Raise (Exn OtherException ("TypeError: " ++ m)).

(** What [requests.post] followed by [response.json()] can give: the
    call raises, or a response with a status code whose body parses
    ([Ok]) or does not ([Raise]). *)
Inductive http (A : Type) : Type :=
| HttpRaises (e : exn)
| HttpReply (status_code : nat) (json : result A).
Arguments HttpRaises {A} e.
Arguments HttpReply {A} status_code json.

(** Module-level configuration constants of the script. *)
Record Config := {
  SMSPOOL_KEY : string;
  ENABLE_PHONE_VERIFICATION : bool
}.

(** Observable effects of one workflow execution, in program order. *)
Inductive event :=
| EvDriverStart (user_data_dir : string)   (* Driver(user_data_dir=...) returned *)
| EvLog (line : string)                    (* print(...), without the thread-name prefix *)
| EvScreenshot (step : string)             (* save_screenshot(driver, gemail, worker_id, step) *)
| EvReport (email status : string)         (* update_status_in_sheet(email, status) *)
| EvQuit.                                  (* driver.quit() is called *)

End Base.

(** ** JSON values as Python sees them after [response.json()] *)

Module Json.
Import Base.

(** A decoded JSON value.  [JNull] is Python's [None]; a [JDict] is the
    decoded mapping as an association list in which the first binding of
    a key is the one the dict holds.  Numbers are integers. *)
#[warnings="-register-all"]
Inductive json :=
| JNull
| JBool (b : bool)
| JNum (z : Z)
| JStr (s : string)
| JList (l : list json)
| JDict (d : list (string * json)).

(** [bool(x)] *)
Definition truthy (x : json) : bool :=
  match x with
  | JNull => false
  | JBool b => b
  | JNum z => negb (z =? 0)%Z
  | JStr s => negb (String.eqb s "")
  | JList l => match l with [] => false | _ => true end
  | JDict d => match d with [] => false | _ => true end
  end.

(** [x == key] for a [str] key. *)
Definition is_str (key : string) (x : json) : bool :=
  match x with
  | JStr s => String.eqb s key
  | _ => false
  end.

(** [d.get(key)] on an association list. *)
Fixpoint assoc (key : string) (d : list (string * json)) : option json :=
  match d with
  | (k, v) :: d' => if String.eqb k key then Some v else assoc key d'
  | [] => None
  end.

(** [p in s] for two strings: [p] occurs in [s]. *)
Fixpoint occurs (p s : string) : bool :=
  PyStr.startswith p s
  || match s with
     | String _ s' => occurs p s'
     | EmptyString => false
     end.

(** [key in x] *)
Definition py_in (key : string) (x : json) : result bool :=
  match x with
  | JDict d => Ok (match assoc key d with Some _ => true | None => false end)
  | JList l => Ok (existsb (is_str key) l)
  | JStr s => Ok (occurs key s)
  | _ => TypeError "argument is not iterable"
  end.

(** [x[key]] for a [str] key. *)
Definition getitem (x : json) (key : string) : result json :=
  match x with
  | JDict d =>
      match assoc key d with
      | Some v => Ok v
      | None => Raise (Exn OtherException ("KeyError: " ++ key))
      end
  | JList _ => TypeError "list indices must be integers or slices, not str"
  | JStr _ => TypeError "string indices must be integers"
  | _ => TypeError "object is not subscriptable"
  end.

(** [d.get(key)] for a dict [d]: [None] when the key is missing. *)
Definition dict_get (d : list (string * json)) (key : string) : json :=
  match assoc key d with
  | Some v => v
  | None => JNull
  end.

(** [a or b] *)
Definition py_or (a b : json) : json := if truthy a then a else b.

(** *** [str(x)], as an f-string prints a decoded value *)

Definition backslash : ascii := ascii_of_nat 92.
Definition squote : ascii := ascii_of_nat 39.

Definition hex_digit (n : nat) : ascii :=
  ascii_of_nat (if n <? 10 then 48 + n else 87 + n).

(** [c.isprintable()], restricted to Latin-1. *)
Definition printable (c : ascii) : bool :=
  let n := nat_of_ascii c in
  ((32 <=? n) && (n <=? 126)) || ((161 <=? n) && negb (n =? 173)).

(** One character inside a literal quoted with [q]. *)
Definition repr_char (q c : ascii) : string :=
  let n := nat_of_ascii c in
  if Ascii.eqb c q || Ascii.eqb c backslash
  then String backslash (String c EmptyString)
  else if n =? 9 then String backslash "t"
  else if n =? 10 then String backslash "n"
  else if n =? 13 then String backslash "r"
  else if printable c then String c EmptyString
  else String backslash
         (String "x" (String (hex_digit (n / 16))
                        (String (hex_digit (n mod 16)) EmptyString))).

Fixpoint has_char (z : ascii) (s : string) : bool :=
  match s with
  | String c s' => Ascii.eqb c z || has_char z s'
  | EmptyString => false
  end.

Fixpoint repr_chars (q : ascii) (s : string) : string :=
  match s with
  | String c s' => repr_char q c ++ repr_chars q s'
  | EmptyString => EmptyString
  end.

(** [repr(s)] for a [str]: double quotes are used only when the string
    holds an apostrophe and no double quote. *)
Definition repr_str (s : string) : string :=
  let q := if has_char squote s && negb (has_char PyStr.dquote s)
           then PyStr.dquote else squote in
  String q (repr_chars q s ++ String q EmptyString).

(** [sep.join(l)] *)
Fixpoint join (sep : string) (l : list string) : string :=
  match l with
  | [] => EmptyString
  | [x] => x
  | x :: l' => x ++ sep ++ join sep l'
  end.

(** The bindings a dict holds: the first one of every key. *)
Fixpoint held (seen : list string) (d : list (string * string))
  : list (string * string) :=
  match d with
  | (k, v) :: d' =>
      if existsb (String.eqb k) seen then held seen d'
      else (k, v) :: held (k :: seen) d'
  | [] => []
  end.

(** [repr(x)] *)
Fixpoint py_repr (x : json) : string :=
  match x with
  | JNull => "None"
  | JBool b => if b then "True" else "False"
  | JNum z => NilZero.string_of_int (Z.to_int z)
  | JStr s => repr_str s
  | JList l => "[" ++ join ", " (map py_repr l) ++ "]"
  | JDict d =>
      "{" ++ join ", "
               (map (fun kv => repr_str (fst kv) ++ ": " ++ snd kv)
                    (held [] (map (fun kv => (fst kv, py_repr (snd kv))) d)))
          ++ "}"
  end.

(** [str(x)] *)
Definition py_str (x : json) : string :=
  match x with
  | JStr s => s
  | _ => py_repr x
  end.

End Json.

(** ** SMS polling (get_smspool_sms) *)

Module Sms.
Import Base Json.

(** The [time_left] entry of the check response as [int(res.get("time_left", 30))]
    sees it. *)
Inductive time_left_field :=
| TimeLeftAbsent            (* no such key: the default 30 is used *)
| TimeLeftInt (z : Z)       (* a value on which [int] gives [z] *)
| TimeLeftInvalid.          (* a value on which [int] raises *)

(** The parsed body of a check response, a JSON object: the [sms] entry
    ([None] when the key is absent), which may hold any JSON value, and
    the [time_left] entry.  A body that is not a JSON object makes the
    first look-up on it raise inside the [try] block of line 151, as a
    body that does not decode does; both are the [Raise] case of the
    reply. *)
Record check_json := {
  sms : option json;
  time_left : time_left_field
}.

(** The provider: the reply to the n-th request (n = 0 is the initial one). *)
Definition provider := nat -> http check_json.

(** Bookkeeping of one call: requests sent, seconds slept, lines printed. *)
Record poll_state := {
  requests : nat;
  slept : nat;
  log : list string
}.

Definition start : poll_state := {| requests := 0; slept := 0; log := [] |}.

Definition say (msg : string) (st : poll_state) : poll_state :=
  {| requests := requests st; slept := slept st; log := (log st ++ [msg])%list |}.

(** [time.sleep(n)] *)
Definition sleep (n : nat) (st : poll_state) : poll_state :=
  {| requests := requests st; slept := slept st + n; log := log st |}.

(** [requests.post(url, ...)]: the next reply of the provider. *)
Definition post (p : provider) (st : poll_state) : http check_json * poll_state :=
  (p (requests st),
   {| requests := S (requests st); slept := slept st; log := log st |}).

(** ["sms" in res and res["sms"]]: the entry when it is there and truthy. *)
Definition populated (res : check_json) : option json :=
  match sms res with
  | Some v => if truthy v then Some v else None
  | None => None
  end.

(** [int(res.get("time_left", 30))] *)
Definition int_time_left (res : check_json) : result Z :=
  match time_left res with
  | TimeLeftAbsent => Ok 30%Z
  | TimeLeftInt z => Ok z
  | TimeLeftInvalid => Raise (Exn OtherException "invalid literal for int()")
  end.

(** The handler of line 190: any exception gives [None]. *)
Definition failed (m : string) (st : poll_state) : option json * poll_state :=
  (None, say ("SMSPool getSMS failed: " ++ m) st).

(** Lines 167-189: [retries = 6; while retries > 0: ...; retries -= 1]. *)
Fixpoint poll (p : provider) (retries : nat) (res : check_json) (st : poll_state)
  : option json * poll_state :=
  match retries with
  | O => (None, say "SMSPool timeout - no SMS received" st)
  | S retries' =>
      match int_time_left res with
      | Raise e => failed (msg e) st
      | Ok t =>
          if (t <=? 0)%Z then (None, say "SMSPool time_left expired" st)
          else
            let st := sleep 15 st in
            let (response, st) := post p st in
            match response with
            | HttpRaises e => failed (msg e) st
            | HttpReply status_code json =>
                if negb (status_code =? 200)
                then (None, say ("Error getting SMS (poll), status: "
                                 ++ PyStr.str_of_nat status_code) st)
                else
                  match json with
                  | Raise e => failed (msg e) st
                  | Ok res =>
                      match populated res with
                      | Some v => (Some v, say ("SMS received: " ++ py_str v) st)
                      | None => poll p retries' res st
                      end
                  end
            end
      end
  end.

(** Lines 133-192: the value returned is the [sms] entry as decoded,
    whatever its type, or [None]. *)
Definition get_smspool_sms (cfg : Config) (p : provider)
  : option json * poll_state :=
  if String.eqb (SMSPOOL_KEY cfg) ""
  then (None, say "SMSPool API key not configured" start)
  else
    let (response, st) := post p start in
    match response with
    | HttpRaises e => failed (msg e) st
    | HttpReply status_code json =>
        if negb (status_code =? 200)
        then (None, say ("Error getting SMS, status: "
                         ++ PyStr.str_of_nat status_code) st)
        else
          match json with
          | Raise e => failed (msg e) st
          | Ok res =>
              match populated res with
              | Some v => (Some v, say ("SMS found: " ++ py_str v) st)
              | None => poll p 6 res st
              end
          end
    end.

(** A check response the claim speaks of: status 200, time left, no SMS. *)
Definition still_waiting (r : http check_json) : Prop :=
  exists res, r = HttpReply 200 (Ok res) /\ populated res = None
              /\ exists t, int_time_left res = Ok t /\ (0 < t)%Z.

(** A check response whose reported budget has run out, with no SMS. *)
Definition budget_expired (r : http check_json) : Prop :=
  exists res, r = HttpReply 200 (Ok res) /\ populated res = None
              /\ exists t, int_time_left res = Ok t /\ (t <= 0)%Z.

(** A decoded check response that keeps the loop going. *)
Definition waiting (res : check_json) : Prop :=
  populated res = None /\ exists t, int_time_left res = Ok t /\ (0 < t)%Z.

(** A provider that reports two minutes left until request [k], and an
    expired budget from then on. *)
Definition patient_until (k : nat) : provider :=
  fun n => HttpReply 200
             (Ok {| sms := None;
                    time_left := TimeLeftInt (if n <? k then 120 else 0) |}).

(** A provider that reports two minutes left for ever. *)
Definition always_patient : provider :=
  fun _ => HttpReply 200 (Ok {| sms := None; time_left := TimeLeftInt 120 |}).

End Sms.

(** ** Number purchase and the bypass (handle_phone_verification) *)

Module Phone.
Import Base Json.

(** Lines 97-131: the decoded purchase response, or [None]. *)
Definition get_smspool_number (cfg : Config) (purchase : http json) : option json :=
  if String.eqb (SMSPOOL_KEY cfg) "" then None
  else
    match purchase with
    | HttpRaises _ => None
    | HttpReply status_code body =>
        if negb (status_code =? 200) then None
        else match body with
             | Ok data => Some data
             | Raise _ => None
             end
    end.

(** Lines 245-248 and 251-254:
    [for key in keys: if key in number_data: v = number_data[key]; break],
    with [v = None] before the loop. *)
Fixpoint probe (keys : list string) (number_data : json) : result json :=
  match keys with
  | key :: keys' =>
      match py_in key number_data with
      | Raise e => Raise e
      | Ok true => getitem number_data key
      | Ok false => probe keys' number_data
      end
  | [] => Ok JNull
  end.

Definition phone_keys : list string := ["number"; "phone"; "msisdn"; "phonenumber"].
Definition order_keys : list string := ["orderid"; "order_id"; "orderId"; "id"].

(** Lines 240-259: the pair [(phone_number, order_id)]. *)
Definition extract_ids (number_data : json) : result (json * json) :=
  match probe phone_keys number_data with
  | Raise e => Raise e
  | Ok phone_number =>
      match probe order_keys number_data with
      | Raise e => Raise e
      | Ok order_id =>
          if truthy phone_number then Ok (phone_number, order_id)
          else
            match py_in "result" number_data with
            | Raise e => Raise e
            | Ok false => Ok (phone_number, order_id)
            | Ok true =>
                match getitem number_data "result" with
                | Raise e => Raise e
                | Ok (JDict r) =>
                    Ok (py_or (dict_get r "number") (dict_get r "phone"),
                        py_or (dict_get r "orderid") (dict_get r "order_id"))
                | Ok _ => Ok (phone_number, order_id)
                end
            end
      end
  end.

(** What the browser and the SMS service do during one bypass. *)
Record PhoneEnv := {
  (* lines 217-226: some selector finds the phone input; an exception
     other than Timeout/NoSuchElement leaves the loop *)
  phone_input : result bool;
  (* the reply of the purchase endpoint *)
  purchase : http json;
  (* lines 272-273: phone_input.clear(); human_type(...) *)
  type_number : result unit;
  (* the check endpoint, for a given order id *)
  check : json -> Sms.provider;
  (* lines 326-359: some selector or the maxlength scan finds the OTP input *)
  otp_input : bool;
  (* lines 367-368: otp_input.clear(); human_type(...) *)
  type_otp : result unit
}.

(** How the [try] body of lines 204-391 ends. *)
Inductive ended :=
| Returned (b : bool)
| Raised (e : exn).

(** Lines 204-391.  The clicks on the Next and Verify buttons swallow
    every exception and do not influence the result.  [sms_text] is
    whatever [get_smspool_sms] returned, Python's [None] being [JNull]. *)
Definition bypass_body (cfg : Config) (env : PhoneEnv) : ended * list event :=
  match phone_input env with
  | Raise e => (Raised e, [])
  | Ok false => (Returned false, [EvLog "No phone verification prompt detected"])
  | Ok true =>
      match get_smspool_number cfg (purchase env) with
      | None => (Returned false, [EvLog "Failed to get phone number from SMSPool"])
      | Some number_data =>
          if negb (truthy number_data)
          then (Returned false, [EvLog "Failed to get phone number from SMSPool"])
          else
            match extract_ids number_data with
            | Raise e => (Raised e, [])
            | Ok (phone_number, order_id) =>
                if negb (truthy phone_number)
                then (Returned false, [EvLog "No phone number found in SMSPool response"])
                else
                  match type_number env with
                  | Raise e => (Raised e, [])
                  | Ok _ =>
                      if negb (truthy order_id)
                      then (Returned false, [EvLog "No order ID available for SMS polling"])
                      else
                        let sms_text :=
                          match fst (Sms.get_smspool_sms cfg (check env order_id)) with
                          | Some v => v
                          | None => JNull
                          end in
                        if negb (truthy sms_text)
                        then (Returned false,
                              [EvLog "Failed to retrieve SMS code";
                               EvScreenshot "phone_verification_no_sms"])
                        else
                          match sms_text with
                          | JStr sms_text =>
                              let otp_code := Otp.extract_otp sms_text in
                              let extracted :=
                                EvLog ("OTP code extracted: " ++ otp_code) in
                              if negb (otp_input env)
                              then (Returned false,
                                    [extracted;
                                     EvLog "Could not find OTP input field";
                                     EvScreenshot "phone_verification_no_otp_input"])
                              else
                                match type_otp env with
                                | Raise e => (Raised e, [extracted])
                                | Ok _ =>
                                    (Returned true,
                                     [extracted;
                                      EvLog "Phone verification completed successfully"])
                                end
                          | _ =>
                              (* line 316: [re.search] on a value that is not a [str] *)
                              (Raised (Exn OtherException
                                         "TypeError: expected string or bytes-like object"),
                               [])
                          end
                  end
            end
      end
  end.

(** Lines 194-397: the [try] body under its [except Exception] handler. *)
Definition handle_phone_verification (cfg : Config) (env : PhoneEnv)
  : bool * list event :=
  if negb (ENABLE_PHONE_VERIFICATION cfg)
  then (false, [EvLog "Phone verification is disabled"])
  else
    match bypass_body cfg env with
    | (Returned b, evs) => (b, evs)
    | (Raised e, evs) =>
        (false,
         (evs ++ [EvLog ("Error during phone verification: " ++ msg e);
                  EvScreenshot "phone_verification_error"])%list)
    end.

(** The extraction rules in the spec's words: the key names
    number/phone/msisdn for the phone number and orderid/order_id/id for
    the order identifier, probed at the top level and, if absent there,
    inside a nested [result] object; the first rule that yields a value
    wins, and "no match" is [None]. *)
Definition spec_lookup (key : string) (x : json) : option json :=
  match x with
  | JDict d => assoc key d
  | _ => None
  end.

Definition spec_nested (key : string) (x : json) : option json :=
  match spec_lookup "result" x with
  | Some r => spec_lookup key r
  | None => None
  end.

Fixpoint first_success (rules : list (json -> option json)) (x : json) : option json :=
  match rules with
  | rule :: rules' =>
      match rule x with
      | Some v => Some v
      | None => first_success rules' x
      end
  | [] => None
  end.

Definition spec_rules (keys : list string) : list (json -> option json) :=
  (map spec_lookup keys ++ map spec_nested keys)%list.

Definition spec_phone_number : json -> option json :=
  first_success (spec_rules ["number"; "phone"; "msisdn"]).

Definition spec_order_id : json -> option json :=
  first_success (spec_rules ["orderid"; "order_id"; "id"]).

(** The value a mapping holds under the first of [keys] it has, [None]
    when it has none of them. *)
Fixpoint first_present (keys : list string) (d : list (string * json)) : json :=
  match keys with
  | key :: keys' =>
      match assoc key d with
      | Some v => v
      | None => first_present keys' d
      end
  | [] => JNull
  end.

(** The nested [result] mapping of a response, if it has one. *)
Definition nested_result (d : list (string * json)) : option (list (string * json)) :=
  match assoc "result" d with
  | Some (JDict r) => Some r
  | _ => None
  end.

(** The phone number the code ends up with is not usable: probing
    raised, or the value is missing or falsy. *)
Definition no_usable_phone (number_data : json) : Prop :=
  match extract_ids number_data with
  | Ok (phone_number, _) => truthy phone_number = false
  | Raise _ => True
  end.

(** Two purchase responses: a top-level number with the order id only
    in the nested object, and a nested object that uses the key names
    msisdn and id. *)
Definition order_only_nested : json :=
  JDict [("number", JStr "15551234567");
         ("result", JDict [("orderid", JStr "A1")])].

Definition nested_msisdn : json :=
  JDict [("result", JDict [("msisdn", JStr "15551234567"); ("id", JStr "77")])].

(** A purchase response with number and order id in the nested object. *)
Definition nested_order : json :=
  JDict [("result", JDict [("number", JStr "15551234567"); ("orderid", JStr "A1")])].

(** A bypass in which everything works and the check endpoint answers
    at once with the given [sms] entry. *)
Definition answering_env (entry : json) : PhoneEnv :=
  {| phone_input := Ok true;
     purchase := HttpReply 200 (Ok nested_order);
     type_number := Ok tt;
     check := fun _ _ =>
                HttpReply 200 (Ok {| Sms.sms := Some entry;
                                     Sms.time_left := Sms.TimeLeftAbsent |});
     otp_input := true;
     type_otp := Ok tt |}.

(** A bypass in which the prompt shows up and the purchase answers with
    [nested_msisdn]. *)
Definition msisdn_env : PhoneEnv :=
  {| phone_input := Ok true;
     purchase := HttpReply 200 (Ok nested_msisdn);
     type_number := Ok tt;
     check := fun _ => Sms.always_patient;
     otp_input := true;
     type_otp := Ok tt |}.

End Phone.

(** ** Worklist ingestion and batching (read_google_sheet, main) *)

Module Worklist.
Import Base.

(** Lines 45-51, for one row of the parsed CSV. *)
Definition pad_row (row : list string) : list string :=
  let row := if length row <? 5
             then (row ++ repeat "" (5 - length row))%list else row in
  let row := if length row <? 6 then (row ++ ["pending"])%list else row in
  let row := if length row <? 7 then (row ++ [""])%list else row in
  row.

(** Lines 38-52, from the parsed CSV ([csv_reader[0]] raises on an empty one). *)
Definition read_google_sheet (csv_reader : list (list string))
  : result (list string * list (list string)) :=
  match csv_reader with
  | header :: rows => Ok (header, map pad_row rows)
  | [] => Raise (Exn OtherException "IndexError: list index out of range")
  end.

(** [header.index(name)] when [name in header]. *)
Fixpoint index_of (name : string) (header : list string) : option nat :=
  match header with
  | h :: header' =>
      if String.eqb h name then Some 0
      else option_map S (index_of name header')
  | [] => None
  end.

(** [s.isdigit()], restricted to Latin-1: the ASCII digits and the
    superscripts one, two and three. *)
Definition isdigit_char (c : ascii) : bool :=
  let n := nat_of_ascii c in
  PyStr.is_digit c || (n =? 178) || (n =? 179) || (n =? 185).

Definition isdigit (s : string) : bool :=
  negb (String.eqb s "") && PyStr.all_chars isdigit_char s.

(** The value of a string of ASCII digits. *)
Fixpoint decimal (acc : nat) (s : string) : nat :=
  match s with
  | String c s' => decimal (10 * acc + (nat_of_ascii c - 48)) s'
  | EmptyString => acc
  end.

(** The white space [int()] skips around the digits of a [str],
    restricted to Latin-1: TAB..CR, SPACE, NEL and NBSP.  Unlike
    [str.strip()], it does not skip the separators FS..US. *)
Definition int_space (c : ascii) : bool :=
  let n := nat_of_ascii c in
  ((9 <=? n) && (n <=? 13)) || (n =? 32) || (n =? 133) || (n =? 160).

Fixpoint int_lstrip (s : string) : string :=
  match s with
  | String c s' => if int_space c then int_lstrip s' else s
  | EmptyString => EmptyString
  end.

Fixpoint int_rstrip (s : string) : string :=
  match s with
  | String c s' =>
      match int_rstrip s' with
      | EmptyString => if int_space c then EmptyString else String c EmptyString
      | r => String c r
      end
  | EmptyString => EmptyString
  end.

Definition int_strip (s : string) : string := int_rstrip (int_lstrip s).

(** [sys.int_info.default_max_str_digits]: CPython 3.11 and later refuse
    to convert a string of more digits. *)
Definition int_max_str_digits : nat := 4300.

(** [int(s)] for a cell [s] whose [s.strip()] passed [isdigit()], so
    that it holds neither sign nor underscore: ValueError on a
    superscript digit, on a separator FS..US left around the digits, and
    on more than [int_max_str_digits] digits. *)
Definition py_int (s : string) : result nat :=
  let t := int_strip s in
  if negb (String.eqb t "") && PyStr.all_chars PyStr.is_digit t
     && (String.length t <=? int_max_str_digits)
  then Ok (decimal 0 t)
  else Raise (Exn OtherException "ValueError: invalid literal for int()").

(** A cell that reads as a number: between 1 and [int_max_str_digits]
    ASCII digits, with nothing around them but white space that [int()]
    skips. *)
Definition plain_number (pre digits post : string) : Prop :=
  PyStr.all_chars int_space pre = true
  /\ PyStr.all_chars int_space post = true
  /\ digits <> ""
  /\ PyStr.all_chars PyStr.is_digit digits = true
  /\ String.length digits <= int_max_str_digits.

Definition DEFAULT_MAX_PARALLEL_TABS : nat := 1.

(** Lines 874-883: every exception falls back to the default. *)
Definition max_parallel_tabs (header : list string) (rows : list (list string)) : nat :=
  match index_of "max_parallel_tabs" header with
  | None => DEFAULT_MAX_PARALLEL_TABS
  | Some idx =>
      match rows with
      | [] => DEFAULT_MAX_PARALLEL_TABS
      | row0 :: _ =>
          match nth_error row0 idx with
          | None => DEFAULT_MAX_PARALLEL_TABS
          | Some cell =>
              if isdigit (PyStr.strip cell)
              then match py_int cell with
                   | Ok n => n
                   | Raise _ => DEFAULT_MAX_PARALLEL_TABS
                   end
              else DEFAULT_MAX_PARALLEL_TABS
          end
      end
  end.

(** The arguments of one [threading.Thread(target=process_single_account, ...)]. *)
Record launch := {
  gemail : string;
  gpassword : string;
  instantly_email : string;
  instantly_password : string;
  worker_id : string
}.

(** Line 891: the status the coordinator filters on. *)
Definition row_status (row : list string) : string :=
  PyStr.lower (PyStr.strip (nth 4 row "")).

(** Lines 890-901 for one row of the batch that starts at index [i];
    [None] when the row is skipped. *)
Definition launch_row (i : nat) (row : list string) : option launch :=
  if String.eqb (row_status row) "done" then None
  else Some {| gemail := PyStr.strip (nth 0 row "");
               gpassword := PyStr.strip (nth 1 row "");
               instantly_email := PyStr.strip (nth 2 row "");
               instantly_password := PyStr.strip (nth 3 row "");
               worker_id := "thread_" ++ PyStr.str_of_nat (i + 1) |}.

Fixpoint launch_batch (i : nat) (batch : list (list string)) : list launch :=
  match batch with
  | row :: batch' =>
      match launch_row i row with
      | Some l => l :: launch_batch i batch'
      | None => launch_batch i batch'
      end
  | [] => []
  end.

(** [range(0, n, step)] for [step > 0]. *)
Definition range_step (n step : nat) : list nat :=
  map (fun k => k * step) (seq 0 ((n + step - 1) / step)).

(** Lines 887-904: the threads started, batch by batch.  [range] raises
    ValueError on a zero step. *)
Definition schedule (width : nat) (rows : list (list string))
  : result (list (list launch)) :=
  if width =? 0
  then Raise (Exn OtherException "ValueError: range() arg 3 must not be zero")
  else Ok (map (fun i => launch_batch i (firstn width (skipn i rows)))
               (range_step (length rows) width)).

(** Lines 870-904, from the parsed CSV. *)
Definition main (csv_reader : list (list string)) : result (list (list launch)) :=
  match read_google_sheet csv_reader with
  | Raise e => Raise e
  | Ok (header, rows) => schedule (max_parallel_tabs header rows) rows
  end.

(** Line 447. *)
Definition user_data_dir (worker_id : string) (pid randint : N) : string :=
  "/tmp/seleniumbase_user_data_" ++ worker_id ++ "_" ++ PyStr.str_of_N pid
  ++ "_" ++ PyStr.str_of_N randint.

(** A sheet with the coordinator's five columns and a width column, and
    two pending rows. *)
Definition two_pending : list (list string) :=
  [ ["gemail"; "gpassword"; "instantly_email"; "instantly_password"; "status";
     "max_parallel_tabs"];
    ["a@x.com"; "pa"; "host@x.com"; "hp"; "pending"; "2"];
    ["b@x.com"; "pb"; "host@x.com"; "hp"; "pending"; ""] ].

(** The same sheet with the separator U+001F before the width. *)
Definition separator_sheet : list (list string) :=
  [ ["gemail"; "gpassword"; "instantly_email"; "instantly_password"; "status";
     "max_parallel_tabs"];
    ["a@x.com"; "pa"; "host@x.com"; "hp"; "pending";
     String (ascii_of_nat 31) "2"];
    ["b@x.com"; "pb"; "host@x.com"; "hp"; "pending"; ""] ].

End Worklist.

(** ** Element resolver (find_and_click_element) *)

Module Resolver.
Import Base.

(** The document the driver's commands act on. *)
Inductive context :=
| Top
| InFrame (iframe : nat).

(** The browser as the resolver meets it.  Every driver call advances a
    clock, and the page answers by the time of the call. *)
Record Page := {
  (* driver.find_elements(By.TAG_NAME, 'iframe') *)
  find_iframes : nat -> context -> result (list nat);
  (* driver.switch_to.frame(iframe) *)
  switch_to_frame : nat -> nat -> result unit;
  (* WebDriverWait(driver, timeout).until(element_to_be_clickable(selector))
     followed by the click (JavaScript or native) *)
  wait_click : nat -> context -> string -> nat -> bool -> result unit;
  (* driver.switch_to.default_content() *)
  default_content : nat -> result unit
}.

(** The driver calls made, in order. *)
Inductive action :=
| ListFrames
| Enter (iframe : nat)
| Search (where_ : context) (selector : string)
| Leave.

Record driver_state := {
  ctx : context;
  clock : nat;
  actions : list action
}.

Definition start : driver_state := {| ctx := Top; clock := 0; actions := [] |}.

Definition tick (a : action) (c : context) (st : driver_state) : driver_state :=
  {| ctx := c; clock := S (clock st); actions := (actions st ++ [a])%list |}.

Definition list_frames (p : Page) (st : driver_state)
  : result (list nat) * driver_state :=
  (find_iframes p (clock st) (ctx st), tick ListFrames (ctx st) st).

(** A failed switch leaves the context where it was. *)
Definition enter (p : Page) (iframe : nat) (st : driver_state)
  : result unit * driver_state :=
  match switch_to_frame p (clock st) iframe with
  | Ok u => (Ok u, tick (Enter iframe) (InFrame iframe) st)
  | Raise e => (Raise e, tick (Enter iframe) (ctx st) st)
  end.

Definition leave (p : Page) (st : driver_state) : result unit * driver_state :=
  match default_content p (clock st) with
  | Ok u => (Ok u, tick Leave Top st)
  | Raise e => (Raise e, tick Leave (ctx st) st)
  end.

Definition search (p : Page) (selector : string) (timeout : nat) (js : bool)
  (st : driver_state) : result unit * driver_state :=
  (wait_click p (clock st) (ctx st) selector timeout js,
   tick (Search (ctx st) selector) (ctx st) st).

(** How the loop over the iframes of lines 405-421 ends. *)
Inductive frames_end :=
| Clicked                (* return True, line 418 *)
| Exhausted              (* the loop ran out of iframes *)
| Escaped (e : exn).     (* an exception reaches the handler of line 437 *)

(** Lines 405-421. *)
Fixpoint search_frames (p : Page) (selector : string) (timeout : nat) (js : bool)
  (iframes : list nat) (st : driver_state) : frames_end * driver_state :=
  match iframes with
  | [] => (Exhausted, st)
  | iframe :: iframes' =>
      match enter p iframe st with
      | (Raise e, st) => (Escaped e, st)
      | (Ok _, st) =>
          (* the inner try: wait, click, default_content, return True *)
          let (clicked, st) :=
            match search p selector timeout js st with
            | (Ok _, st) =>
                match leave p st with
                | (Ok _, st) => (true, st)
                | (Raise _, st) => (false, st)
                end
            | (Raise _, st) => (false, st)
            end in
          if clicked then (Clicked, st)
          else
            (* the bare except of line 419 *)
            match leave p st with
            | (Ok _, st) => search_frames p selector timeout js iframes' st
            | (Raise e, st) => (Escaped e, st)
            end
      end
  end.

(** How the body of the loop over the selectors ends. *)
Inductive attempt_end :=
| Hit                    (* return True *)
| Miss                   (* continue with the next selector *)
| Fatal (e : exn).       (* the exception leaves the function *)

(** The handler of lines 437-439. *)
Definition recover (p : Page) (st : driver_state) : attempt_end * driver_state :=
  match leave p st with
  | (Ok _, st) => (Miss, st)
  | (Raise e, st) => (Fatal e, st)
  end.

(** Lines 402-439, for one selector. *)
Definition try_selector (p : Page) (selector : string) (timeout : nat) (js : bool)
  (st : driver_state) : attempt_end * driver_state :=
  match list_frames p st with
  | (Raise _, st) => recover p st
  | (Ok iframes, st) =>
      match search_frames p selector timeout js iframes st with
      | (Clicked, st) => (Hit, st)
      | (Escaped _, st) => recover p st
      | (Exhausted, st) =>
          match leave p st with
          | (Raise _, st) => recover p st
          | (Ok _, st) =>
              match search p selector timeout js st with
              | (Ok _, st) => (Hit, st)
              | (Raise _, st) => (Miss, st)
              end
          end
      end
  end.

(** Lines 399-441. *)
Fixpoint find_and_click_element (p : Page) (selectors : list string)
  (timeout : nat) (js : bool) (st : driver_state) : result bool * driver_state :=
  match selectors with
  | [] => (Ok false, st)
  | selector :: selectors' =>
      match try_selector p selector timeout js st with
      | (Hit, st) => (Ok true, st)
      | (Miss, st) => find_and_click_element p selectors' timeout js st
      | (Fatal e, st) => (Raise e, st)
      end
  end.

(** A page that does not change and whose driver calls never fail apart
    from the wait timing out: [iframes] are its frames and [clickable]
    tells where a selector finds a clickable element. *)
Definition static_page (iframes : list nat) (clickable : context -> string -> bool)
  : Page :=
  {| find_iframes := fun _ _ => Ok iframes;
     switch_to_frame := fun _ _ => Ok tt;
     wait_click := fun _ c selector _ _ =>
       if clickable c selector then Ok tt
       else Raise (Exn SeleniumWait "TimeoutException");
     default_content := fun _ => Ok tt |}.

(** The search order in the spec's words, on such a page: for each
    locator, every frame is entered, searched and left again; then the
    top-level document is searched; the first match ends the search. *)
Fixpoint spec_frames (clickable : context -> string -> bool) (selector : string)
  (iframes : list nat) : bool * list action :=
  match iframes with
  | [] => (false, [])
  | f :: iframes' =>
      let visit := [Enter f; Search (InFrame f) selector; Leave] in
      if clickable (InFrame f) selector then (true, visit)
      else let (hit, l) := spec_frames clickable selector iframes' in
           (hit, (visit ++ l)%list)
  end.

Fixpoint spec_resolve (iframes : list nat) (clickable : context -> string -> bool)
  (selectors : list string) : bool * list action :=
  match selectors with
  | [] => (false, [])
  | selector :: selectors' =>
      let (hit, l) := spec_frames clickable selector iframes in
      if hit then (true, (ListFrames :: l)%list)
      else
        let top := [Leave; Search Top selector] in
        if clickable Top selector then (true, (ListFrames :: l ++ top)%list)
        else let (hit', l') := spec_resolve iframes clickable selectors' in
             (hit', (ListFrames :: l ++ top ++ l')%list)
  end.

(** The state after the driver calls [l], made from [st], when the
    last of them left the context at the top-level document. *)
Definition advance (l : list action) (st : driver_state) : driver_state :=
  {| ctx := Top; clock := clock st + length l; actions := (actions st ++ l)%list |}.

(** A page with one frame where only the top-level document has the
    second of two buttons. *)
Definition one_frame_page : Page :=
  static_page [7] (fun c selector =>
                     match c with
                     | Top => String.eqb selector "b"
                     | InFrame _ => false
                     end).

End Resolver.

(** ** Per-account workflow (process_single_account) *)

Module Workflow.
Import Base.

(** How a block of statements ends: it falls through with a value, it
    executes [return b], or it raises. *)
Inductive ctl (A : Type) : Type :=
| Next (a : A)
| Return (b : bool)
| Throw (e : exn).
Arguments Next {A} a.
Arguments Return {A} b.
Arguments Throw {A} e.

(** A block: how it ends and the effects it had. *)
Definition M (A : Type) : Type := (ctl A * list event)%type.

Definition ret {A : Type} (a : A) : M A := (Next a, []).

Definition bind {A B : Type} (m : M A) (f : A -> M B) : M B :=
  match m with
  | (Next a, evs) => let (c, evs') := f a in (c, (evs ++ evs')%list)
  | (Return b, evs) => (Return b, evs)
  | (Throw e, evs) => (Throw e, evs)
  end.

Notation "m ;; k" := (bind m (fun _ => k))
  (at level 61, right associativity).

Definition emit (ev : event) : M unit := (Next tt, [ev]).
Definition throw {A : Type} (e : exn) : M A := (Throw e, []).
Definition return_ {A : Type} (b : bool) : M A := (Return b, []).

(** A driver call whose outcome the environment decides. *)
Definition call (r : result unit) : M unit :=
  match r with
  | Ok _ => ret tt
  | Raise e => throw e
  end.

(** [try: m  except <classes> as e: h e] *)
Definition try_except {A : Type} (m : M A) (handles : exn -> bool)
  (h : exn -> M A) : M A :=
  match m with
  | (Throw e, evs) =>
      if handles e then let (c, evs') := h e in (c, (evs ++ evs')%list)
      else (Throw e, evs)
  | _ => m
  end.

Definition any_exception (_ : exn) : bool := true.

(** The places where [driver.quit()] is called. *)
Inductive quit_site :=
| QuitContinueElse        (* line 784 *)
| QuitContinueHandler     (* line 793 *)
| QuitAllowHandler        (* line 816 *)
| QuitFinally.            (* line 865 *)

(** What the outside world does during one execution. *)
Record Env := {
  pid : N;                                  (* os.getpid() *)
  randint : N;                              (* random.randint(1000, 9999) *)
  new_driver : result unit;                 (* Driver(...) *)
  (* the driver calls of the [try] body of a step, named by its
     screenshot label, at a given attempt *)
  browser : string -> nat -> result unit;
  (* driver.is_element_visible(...) in the named step *)
  visible : string -> result bool;
  phone : Phone.PhoneEnv;
  page : Resolver.Page;                     (* the page at the Continue gate *)
  quit : quit_site -> result unit           (* driver.quit() *)
}.

(** The draw of line 447 lies in the range of [random.randint(1000, 9999)]. *)
Definition valid_env (env : Env) : Prop := (1000 <= randint env <= 9999)%N.

(** A mandatory step: screenshot label, the name used in the retry line,
    the failure message and the success line. *)
Record step := {
  shot : string;
  what : string;
  failure : string;
  success : string
}.

Section Steps.
Variable cfg : Config.
Variable env : Env.
Variable gemail : string.

(** Screenshot, status report and [raise Exception(error_message)]. *)
Definition escalate (label error_message : string) : M unit :=
  emit (EvScreenshot label) ;;
  emit (EvReport gemail ("issue: " ++ error_message)) ;;
  throw (Exn OtherException error_message).

(** [try: ...  except Exception as e: <escalate>] (steps 1, 9 and 16). *)
Definition fatal_step (s : step) : M unit :=
  try_except
    (call (browser env (shot s) 0) ;; emit (EvLog (success s)))
    any_exception
    (fun e => escalate (shot s) (failure s ++ ": " ++ msg e)).

(** [for attempt in range(3): try: ...; break
     except (Stale..., Timeout..., NoSuchElement...) as e: ...]. *)
Fixpoint retry_step (s : step) (attempts : list nat) : M unit :=
  match attempts with
  | [] => ret tt
  | attempt :: attempts' =>
      match browser env (shot s) attempt with
      | Ok _ => emit (EvLog (success s))
      | Raise e =>
          if is_selenium e then
            emit (EvLog ("Retry " ++ PyStr.str_of_nat (attempt + 1) ++ "/3 for "
                         ++ what s ++ ": " ++ msg e)) ;;
            if attempt =? 2
            then escalate (shot s) (failure s ++ ": " ++ msg e)
            else retry_step s attempts'
          else throw e
      end
  end.

Definition mandatory (s : step) : M unit := retry_step s [0; 1; 2].

(** [try: ...  except Exception as e: print(...)] *)
Definition optional_step (label done_line skipped_line : string) : M unit :=
  match browser env label 0 with
  | Ok _ => emit (EvLog done_line)
  | Raise e => emit (EvLog (skipped_line ++ ": " ++ msg e))
  end.

Definition emit_all (evs : list event) : M unit := (Next tt, evs).

Definition quit_driver (site : quit_site) : M unit :=
  emit EvQuit ;; call (quit env site).

(** Step 12.5, lines 668-680. *)
Definition phone_step : M unit :=
  let (handled, evs) := Phone.handle_phone_verification cfg (phone env) in
  emit_all evs ;;
  emit (EvLog (if handled
               then "Phone verification was successfully handled"
               else "No phone verification required or feature disabled")).

(** Step 13, lines 682-758: the search for the acknowledgement button
    reports nothing and absorbs its own failures (call 0 of the step);
    when it still ends in the handler of line 755, a screenshot is taken
    and the document context is reset by a call of its own (call 1 of
    the step), whose exception is not caught here. *)
Definition understand_step : M unit :=
  match browser env "i_understand_button" 0 with
  | Ok _ => ret tt
  | Raise e =>
      emit (EvLog ("General error checking 'I understand' button: " ++ msg e)) ;;
      emit (EvScreenshot "i_understand_button") ;;
      call (browser env "i_understand_button" 1)
  end.

Definition continue_btns : list string :=
  map PyStr.xpath
  [ "//button[span[text()='Continue']]";
    "//button[contains(., 'Continue')]";
    "//button[span[contains(text(), 'Continue')]]";
    "//div[@role='button' and contains(., 'Continue')]";
    "//button[@id='submit']";
    "//button[@type='button' and contains(., 'Continue')]";
    "//button[contains(@class, 'VfPpkd-LgbsSe') and contains(., 'Continue')]";
    "//button[@jsname='LgbsSe']";
    "//input[@type='submit' and contains(@value, 'Continue')]";
    "//button[contains(text(), 'Continue')]" ].

(** Step 14, lines 760-795. *)
Definition continue_gate : M unit :=
  try_except
    (match fst (Resolver.find_and_click_element (page env) continue_btns 10 true
                  Resolver.start) with
     | Raise e => throw e
     | Ok true => emit (EvLog "Successfully clicked Continue button")
     | Ok false =>
         let error_message :=
           "Continue button not found within 10 seconds - closing browser" in
         emit (EvLog error_message) ;;
         emit (EvScreenshot "continue_button_not_found") ;;
         emit (EvReport gemail ("issue: " ++ error_message)) ;;
         quit_driver QuitContinueElse ;;
         emit (EvLog ("Browser closed for " ++ gemail ++ " - Continue button timeout")) ;;
         return_ false
     end)
    is_selenium
    (fun e =>
       let error_message := "Continue button not found within 10 seconds: " ++ msg e in
       emit (EvLog error_message) ;;
       emit (EvScreenshot "continue_button_error") ;;
       emit (EvReport gemail ("issue: " ++ error_message)) ;;
       quit_driver QuitContinueHandler ;;
       emit (EvLog ("Browser closed for " ++ gemail ++ " - Continue button error")) ;;
       return_ false).

(** Step 15, lines 797-818. *)
Definition allow_gate : M unit :=
  try_except
    (call (browser env "allow_button" 0) ;;
     emit (EvLog "Clicked Allow button") ;;
     emit (EvReport gemail "done"))
    is_selenium
    (fun e =>
       let error_message := "Allow button not found within 10 seconds: " ++ msg e in
       emit (EvLog error_message) ;;
       emit (EvScreenshot "allow_button_not_found") ;;
       emit (EvReport gemail ("issue: " ++ error_message)) ;;
       quit_driver QuitAllowHandler ;;
       emit (EvLog ("Browser closed for " ++ gemail ++ " - Allow button timeout")) ;;
       return_ false).

(** Steps 1 to 13, lines 454-758. *)
Definition before_gates : M unit :=
  call (browser env "maximize_window" 0) ;;
  fatal_step {| shot := "navigate_instantly"; what := "";
                failure := "Failed to navigate to Instantly login";
                success := "Navigated to Instantly login page for " ++ gemail |} ;;
  mandatory {| shot := "instantly_email_input"; what := "email input";
               failure := "Failed to enter Instantly email";
               success := "Entered Instantly email" |} ;;
  mandatory {| shot := "instantly_password_input"; what := "password input";
               failure := "Failed to enter Instantly password";
               success := "Entered Instantly password" |} ;;
  mandatory {| shot := "instantly_login_button"; what := "login button";
               failure := "Failed to click Instantly login button";
               success := "Clicked Instantly login button" |} ;;
  mandatory {| shot := "add_new_button"; what := "Add New button";
               failure := "Failed to click Add New button";
               success := "Clicked Add New button" |} ;;
  mandatory {| shot := "gmail_option"; what := "Gmail option";
               failure := "Failed to click Gmail option";
               success := "Clicked Gmail option" |} ;;
  mandatory {| shot := "oauth_option"; what := "OAuth option";
               failure := "Failed to click OAuth option";
               success := "Clicked OAuth option" |} ;;
  mandatory {| shot := "oauth_login_button"; what := "OAuth Login button";
               failure := "Failed to click OAuth Login button";
               success := "Clicked Login button for OAuth" |} ;;
  fatal_step {| shot := "switch_window"; what := "";
                failure := "Failed to switch to Google login window";
                success := "Switched to Google login window..." |} ;;
  optional_step "use_another_account" "Clicked Use another account"
                "Could not click Use another account (optional)" ;;
  mandatory {| shot := "gmail_email_input"; what := "Gmail email input";
               failure := "Failed to enter Gmail email or click Next";
               success := "Entered Gmail email and clicked Next" |} ;;
  mandatory {| shot := "gmail_password_input"; what := "Gmail password input";
               failure := "Failed to enter Gmail password or click Next";
               success := "Entered Gmail password and clicked Next" |} ;;
  phone_step ;;
  understand_step.

(** Lines 833-840. *)
Definition success_check : M unit :=
  match visible env "success_message" with
  | Ok true => emit (EvLog ("Success message found for " ++ gemail))
  | Ok false =>
      emit (EvLog "Success message not found, but process completed successfully")
  | Raise e =>
      emit (EvLog ("Error checking success message (non-critical): " ++ msg e))
  end.

(** Lines 843-850. *)
Definition back_step : M unit :=
  match visible env "back_button" with
  | Ok true =>
      optional_step "back_button" "Clicked Back button"
                    "Could not click Back button (optional)"
  | Ok false => ret tt
  | Raise e => emit (EvLog ("Could not click Back button (optional): " ++ msg e))
  end.

(** Steps 16 and 17, lines 820-854. *)
Definition after_gates : M unit :=
  fatal_step {| shot := "switch_back_window"; what := "";
                failure := "Failed to switch back to main window";
                success := "Switched back to main window..." |} ;;
  success_check ;;
  back_step ;;
  emit (EvLog ("Successfully completed process for " ++ gemail)) ;;
  return_ true.

(** The [try] body after the driver exists, lines 454-854. *)
Definition steps : M unit :=
  before_gates ;; continue_gate ;; allow_gate ;; after_gates.

(** The handler of lines 856-861. *)
Definition on_exception (e : exn) : list event :=
  [EvLog ("Error processing " ++ gemail ++ ": " ++ msg e);
   EvReport gemail ("issue: " ++ msg e)].

(** The [finally] block of lines 862-868, when [driver] is set. *)
Definition cleanup : list event :=
  match quit env QuitFinally with
  | Ok _ => [EvQuit; EvLog ("Browser closed for " ++ gemail)]
  | Raise e => [EvQuit; EvLog ("Failed to close browser for " ++ gemail ++ ": " ++ msg e)]
  end.

(** Lines 443-868.  When [Driver(...)] raises, [driver] is still [None]
    and the [finally] block closes nothing.  The body never falls off
    its end: it finishes with [return True]. *)
Definition process_single_account
  (gpassword instantly_email instantly_password worker_id : string)
  : bool * list event :=
  match new_driver env with
  | Raise e => (false, on_exception e)
  | Ok _ =>
      let dir := Worklist.user_data_dir worker_id (pid env) (randint env) in
      match emit (EvDriverStart dir) ;; steps with
      | (Throw e, evs) => (false, (evs ++ on_exception e ++ cleanup)%list)
      | (Return b, evs) => (b, (evs ++ cleanup)%list)
      | (Next _, evs) => (false, (evs ++ cleanup)%list)
      end
  end.

End Steps.

(** The statuses reported, in order. *)
Fixpoint reports (evs : list event) : list string :=
  match evs with
  | EvReport _ status :: evs' => status :: reports evs'
  | _ :: evs' => reports evs'
  | [] => []
  end.

(** A status of the form [issue: ...]. *)
Definition is_issue (status : string) : bool := PyStr.startswith "issue:" status.

(** The successful click of line 802 is followed by the line of 804. *)
Definition allow_clicked (evs : list event) : Prop :=
  In (EvLog "Clicked Allow button") evs.

(** A fatal timeout at the Continue or at the Allow gate: the failure
    branch of the gate took its screenshot. *)
Definition gate_failed (evs : list event) : Prop :=
  In (EvScreenshot "continue_button_not_found") evs
  \/ In (EvScreenshot "continue_button_error") evs
  \/ In (EvScreenshot "allow_button_not_found") evs.

(** The screenshot labels of the failure branches of the two gates. *)
Definition gate_shot (label : string) : bool :=
  String.eqb label "continue_button_not_found"
  || String.eqb label "continue_button_error"
  || String.eqb label "allow_button_not_found".

(** An effect that is neither the Allow click, nor a gate failure, nor a
    teardown, nor a report other than an issue. *)
Definition quiet_ev (ev : event) : bool :=
  match ev with
  | EvLog line => negb (String.eqb line "Clicked Allow button")
  | EvScreenshot label => negb (gate_shot label)
  | EvReport _ status => is_issue status
  | EvQuit => false
  | EvDriverStart _ => true
  end.

Definition quiet (evs : list event) : Prop := forallb quiet_ev evs = true.

(** A block that neither clicks Allow, nor fails a gate, nor quits: it
    reports only issues, and none when it falls through. *)
Definition calm (m : M unit) : Prop :=
  quiet (snd m)
  /\ match fst m with
     | Next _ => reports (snd m) = []
     | Return _ => False
     | Throw _ => True
     end.

(** What the failure branch of a gate leaves behind: the driver was
    told to quit and an issue, and nothing but issues, was reported. *)
Definition gate_part (evs : list event) : Prop :=
  In EvQuit evs /\ reports evs <> [] /\ forallb is_issue (reports evs) = true
  /\ ~ allow_clicked evs.

(** The three ways the steps can go. *)
Inductive shape (env : Env) (gemail : string) : M unit -> Prop :=
| shape_early (c : ctl unit) (evs : list event) :
    quiet evs -> shape env gemail (c, evs)
| shape_gate (c : ctl unit) (evs1 evs2 : list event) :
    quiet evs1 -> reports evs1 = [] -> gate_part evs2 -> c <> Return true ->
    shape env gemail (c, (evs1 ++ evs2)%list)
| shape_allow (c : ctl unit) (evs1 evs3 : list event) :
    quiet evs1 -> reports evs1 = [] -> quiet evs3 ->
    (browser env "switch_back_window" 0 = Ok tt ->
     reports evs3 = [] /\ c = Return true) ->
    shape env gemail
      (c, (evs1 ++ [EvLog "Clicked Allow button"; EvReport gemail "done"]
           ++ evs3)%list).

(** What follows the steps: the handler of line 856 when they raised,
    then the [finally] block. *)
Definition closing (env : Env) (gemail : string) (c : ctl unit) : list event :=
  (match c with
   | Throw e => on_exception gemail e
   | _ => []
   end ++ cleanup env gemail)%list.

(** *** The gates, as the outside world decides them *)

(** What the resolver answers at the Continue gate (line 775). *)
Definition continue_click (env : Env) : result bool :=
  fst (Resolver.find_and_click_element (page env) continue_btns 10 true
         Resolver.start).

(** A browser was started and steps 1 to 13 fall through: execution
    reaches the Continue gate. *)
Definition reaches_gates (cfg : Config) (env : Env) (gemail : string) : Prop :=
  new_driver env = Ok tt /\ fst (before_gates cfg env gemail) = Next tt.

(** The Continue gate fails: no selector could be clicked within the
    budget, or the search raised. *)
Definition continue_fails (env : Env) : Prop := continue_click env <> Ok true.

(** The Allow gate fails: Continue was clicked, and waiting for the
    Allow button or clicking it raised. *)
Definition allow_fails (env : Env) : Prop :=
  continue_click env = Ok true
  /\ exists e, browser env "allow_button" 0 = Raise e.

(** The failures the gates handle themselves (lines 778-795 and
    810-818): the resolver found nothing, or a Stale/Timeout/NoSuchElement
    exception was raised. *)
Definition continue_timeout (env : Env) : Prop :=
  continue_click env = Ok false
  \/ exists e, continue_click env = Raise e /\ is_selenium e = true.

Definition allow_timeout (env : Env) : Prop :=
  continue_click env = Ok true
  /\ exists e, browser env "allow_button" 0 = Raise e /\ is_selenium e = true.

(** The three attempts of a mandatory step fail with Selenium wait
    exceptions. *)
Definition all_timed_out (env : Env) (s : step) (e0 e1 e2 : exn) : Prop :=
  browser env (shot s) 0 = Raise e0 /\ is_selenium e0 = true
  /\ browser env (shot s) 1 = Raise e1 /\ is_selenium e1 = true
  /\ browser env (shot s) 2 = Raise e2 /\ is_selenium e2 = true.

(** *** Sample environments *)

(** No phone prompt shows up. *)
Definition no_prompt : Phone.PhoneEnv :=
  {| Phone.phone_input := Ok false;
     Phone.purchase := HttpRaises (Exn OtherException "unused");
     Phone.type_number := Ok tt;
     Phone.check := fun _ => Sms.always_patient;
     Phone.otp_input := false;
     Phone.type_otp := Ok tt |}.

(** A page without frames on which every selector is clickable, or none. *)
Definition plain_page (found : bool) : Resolver.Page :=
  Resolver.static_page [] (fun _ _ => found).

(** An execution in which only the listed calls fail. *)
Definition env_where (browser_ : string -> nat -> result unit) (found : bool) : Env :=
  {| pid := 4242;
     randint := 1234;
     new_driver := Ok tt;
     browser := browser_;
     visible := fun _ => Ok true;
     phone := no_prompt;
     page := plain_page found;
     quit := fun _ => Ok tt |}.

(** Everything works. *)
Definition calm_env : Env := env_where (fun _ _ => Ok tt) true.

(** Everything works until the window switch after the Allow click. *)
Definition switch_back_fails : Env :=
  env_where (fun label _ =>
               if String.eqb label "switch_back_window"
               then Raise (Exn OtherException "no such window")
               else Ok tt) true.

(** The Continue button never shows up. *)
Definition continue_missing : Env := env_where (fun _ _ => Ok tt) false.

(** The Allow button never shows up. *)
Definition allow_missing : Env :=
  env_where (fun label _ =>
               if String.eqb label "allow_button"
               then Raise (Exn SeleniumWait "Message: timed out")
               else Ok tt) true.

(** The Allow click fails with an exception that is not a Selenium wait
    exception. *)
Definition allow_crashes : Env :=
  env_where (fun label _ =>
               if String.eqb label "allow_button"
               then Raise (Exn OtherException "invalid session id")
               else Ok tt) true.

(** Every attempt of one step times out. *)
Definition step_times_out (label : string) : Env :=
  env_where (fun label' _ =>
               if String.eqb label' label
               then Raise (Exn SeleniumWait "Message: timed out")
               else Ok tt) true.

Definition sample_cfg : Config :=
  {| SMSPOOL_KEY := "key"; ENABLE_PHONE_VERIFICATION := true |}.

(** [process_single_account] on a sample work item. *)
Definition sample_run (env : Env) : bool * list event :=
  process_single_account sample_cfg env "a@x.com" "pa" "host@x.com" "hp" "thread_1".

End Workflow.

(** ** Status sink (update_status_in_sheet) *)

Module Sink.
Import Base.

(** What one [requests.post(...)] followed by [raise_for_status()] does. *)
Inductive post_outcome :=
| Posted                          (* both calls return *)
| RequestFailed (msg : string)    (* a requests.exceptions.RequestException *)
| Crashed (e : exn).              (* an exception of another class *)

(** POSTs sent and calls of [random_delay(2)] made. *)
Record sink_state := {
  posts : nat;
  delays : nat
}.

Definition max_retries : nat := 3.

(** Lines 56-71, for the attempts still to run.  Python's [None] is the
    value of a loop that runs out without returning. *)
Fixpoint attempts_loop (post : nat -> post_outcome) (attempts : list nat)
  (st : sink_state) : result (option bool) * sink_state :=
  match attempts with
  | [] => (Ok None, st)
  | attempt :: attempts' =>
      let st := {| posts := S (posts st); delays := delays st |} in
      match post attempt with
      | Posted => (Ok (Some true), st)
      | Crashed e => (Raise e, st)
      | RequestFailed _ =>
          if attempt <? max_retries - 1
          then attempts_loop post attempts'
                 {| posts := posts st; delays := S (delays st) |}
          else (Ok (Some false), st)
      end
  end.

(** Lines 54-71; [post] answers the attempt of a given number. *)
Definition update_status_in_sheet (post : nat -> post_outcome)
  : result (option bool) * sink_state :=
  attempts_loop post (seq 0 max_retries) {| posts := 0; delays := 0 |}.

(** A sink that rejects the first [k] attempts with a request error. *)
Definition flaky (k : nat) : nat -> post_outcome :=
  fun attempt => if attempt <? k then RequestFailed "503" else Posted.

End Sink.

(** ** Human-paced typing (human_type) *)

Module Keys.
Import Base.

(** Lines 79-83: [send_keys] answers the k-th call; the second component
    is the text the element has received, one pause following each key. *)
Fixpoint human_type (send_keys : nat -> ascii -> result unit) (k : nat)
  (text : string) : result unit * string :=
  match text with
  | EmptyString => (Ok tt, EmptyString)
  | String char text' =>
      match send_keys k char with
      | Raise e => (Raise e, EmptyString)
      | Ok _ =>
          let (r, typed) := human_type send_keys (S k) text' in
          (r, String char typed)
      end
  end.

(** An element that stops accepting keys at call [k]. *)
Definition jammed_at (k : nat) : nat -> ascii -> result unit :=
  fun n _ => if n <? k then Ok tt
             else Raise (Exn OtherException "element not interactable").

End Keys.

(** ** Summaries of an execution *)

Module Outcome.
Import Base Workflow.

(** How often [driver.quit()] was called. *)
Fixpoint quits (evs : list event) : nat :=
  match evs with
  | EvQuit :: evs' => S (quits evs')
  | _ :: evs' => quits evs'
  | [] => 0
  end.

(** How often a [Search] was made by the resolver. *)
Fixpoint searches (l : list Resolver.action) : nat :=
  match l with
  | Resolver.Search _ _ :: l' => S (searches l')
  | _ :: l' => searches l'
  | [] => 0
  end.

(** The ways the steps can end, with what they leave in the log. *)
Inductive verdict (gemail : string) : M unit -> Prop :=
| verdict_done (evs1 evs3 : list event) :
    quiet evs1 -> reports evs1 = [] -> quiet evs3 -> reports evs3 = [] ->
    verdict gemail
      (Return true,
       (evs1 ++ [EvLog "Clicked Allow button"; EvReport gemail "done"]
        ++ evs3)%list)
| verdict_late (e : exn) (evs1 evs3 : list event) :
    quiet evs1 -> reports evs1 = [] -> quiet evs3 ->
    verdict gemail
      (Throw e,
       (evs1 ++ [EvLog "Clicked Allow button"; EvReport gemail "done"]
        ++ evs3)%list)
| verdict_gate (c : ctl unit) (evs1 evs2 : list event) :
    quiet evs1 -> reports evs1 = [] ->
    gate_part evs2 -> gate_failed evs2 -> 1 <= quits evs2 <= 2 ->
    c = Return false \/ (exists e, c = Throw e) ->
    verdict gemail (c, (evs1 ++ evs2)%list)
| verdict_abort (e : exn) (evs : list event) :
    quiet evs -> verdict gemail (Throw e, evs).

(** What the caller and the sheet see of a block: how it ends, the
    statuses it reports and how often it quits the driver. *)
Definition observe (m : M unit) : ctl unit * list string * nat :=
  (fst m, reports (snd m), quits (snd m)).

(** The same execution with another course of the phone verification. *)
Definition with_phone (env : Env) (phone_ : Phone.PhoneEnv) : Env :=
  {| pid := pid env;
     randint := randint env;
     new_driver := new_driver env;
     browser := browser env;
     visible := visible env;
     phone := phone_;
     page := page env;
     quit := quit env |}.

(** A reply that ends the polling: the request raised, the status is
    not 200, or the body does not decode. *)
Definition broken (r : http Sms.check_json) : Prop :=
  match r with
  | HttpRaises _ => True
  | HttpReply status_code json =>
      status_code <> 200 \/ exists e, json = Raise e
  end.

End Outcome.

(** * Properties *)

(** ** Facts about strings *)

Module StrFacts.
Import PyStr.

Lemma append_assoc (a b c : string) : ((a ++ b) ++ c = a ++ (b ++ c))%string.
Proof. induction a as [|x a IH]; simpl; [reflexivity | now rewrite IH]. Qed.

Lemma length_append (a b : string) :
  String.length (a ++ b) = String.length a + String.length b.
Proof. induction a as [|x a IH]; simpl; [reflexivity | now rewrite IH]. Qed.

(** A string splits after its first [n] characters. *)
Lemma substring_split (n : nat) (s : string) :
  n <= String.length s ->
  exists rest, s = (substring 0 n s ++ rest)%string
               /\ String.length (substring 0 n s) = n.
Proof.
  revert s; induction n as [|n IH]; intros s Hn.
  - exists s. destruct s; simpl; auto.
  - destruct s as [|c s]; simpl in Hn; [lia|].
    destruct (IH s) as [rest [E L]]; [lia|].
    exists rest. simpl. split; [now rewrite <- E | now rewrite L].
Qed.

Lemma all_chars_substring (p : ascii -> bool) (n : nat) (s : string) :
  all_chars p s = true -> all_chars p (substring 0 n s) = true.
Proof.
  revert s; induction n as [|n IH]; intros s H.
  - destruct s; reflexivity.
  - destruct s as [|c s]; simpl in *; [reflexivity|].
    apply andb_true_iff in H as [Hc Hs].
    now rewrite Hc, IH.
Qed.

End StrFacts.

(** ** OTP extraction and number normalisation *)

Module OtpFacts.
Import PyStr Otp StrFacts.

Lemma take_digits_digits (n : nat) (s : string) : digit_run (take_digits n s).
Proof.
  unfold digit_run. revert s; induction n as [|n IH]; intros [|c s]; simpl; auto.
  destruct (is_digit c) eqn:D; simpl; [now rewrite D, IH | reflexivity].
Qed.

Lemma take_digits_length (n : nat) (s : string) :
  String.length (take_digits n s) <= n.
Proof.
  revert s; induction n as [|n IH]; intros [|c s]; simpl; try lia.
  destruct (is_digit c); simpl; [specialize (IH s) |]; lia.
Qed.

Lemma take_digits_prefix (n : nat) (s : string) :
  exists rest, s = (take_digits n s ++ rest)%string.
Proof.
  revert s; induction n as [|n IH]; intros [|c s]; simpl; eauto.
  destruct (is_digit c); simpl; eauto.
  destruct (IH s) as [rest E]. exists rest. now rewrite <- E.
Qed.

(** On a digit run the greedy quantifier takes the first [n] digits. *)
Lemma take_digits_run (n : nat) (r post : string) :
  digit_run r -> n <= String.length r ->
  take_digits n (r ++ post) = substring 0 n r.
Proof.
  unfold digit_run. revert r; induction n as [|n IH]; intros r D L.
  - destruct r; destruct post; reflexivity.
  - destruct r as [|c r]; simpl in *; [lia|].
    apply andb_true_iff in D as [Dc Dr]. rewrite Dc.
    f_equal. apply IH; [assumption | lia].
Qed.

Lemma match_here_some (s m : string) :
  match_here s = Some m ->
  (exists rest, s = (m ++ rest)%string) /\ digit_run m
  /\ 4 <= String.length m <= 8.
Proof.
  unfold match_here. destruct (4 <=? _) eqn:L; [|discriminate].
  intros E. assert (Em : m = take_digits 8 s) by congruence.
  clear E. apply Nat.leb_le in L. rewrite Em.
  split; [apply take_digits_prefix|].
  split; [apply take_digits_digits|].
  split; [exact L | apply take_digits_length].
Qed.

Lemma re_search_otp_eq (s : string) :
  re_search_otp s =
  match match_here s with
  | Some m => Some m
  | None => match s with
            | String _ s' => re_search_otp s'
            | EmptyString => None
            end
  end.
Proof. destruct s; reflexivity. Qed.

(** What a successful search returns: a run of 4 to 8 digits of the text. *)
Lemma re_search_otp_some (s m : string) :
  re_search_otp s = Some m ->
  (exists pre post, s = (pre ++ m ++ post)%string) /\ digit_run m
  /\ 4 <= String.length m <= 8.
Proof.
  induction s as [|c s IH]; simpl.
  - discriminate.
  - destruct (match_here (String c s)) eqn:E.
    + intros Es. assert (Em : s0 = m) by congruence. subst s0. clear Es.
      apply match_here_some in E as [[rest E] H].
      split; [exists "", rest; exact E | exact H].
    + intros H. destruct (IH H) as [[pre [post E']] H'].
      split; [|exact H']. exists (String c pre), post. simpl. now rewrite E'.
Qed.

Lemma match_here_run (r post : string) :
  digit_run r -> 4 <= String.length r -> match_here (r ++ post) <> None.
Proof.
  intros D L. unfold match_here.
  destruct (Nat.le_ge_cases 8 (String.length r)) as [L8|L8].
  - rewrite (take_digits_run 8 r post D L8).
    destruct (substring_split 8 r L8) as [_ [_ ->]]. discriminate.
  - assert (E : take_digits 8 (r ++ post)
                = (r ++ take_digits (8 - String.length r) post)%string).
    { clear L. revert L8 D. unfold digit_run. generalize 8 as n.
      induction r as [|c r IH]; intros n L8 D; simpl in *.
      - now rewrite Nat.sub_0_r.
      - destruct n as [|n]; [lia|]. apply andb_true_iff in D as [Dc Dr].
        simpl. rewrite Dc. f_equal. apply IH; [lia | assumption]. }
    rewrite E, length_append.
    destruct (4 <=? _) eqn:T; [discriminate|].
    apply Nat.leb_gt in T. lia.
Qed.

(** The search fails exactly on the texts without four digits in a row. *)
Lemma re_search_otp_none (s : string) :
  re_search_otp s = None <-> ~ has_digit_run 4 s.
Proof.
  split.
  - intros N [pre [r [post [E [D L]]]]]. subst s. revert N.
    induction pre as [|c pre IH]; simpl.
    + rewrite re_search_otp_eq.
      destruct (match_here (r ++ post)) eqn:M; [discriminate|].
      exfalso. revert M. apply match_here_run; [assumption | lia].
    + destruct (match_here _); [discriminate | exact IH].
  - intros N. destruct (re_search_otp s) as [m|] eqn:E; [|reflexivity].
    exfalso. apply N.
    apply re_search_otp_some in E as [[pre [post E]] [D [L4 L8]]].
    destruct (substring_split 4 m L4) as [rest [Em L]].
    exists pre, (substring 0 4 m), (rest ++ post)%string.
    repeat split; [| now apply all_chars_substring | exact L].
    now rewrite E, <- (append_assoc (substring 0 4 m) rest post), <- Em.
Qed.


(** C6: [extract_otp] returns the run of 4 to 8 consecutive digits the
    pattern matches, and the trimmed text when the SMS has no such run;
    the Google SMS gives 482913 and a text without digits gives itself,
    trimmed. *)
Theorem extract_otp_pattern_or_trimmed :
  Otp.extract_otp "Your Google code is 482913. Don't share it." = "482913"
  /\ Otp.extract_otp "Verification pending" = "Verification pending"
  /\ Otp.extract_otp "  Verification pending " = "Verification pending"
  /\ (forall s : string,
        Otp.has_digit_run 4 s ->
        exists pre post,
          s = (pre ++ Otp.extract_otp s ++ post)%string
          /\ Otp.digit_run (Otp.extract_otp s)
          /\ 4 <= String.length (Otp.extract_otp s) <= 8)
  /\ (forall s : string,
        ~ Otp.has_digit_run 4 s -> Otp.extract_otp s = PyStr.strip s).
Proof.
  split; [reflexivity|]. split; [reflexivity|]. split; [reflexivity|].
  split; intros s H; unfold extract_otp.
  - destruct (re_search_otp s) as [m|] eqn:E.
    + apply re_search_otp_some in E as [[pre [post E]] [D L]].
      exists pre, post. auto.
    + apply re_search_otp_none in E. contradiction.
  - apply re_search_otp_none in H. now rewrite H.
Qed.

(** The hypotheses of C6 at concrete texts. *)
Lemma extract_otp_pattern_or_trimmed_witness :
  (exists pre post,
     "code 12345 ok" = (pre ++ Otp.extract_otp "code 12345 ok" ++ post)%string
     /\ Otp.digit_run (Otp.extract_otp "code 12345 ok")
     /\ 4 <= String.length (Otp.extract_otp "code 12345 ok") <= 8)
  /\ Otp.extract_otp " no 123 code " = PyStr.strip " no 123 code ".
Proof.
  destruct extract_otp_pattern_or_trimmed as [_ [_ [_ [Hrun Hnone]]]].
  split.
  - apply (Hrun "code 12345 ok").
    exists "code ", "1234", "5 ok". repeat split.
  - apply (Hnone " no 123 code ").
    apply re_search_otp_none. reflexivity.
Defined.

(** C10: when the first run of digits of the SMS is longer than 8, the
    code is its first 8 digits; the trimmed text is used only when the
    SMS has no 4 digits in a row. *)
Theorem extract_otp_long_run :
  (forall pre r post : string,
      Otp.digit_free pre -> Otp.digit_run r -> 8 < String.length r ->
      Otp.extract_otp (pre ++ r ++ post) = substring 0 8 r)
  /\ (forall s : string,
        Otp.re_search_otp s = None <-> ~ Otp.has_digit_run 4 s).
Proof.
  split; [|exact re_search_otp_none].
  intros pre r post F D L. unfold extract_otp.
  assert (E : re_search_otp (pre ++ r ++ post) = Some (substring 0 8 r)).
  { revert F. unfold digit_free.
    induction pre as [|c pre IH]; intros F; simpl in *.
    - assert (M : match_here (r ++ post) = Some (substring 0 8 r)).
      { unfold match_here. rewrite take_digits_run by (auto; lia).
        destruct (substring_split 8 r) as [_ [_ ->]]; [lia | reflexivity]. }
      now rewrite re_search_otp_eq, M.
    - apply andb_true_iff in F as [Fc Fp].
      apply negb_true_iff in Fc.
      unfold match_here at 1. simpl. rewrite Fc. simpl. now apply IH. }
  now rewrite E.
Qed.

(** The hypotheses of C10 at a concrete SMS. *)
Lemma extract_otp_long_run_witness :
  Otp.extract_otp ("id " ++ "1234567890123" ++ " end") = "12345678"
  /\ (Otp.re_search_otp "abc" = None <-> ~ Otp.has_digit_run 4 "abc").
Proof.
  split.
  - apply (proj1 extract_otp_long_run "id " "1234567890123" " end");
      [reflexivity | reflexivity | simpl; lia].
  - apply (proj2 extract_otp_long_run "abc").
Defined.

End OtpFacts.

(** ** The polling loop *)

Module SmsFacts.
Import Base Sms.

Lemma still_waiting_inv (r : http check_json) :
  still_waiting r -> exists res, r = HttpReply 200 (Ok res) /\ waiting res.
Proof. intros [res [E [P T]]]. exists res. split; [exact E | split; assumption]. Qed.

(** One turn of the loop on a response that reports time left. *)
Lemma poll_step (p : provider) (retries : nat) (res res' : check_json)
  (st : poll_state) :
  waiting res ->
  p (requests st) = HttpReply 200 (Ok res') -> populated res' = None ->
  poll p (S retries) res st =
  poll p retries res'
       {| requests := S (requests st); slept := slept st + 15; log := log st |}.
Proof.
  intros [_ [t [T Ht]]] E P. simpl. rewrite T.
  destruct (Z.leb_spec t 0) as [L|L]; [lia|].
  unfold post, sleep. simpl. rewrite E. simpl. now rewrite P.
Qed.

(** The provider never stops reporting time left: every retry is used. *)
Lemma poll_exhausts (p : provider) (retries : nat) :
  (forall n, still_waiting (p n)) ->
  forall res st, waiting res ->
    poll p retries res st =
    (None, say "SMSPool timeout - no SMS received"
               {| requests := requests st + retries;
                  slept := slept st + 15 * retries;
                  log := log st |}).
Proof.
  intros W. induction retries as [|retries IH]; intros res st Wr.
  - simpl. rewrite !Nat.add_0_r. now destruct st.
  - destruct (still_waiting_inv _ (W (requests st))) as [res' [E [P T]]].
    rewrite (poll_step p retries res res' st Wr E P).
    rewrite IH by (split; assumption). simpl.
    do 2 f_equal. f_equal; lia.
Qed.

(** The loop notices an expired budget at the head of its next turn. *)
Lemma poll_expired_now (p : provider) (retries : nat) (res : check_json)
  (st : poll_state) (t : Z) :
  int_time_left res = Ok t -> (t <= 0)%Z ->
  poll p (S retries) res st = (None, say "SMSPool time_left expired" st).
Proof.
  intros T L. simpl. rewrite T.
  destruct (Z.leb_spec t 0); [reflexivity | lia].
Qed.

Lemma poll_expired (p : provider) (k : nat) :
  forall retries res st,
    k + 2 <= retries -> waiting res ->
    (forall n, n < k -> still_waiting (p (requests st + n))) ->
    budget_expired (p (requests st + k)) ->
    poll p retries res st =
    (None, say "SMSPool time_left expired"
               {| requests := requests st + k + 1;
                  slept := slept st + 15 * (k + 1);
                  log := log st |}).
Proof.
  induction k as [|k IH]; intros retries res st L Wr W X.
  - destruct retries as [|[|retries]]; try lia.
    destruct X as [res' [E [P [t [T Ht]]]]]. rewrite Nat.add_0_r in E.
    rewrite (poll_step p _ res res' st Wr E P).
    rewrite (poll_expired_now p retries res' _ t T Ht).
    do 2 f_equal. simpl. f_equal; lia.
  - destruct retries as [|retries]; [lia|].
    destruct (still_waiting_inv _ (W 0 ltac:(lia))) as [res' [E [P T]]].
    rewrite Nat.add_0_r in E.
    rewrite (poll_step p _ res res' st Wr E P).
    rewrite IH.
    + simpl. do 2 f_equal. f_equal; lia.
    + lia.
    + split; assumption.
    + intros n Hn. simpl.
      replace (S (requests st + n)) with (requests st + S n) by lia.
      apply W. lia.
    + simpl. replace (S (requests st + k)) with (requests st + S k) by lia.
      exact X.
Qed.

Local Ltac norm :=
  cbn [poll]; unfold failed, say, sleep, post;
  cbn [requests slept log snd fst negb].
Local Ltac done := norm; split; lia.

(** Whatever the provider does, a loop of [retries] turns sends at most
    [retries] requests and sleeps 15 seconds before each of them. *)
Lemma poll_bounded (p : provider) (retries : nat) :
  forall res st,
    let st' := snd (poll p retries res st) in
    requests st <= requests st' <= requests st + retries
    /\ slept st' = slept st + 15 * (requests st' - requests st).
Proof.
  induction retries as [|retries IH]; intros res st; cbv zeta.
  - done.
  - cbn [poll].
    destruct (int_time_left res) as [t|e]; [|done].
    destruct (t <=? 0)%Z; [done|].
    norm.
    destruct (p (requests st)) as [e|code [res'|e]]; [done| |].
    + destruct (code =? 200); cbn [negb]; [|done].
      destruct (populated res'); [done|].
      specialize (IH res' {| requests := S (requests st);
                             slept := slept st + 15; log := log st |}).
      cbv zeta in IH. cbn [requests slept log] in IH. lia.
    + destruct (code =? 200); done.
Qed.

(** C3: with a configured key, a provider that always reports time left
    and never an SMS is polled exactly 6 more times, 15 seconds apart,
    and the call then fails; a budget reported as expired before that
    ends the call at once; no provider is polled more than 6 more times. *)
Theorem get_smspool_sms_bounded (cfg : Config) (p : Sms.provider)
  (Hkey : SMSPOOL_KEY cfg <> "") :
  ((forall n, Sms.still_waiting (p n)) ->
   Sms.get_smspool_sms cfg p =
   (None, {| Sms.requests := 7; Sms.slept := 90;
             Sms.log := ["SMSPool timeout - no SMS received"] |}))
  /\ (forall k, k < 6 ->
        (forall n, n < k -> Sms.still_waiting (p n)) ->
        Sms.budget_expired (p k) ->
        Sms.get_smspool_sms cfg p =
        (None, {| Sms.requests := S k; Sms.slept := 15 * k;
                  Sms.log := ["SMSPool time_left expired"] |}))
  /\ (Sms.requests (snd (Sms.get_smspool_sms cfg p)) <= 7
      /\ Sms.slept (snd (Sms.get_smspool_sms cfg p))
         = 15 * (Sms.requests (snd (Sms.get_smspool_sms cfg p)) - 1)).
Proof.
  apply String.eqb_neq in Hkey.
  unfold get_smspool_sms. rewrite Hkey. unfold post, start.
  cbn [requests slept log].
  split; [|split].
  - intros W.
    destruct (still_waiting_inv _ (W 0)) as [res [E [P T]]].
    rewrite E. cbn [Nat.eqb negb]. rewrite P.
    rewrite (poll_exhausts p 6 W) by (split; assumption). reflexivity.
  - intros k Hk W X. destruct k as [|k].
    + destruct X as [res [E [P [t [T Ht]]]]]. rewrite E.
      cbn [Nat.eqb negb]. rewrite P.
      now rewrite (poll_expired_now p 5 res _ t T Ht).
    + destruct (still_waiting_inv _ (W 0 ltac:(lia))) as [res [E [P T]]].
      rewrite E. cbn [Nat.eqb negb]. rewrite P.
      rewrite (poll_expired p k); cbn [requests slept log].
      * unfold say. cbn [requests slept log]. f_equal. f_equal; lia.
      * lia.
      * split; assumption.
      * intros n Hn. apply W. lia.
      * exact X.
  - destruct (p 0) as [e|code [res|e]]; [done| |].
    + destruct (code =? 200); cbn [negb]; [|done].
      destruct (populated res); [done|].
      pose proof (poll_bounded p 6 res
                    {| requests := 1; slept := 0; log := [] |}) as B.
      cbv zeta in B. cbn [requests slept log] in B. lia.
    + destruct (code =? 200); done.
Qed.

Lemma patient_waiting (k n : nat) : n < k -> still_waiting (patient_until k n).
Proof.
  intros H. apply Nat.ltb_lt in H.
  eexists. split; [reflexivity|]. split; [reflexivity|].
  exists 120%Z. unfold int_time_left. simpl. rewrite H. split; [reflexivity | lia].
Qed.

(** The hypotheses of C3 at concrete providers. *)
Lemma get_smspool_sms_bounded_witness :
  Sms.get_smspool_sms {| SMSPOOL_KEY := "key"; ENABLE_PHONE_VERIFICATION := true |}
                      always_patient
  = (None, {| Sms.requests := 7; Sms.slept := 90;
              Sms.log := ["SMSPool timeout - no SMS received"] |})
  /\ Sms.get_smspool_sms {| SMSPOOL_KEY := "key"; ENABLE_PHONE_VERIFICATION := true |}
                         (patient_until 2)
     = (None, {| Sms.requests := 3; Sms.slept := 30;
                 Sms.log := ["SMSPool time_left expired"] |}).
Proof.
  split.
  - refine (proj1 (get_smspool_sms_bounded
                     {| SMSPOOL_KEY := "key"; ENABLE_PHONE_VERIFICATION := true |}
                     always_patient _) _).
    + discriminate.
    + intros n.
      eexists. split; [reflexivity|]. split; [reflexivity|].
      exists 120%Z. split; [reflexivity | lia].
  - refine (proj1 (proj2 (get_smspool_sms_bounded
                     {| SMSPOOL_KEY := "key"; ENABLE_PHONE_VERIFICATION := true |}
                     (patient_until 2) _)) 2 _ _ _).
    + discriminate.
    + lia.
    + intros n Hn. apply patient_waiting. exact Hn.
    + eexists. split; [reflexivity|]. split; [reflexivity|].
      exists 0%Z. split; [reflexivity | lia].
Defined.

End SmsFacts.

(** ** Worklist ingestion *)

Module WorklistFacts.
Import Base Worklist.

(** A row shorter than five columns gets the empty string in the column
    the coordinator reads as status; "pending" lands one column further. *)
Lemma pad_row_short (row : list string) :
  length row <= 4 ->
  pad_row row = (row ++ repeat "" (5 - length row) ++ ["pending"; ""])%list.
Proof.
  intros L. unfold pad_row.
  assert (E : (length row <? 5) = true) by (apply Nat.ltb_lt; lia).
  rewrite E.
  assert (L5 : length (row ++ repeat "" (5 - length row)) = 5)
    by (rewrite length_app, repeat_length; lia).
  rewrite L5. cbn [Nat.ltb Nat.leb].
  rewrite length_app, L5. cbn [length Nat.add Nat.ltb Nat.leb].
  now rewrite <- !app_assoc.
Qed.

(** C4: a row of four columns is padded to [..., "", "pending", ""];
    the status the coordinator filters on is the empty string, not
    "pending". *)
Theorem short_row_status_is_empty :
  Worklist.pad_row ["a@x.com"; "pw"; "host@x.com"; "hpw"]
  = ["a@x.com"; "pw"; "host@x.com"; "hpw"; ""; "pending"; ""]
  /\ Worklist.row_status (Worklist.pad_row ["a@x.com"; "pw"; "host@x.com"; "hpw"]) = ""
  /\ Worklist.row_status (Worklist.pad_row ["a@x.com"; "pw"; "host@x.com"; "hpw"])
     <> "pending".
Proof.
  split; [reflexivity|]. split; [reflexivity | discriminate].
Qed.

End WorklistFacts.

(** ** Parsing the purchase response *)

Module PhoneFacts.
Import Base Json Phone.

Lemma probe_dict (keys : list string) (d : list (string * json)) :
  probe keys (JDict d) = Ok (first_present keys d).
Proof.
  induction keys as [|key keys IH]; simpl; [reflexivity|].
  destruct (assoc key d); [reflexivity | exact IH].
Qed.

(** What the code extracts from a mapping. *)
Lemma extract_ids_dict (d : list (string * json)) :
  extract_ids (JDict d) =
  Ok (if truthy (first_present phone_keys d)
      then (first_present phone_keys d, first_present order_keys d)
      else match nested_result d with
           | Some r => (py_or (dict_get r "number") (dict_get r "phone"),
                        py_or (dict_get r "orderid") (dict_get r "order_id"))
           | None => (first_present phone_keys d, first_present order_keys d)
           end).
Proof.
  unfold extract_ids. rewrite !probe_dict.
  destruct (truthy (first_present phone_keys d)); [reflexivity|].
  unfold py_in, getitem, nested_result.
  destruct (assoc "result" d) as [[| | | | |r]|]; reflexivity.
Qed.

(** The bypass fails, and does not raise, when no usable number comes
    out of the purchase response. *)
Lemma no_phone_no_bypass (cfg : Config) (env : PhoneEnv) :
  (forall number_data,
      get_smspool_number cfg (purchase env) = Some number_data ->
      no_usable_phone number_data) ->
  fst (handle_phone_verification cfg env) = false.
Proof.
  intros H. unfold handle_phone_verification.
  destruct (ENABLE_PHONE_VERIFICATION cfg); [|reflexivity]. cbn [negb].
  unfold bypass_body.
  destruct (phone_input env) as [[|]|e]; try reflexivity.
  destruct (get_smspool_number cfg (purchase env)) as [number_data|];
    [|reflexivity].
  specialize (H number_data eq_refl). unfold no_usable_phone in H.
  destruct (truthy number_data); [|reflexivity]. cbn [negb].
  destruct (extract_ids number_data) as [[phone_number order_id]|e];
    [|reflexivity].
  now rewrite H.
Qed.

(** C8, as stated, fails: the order id is not looked up in the nested
    object when the number is at the top level, and the nested object
    is not probed for msisdn or id. *)
Lemma extract_ids_not_spec_rules :
  Phone.extract_ids Phone.order_only_nested = Ok (JStr "15551234567", JNull)
  /\ Phone.spec_order_id Phone.order_only_nested = Some (JStr "A1")
  /\ Phone.extract_ids Phone.nested_msisdn = Ok (JNull, JNull)
  /\ Phone.spec_phone_number Phone.nested_msisdn = Some (JStr "15551234567").
Proof.
  repeat split.
Qed.

(** C8, amended: in a mapping the phone number is the value of the
    first present key among number, phone, msisdn, phonenumber and the
    order id that of the first present key among orderid, order_id,
    orderId, id; only when that number is missing or falsy a nested
    [result] mapping is consulted, whose number or else phone entry
    becomes the phone number; and when no usable number comes out of
    the response, the bypass returns [False] without raising. *)
Theorem extract_ids_rules (d : list (string * json)) (cfg : Config)
  (env : Phone.PhoneEnv) :
  (Json.truthy (Phone.first_present Phone.phone_keys d) = true ->
   Phone.extract_ids (JDict d)
   = Ok (Phone.first_present Phone.phone_keys d,
         Phone.first_present Phone.order_keys d))
  /\ (Json.truthy (Phone.first_present Phone.phone_keys d) = false ->
      forall r, Phone.nested_result d = Some r ->
      exists order_id,
        Phone.extract_ids (JDict d)
        = Ok (Json.py_or (Json.dict_get r "number") (Json.dict_get r "phone"),
              order_id))
  /\ (Json.truthy (Phone.first_present Phone.phone_keys d) = false ->
      Phone.nested_result d = None ->
      Phone.extract_ids (JDict d)
      = Ok (Phone.first_present Phone.phone_keys d,
            Phone.first_present Phone.order_keys d))
  /\ ((forall number_data,
          Phone.get_smspool_number cfg (Phone.purchase env) = Some number_data ->
          Phone.no_usable_phone number_data) ->
      fst (Phone.handle_phone_verification cfg env) = false).
Proof.
  rewrite extract_ids_dict.
  split; [|split; [|split]].
  - intros T. now rewrite T.
  - intros T r R. rewrite T, R. eexists. reflexivity.
  - intros T R. now rewrite T, R.
  - apply no_phone_no_bypass.
Qed.

(** The hypotheses of C8 at concrete responses. *)
Lemma extract_ids_rules_witness :
  Phone.extract_ids (JDict [("phone", JStr "15551234567"); ("id", JNum 9)])
  = Ok (JStr "15551234567", JNum 9)
  /\ fst (Phone.handle_phone_verification
            {| SMSPOOL_KEY := "key"; ENABLE_PHONE_VERIFICATION := true |}
            Phone.msisdn_env) = false.
Proof.
  split.
  - apply (proj1 (extract_ids_rules
                    [("phone", JStr "15551234567"); ("id", JNum 9)]
                    {| SMSPOOL_KEY := "key"; ENABLE_PHONE_VERIFICATION := true |}
                    Phone.msisdn_env)).
    reflexivity.
  - apply (proj2 (proj2 (proj2 (extract_ids_rules
                    []
                    {| SMSPOOL_KEY := "key"; ENABLE_PHONE_VERIFICATION := true |}
                    Phone.msisdn_env)))).
    intros number_data E.
    assert (Hd : number_data = nested_msisdn)
      by (unfold get_smspool_number in E; simpl in E; congruence).
    rewrite Hd. reflexivity.
Defined.

End PhoneFacts.

(** ** The element resolver *)

Module ResolverFacts.
Import Base Resolver.

Lemma state_eq (a b : driver_state) :
  ctx a = ctx b -> clock a = clock b -> actions a = actions b -> a = b.
Proof. destruct a, b; simpl; intros; subst; reflexivity. Qed.

(** *** The context on return *)

Lemma leave_ok_top (p : Page) (st st' : driver_state) (u : unit) :
  leave p st = (Ok u, st') -> ctx st' = Top.
Proof.
  unfold leave. destruct (default_content p (clock st)); intros [= <- <-];
    reflexivity.
Qed.

Lemma search_ctx (p : Page) (selector : string) (timeout : nat) (js : bool)
  (st : driver_state) :
  ctx (snd (search p selector timeout js st)) = ctx st.
Proof. reflexivity. Qed.

Lemma recover_miss_top (p : Page) (st st' : driver_state) :
  recover p st = (Miss, st') -> ctx st' = Top.
Proof.
  unfold recover. destruct (leave p st) as [[u|e] st1] eqn:L; intros [= <-].
  exact (leave_ok_top p st st1 u L).
Qed.

Lemma recover_not_hit (p : Page) (st st' : driver_state) :
  recover p st <> (Hit, st').
Proof.
  unfold recover. destruct (leave p st) as [[u|e] st1]; discriminate.
Qed.

(** The loop over the frames ends in the top-level context when it
    clicked, and also when it ran through at least one frame. *)
Lemma search_frames_ctx (p : Page) (selector : string) (timeout : nat) (js : bool)
  (iframes : list nat) :
  forall st st',
    (search_frames p selector timeout js iframes st = (Clicked, st') ->
     ctx st' = Top)
    /\ (search_frames p selector timeout js iframes st = (Exhausted, st') ->
        ctx st' = Top \/ st' = st).
Proof.
  induction iframes as [|iframe iframes IH]; intros st st'; cbn [search_frames].
  - split; [discriminate|]. intros [= <-]. now right.
  - destruct (enter p iframe st) as [[u|e] st1]; [|split; discriminate].
    destruct (search p selector timeout js st1) as [[u1|e1] st2].
    + destruct (leave p st2) as [[u2|e2] st3] eqn:L2; cbv beta iota.
      * split; [|discriminate]. intros [= <-].
        exact (leave_ok_top p st2 st3 u2 L2).
      * destruct (leave p st3) as [[u3|e3] st4] eqn:L3; [|split; discriminate].
        pose proof (leave_ok_top p st3 st4 u3 L3) as T.
        destruct (IH st4 st') as [IH1 IH2].
        split; [exact IH1|]. intros H. left.
        destruct (IH2 H) as [H'|H']; [exact H' | now rewrite H'].
    + cbv beta iota.
      destruct (leave p st2) as [[u3|e3] st4] eqn:L3; [|split; discriminate].
      pose proof (leave_ok_top p st2 st4 u3 L3) as T.
      destruct (IH st4 st') as [IH1 IH2].
      split; [exact IH1|]. intros H. left.
      destruct (IH2 H) as [H'|H']; [exact H' | now rewrite H'].
Qed.

(** One selector: whether it hits or misses, the context is top-level. *)
Lemma try_selector_ctx (p : Page) (selector : string) (timeout : nat) (js : bool)
  (st st' : driver_state) (r : attempt_end) :
  try_selector p selector timeout js st = (r, st') ->
  r = Hit \/ r = Miss -> ctx st' = Top.
Proof.
  unfold try_selector.
  destruct (list_frames p st) as [[iframes|e] st1].
  2:{ intros H [->| ->]; [now apply recover_not_hit in H
                         | exact (recover_miss_top _ _ _ H)]. }
  destruct (search_frames p selector timeout js iframes st1) as [[| |e] st2] eqn:F.
  - intros [= <- <-] _. exact (proj1 (search_frames_ctx _ _ _ _ _ _ _) F).
  - destruct (leave p st2) as [[u|e] st3] eqn:L.
    + pose proof (leave_ok_top _ _ _ _ L) as T.
      destruct (search p selector timeout js st3) as [[u'|e'] st4] eqn:S;
        intros [= <- <-] _;
        pose proof (search_ctx p selector timeout js st3) as C;
        rewrite S in C; simpl in C; congruence.
    + intros H [->| ->]; [now apply recover_not_hit in H
                         | exact (recover_miss_top _ _ _ H)].
  - intros H [->| ->]; [now apply recover_not_hit in H
                       | exact (recover_miss_top _ _ _ H)].
Qed.

Lemma find_and_click_element_ctx (p : Page) (selectors : list string)
  (timeout : nat) (js : bool) :
  forall st st' b,
    find_and_click_element p selectors timeout js st = (Ok b, st') ->
    selectors <> [] \/ ctx st = Top -> ctx st' = Top.
Proof.
  induction selectors as [|selector selectors IH]; intros st st' b; simpl.
  - intros [= <- <-] [H|H]; [contradiction | exact H].
  - destruct (try_selector p selector timeout js st) as [[| |e] st1] eqn:T.
    + intros [= <- <-] _. apply (try_selector_ctx _ _ _ _ _ _ _ T). now left.
    + intros H _. apply (IH st1 st' b H). right.
      apply (try_selector_ctx _ _ _ _ _ _ _ T). now right.
    + discriminate.
Qed.

(** *** The search order on a page that does not change *)

Section Static.
Variable iframes : list nat.
Variable clickable : context -> string -> bool.
Variables (timeout : nat) (js : bool).

Let page := static_page iframes clickable.

Lemma advance_nil (st : driver_state) : ctx st = Top -> advance [] st = st.
Proof.
  intros T. apply state_eq; simpl; [now rewrite T | lia | apply app_nil_r].
Qed.

Local Ltac same_state :=
  apply state_eq; simpl;
  [ reflexivity
  | rewrite ?length_app; simpl; rewrite ?length_app; simpl; lia
  | now rewrite <- ?app_assoc ].

Lemma spec_frames_run (selector : string) (frames : list nat) :
  forall st, ctx st = Top ->
    search_frames page selector timeout js frames st =
    (if fst (spec_frames clickable selector frames) then Clicked else Exhausted,
     advance (snd (spec_frames clickable selector frames)) st).
Proof.
  induction frames as [|f frames IH]; intros st T.
  - simpl. now rewrite advance_nil.
  - cbn [search_frames spec_frames]. unfold enter, search, leave.
    cbn [page static_page switch_to_frame wait_click default_content
         tick ctx clock actions].
    destruct (clickable (InFrame f) selector) eqn:C.
    + cbn [fst snd]. f_equal. same_state.
    + destruct (spec_frames clickable selector frames) as [hit l] eqn:S.
      cbn [fst snd]. rewrite IH by reflexivity. cbn [fst snd].
      f_equal. same_state.
Qed.

Lemma spec_resolve_run (selectors : list string) :
  forall st, ctx st = Top ->
    find_and_click_element page selectors timeout js st =
    (Ok (fst (spec_resolve iframes clickable selectors)),
     advance (snd (spec_resolve iframes clickable selectors)) st).
Proof.
  induction selectors as [|selector selectors IH]; intros st T.
  - simpl. now rewrite advance_nil.
  - cbn [find_and_click_element spec_resolve]. unfold try_selector, list_frames.
    cbn [page static_page find_iframes].
    rewrite (spec_frames_run selector iframes (tick ListFrames (ctx st) st))
      by exact T.
    destruct (spec_frames clickable selector iframes) as [hit l] eqn:S.
    cbn [fst snd]. destruct hit.
    + cbn [fst snd]. f_equal. same_state.
    + unfold leave, search.
      cbn [page static_page default_content wait_click advance tick ctx clock
           actions].
      destruct (clickable Top selector) eqn:C.
      * cbn [fst snd]. f_equal. same_state.
      * destruct (spec_resolve iframes clickable selectors) as [hit' l'] eqn:R.
        rewrite IH by reflexivity. cbn [fst snd].
        f_equal. same_state.
Qed.

End Static.

(** C7: whenever the resolver returns, with success or failure, the
    driver is back at the top-level document, provided it had a selector
    to try or started there; and on a page that does not change it makes
    exactly the driver calls of the search order: per selector every
    frame is entered, searched and left, then the top-level document is
    searched, and the first match ends the search with success. *)
Theorem find_and_click_element_restores_context :
  (forall (p : Resolver.Page) (selectors : list string) (timeout : nat) (js : bool)
          (st st' : Resolver.driver_state) (b : bool),
      Resolver.find_and_click_element p selectors timeout js st = (Ok b, st') ->
      selectors <> [] \/ Resolver.ctx st = Resolver.Top ->
      Resolver.ctx st' = Resolver.Top)
  /\ (forall (iframes : list nat) (clickable : Resolver.context -> string -> bool)
             (selectors : list string) (timeout : nat) (js : bool),
        Resolver.find_and_click_element
          (Resolver.static_page iframes clickable) selectors timeout js Resolver.start
        = (Ok (fst (Resolver.spec_resolve iframes clickable selectors)),
           Resolver.advance (snd (Resolver.spec_resolve iframes clickable selectors))
                            Resolver.start)).
Proof.
  split.
  - intros p selectors timeout js st st' b. apply find_and_click_element_ctx.
  - intros iframes clickable selectors timeout js.
    now apply spec_resolve_run.
Qed.

(** The hypotheses of C7 on a page with one frame, where the second
    selector matches in the top-level document only. *)
Lemma find_and_click_element_restores_context_witness :
  Resolver.ctx
    (snd (Resolver.find_and_click_element Resolver.one_frame_page ["a"; "b"] 10 true
            {| ctx := InFrame 3; clock := 0; actions := [] |}))
  = Resolver.Top
  /\ Resolver.find_and_click_element Resolver.one_frame_page ["a"; "b"] 10 true
       Resolver.start
     = (Ok true,
        {| ctx := Top; clock := 12;
           actions := [ListFrames; Enter 7; Search (InFrame 7) "a"; Leave;
                       Leave; Search Top "a";
                       ListFrames; Enter 7; Search (InFrame 7) "b"; Leave;
                       Leave; Search Top "b"] |}).
Proof.
  split.
  - refine (proj1 find_and_click_element_restores_context
              Resolver.one_frame_page ["a"; "b"] 10 true
              {| ctx := InFrame 3; clock := 0; actions := [] |} _ true _ _).
    + reflexivity.
    + left. discriminate.
  - exact (proj2 find_and_click_element_restores_context
             [7] _ ["a"; "b"] 10 true).
Defined.

End ResolverFacts.

(** ** The per-account workflow *)

Module WorkflowFacts.
Import Base Workflow Outcome.

(** *** Event lists *)

Lemma reports_app (a b : list event) :
  reports (a ++ b) = (reports a ++ reports b)%list.
Proof.
  induction a as [|ev a IH]; simpl; [reflexivity|].
  destruct ev; simpl; now rewrite IH.
Qed.

Lemma quiet_app (a b : list event) : quiet (a ++ b) <-> quiet a /\ quiet b.
Proof. unfold quiet. rewrite forallb_app. apply andb_true_iff. Qed.

Lemma quiet_no_allow (evs : list event) : quiet evs -> ~ allow_clicked evs.
Proof.
  unfold quiet, allow_clicked. induction evs as [|ev evs IH]; simpl; [tauto|].
  intros Q [E|I]; apply andb_true_iff in Q as [Q1 Q2]; [|now apply IH].
  subst ev. discriminate Q1.
Qed.

Lemma quiet_no_shot (evs : list event) (label : string) :
  quiet evs -> gate_shot label = true -> ~ In (EvScreenshot label) evs.
Proof.
  unfold quiet. induction evs as [|ev evs IH]; simpl; [tauto|].
  intros Q G [E|I]; apply andb_true_iff in Q as [Q1 Q2]; [|now apply IH].
  subst ev. simpl in Q1. now rewrite G in Q1.
Qed.

Lemma quiet_no_gate (evs : list event) : quiet evs -> ~ gate_failed evs.
Proof.
  intros Q [G|[G|G]]; revert G; now apply quiet_no_shot.
Qed.

Lemma quits_app (a b : list event) : quits (a ++ b) = quits a + quits b.
Proof.
  induction a as [|ev a IH]; simpl; [reflexivity|].
  destruct ev; simpl; now rewrite IH.
Qed.

Lemma quiet_quits (evs : list event) : quiet evs -> quits evs = 0.
Proof.
  unfold quiet. induction evs as [|ev evs IH]; simpl; [reflexivity|].
  intros Q. apply andb_true_iff in Q as [Q1 Q2].
  destruct ev; simpl in *; auto. discriminate Q1.
Qed.

Lemma quiet_issues (evs : list event) :
  quiet evs -> forallb is_issue (reports evs) = true.
Proof.
  unfold quiet. induction evs as [|ev evs IH]; simpl; [reflexivity|].
  intros Q. apply andb_true_iff in Q as [Q1 Q2].
  destruct ev; simpl in *; auto. now rewrite Q1, IH.
Qed.

Lemma issues_not_done (statuses : list string) :
  forallb is_issue statuses = true -> ~ In "done" statuses.
Proof.
  induction statuses as [|status statuses IH]; simpl; [tauto|].
  intros Q [E|I]; apply andb_true_iff in Q as [Q1 Q2]; [|now apply IH].
  subst status. discriminate Q1.
Qed.

(** *** Blocks that neither click Allow, nor fail a gate, nor quit *)
Lemma calm_bind (m : M unit) (k : M unit) : calm m -> calm k -> calm (m ;; k).
Proof.
  unfold calm. destruct m as [[[]|b|e] evs]; intros [Q R]; simpl in *;
    try tauto.
  intros [Q' R']. destruct k as [c evs']. simpl in *.
  split; [now apply quiet_app|].
  destruct c; simpl; try tauto. now rewrite reports_app, R, R'.
Qed.

Lemma calm_call (r : result unit) : calm (call r).
Proof. destruct r; split; reflexivity || exact I. Qed.

Lemma calm_ret : calm (ret tt).
Proof. split; reflexivity. Qed.

Lemma calm_throw (e : exn) : calm (throw e).
Proof. split; [reflexivity | exact I]. Qed.

Lemma calm_log (line : string) :
  quiet_ev (EvLog line) = true -> calm (emit (EvLog line)).
Proof.
  intros Q. split; [|reflexivity].
  unfold quiet, emit. cbn [snd forallb]. now rewrite Q.
Qed.

Lemma calm_shot (label : string) :
  quiet_ev (EvScreenshot label) = true -> calm (emit (EvScreenshot label)).
Proof.
  intros Q. split; [|reflexivity].
  unfold quiet, emit. cbn [snd forallb]. now rewrite Q.
Qed.

Section Blocks.
Variable cfg : Config.
Variable env : Env.
Variable gemail : string.

Lemma calm_escalate (label error_message : string) :
  quiet_ev (EvScreenshot label) = true ->
  calm (escalate gemail label error_message).
Proof.
  intros Q. unfold escalate, calm, quiet. simpl. simpl in Q. rewrite Q.
  split; [reflexivity | exact I].
Qed.

Lemma calm_fatal_step (s : step) :
  quiet_ev (EvScreenshot (shot s)) = true ->
  quiet_ev (EvLog (success s)) = true ->
  calm (fatal_step env gemail s).
Proof.
  intros Qs Ql. unfold fatal_step.
  destruct (browser env (shot s) 0) as [u|e]; simpl.
  - apply (calm_log _ Ql).
  - apply (calm_escalate _ _ Qs).
Qed.

Lemma calm_retry_step (s : step) (attempts : list nat) :
  quiet_ev (EvScreenshot (shot s)) = true ->
  quiet_ev (EvLog (success s)) = true ->
  calm (retry_step env gemail s attempts).
Proof.
  intros Qs Ql. induction attempts as [|attempt attempts IH]; cbn [retry_step].
  - apply calm_ret.
  - destruct (browser env (shot s) attempt) as [u|e].
    + apply (calm_log _ Ql).
    + destruct (is_selenium e); [|apply calm_throw].
      apply calm_bind; [apply calm_log; reflexivity|].
      destruct (attempt =? 2); [apply (calm_escalate _ _ Qs) | exact IH].
Qed.

Lemma calm_optional_step (label done_line skipped_line : string) :
  quiet_ev (EvLog done_line) = true ->
  (forall m, quiet_ev (EvLog (skipped_line ++ m)) = true) ->
  calm (optional_step env label done_line skipped_line).
Proof.
  intros Qd Qs. unfold optional_step.
  destruct (browser env label 0); apply calm_log; auto.
Qed.

Lemma phone_events_quiet (penv : Phone.PhoneEnv) :
  quiet (snd (Phone.handle_phone_verification cfg penv))
  /\ reports (snd (Phone.handle_phone_verification cfg penv)) = [].
Proof.
  unfold Phone.handle_phone_verification.
  destruct (ENABLE_PHONE_VERIFICATION cfg); [|split; reflexivity]. cbn [negb].
  unfold Phone.bypass_body.
  destruct (Phone.phone_input penv) as [[|]|e]; try (split; reflexivity).
  destruct (Phone.get_smspool_number cfg (Phone.purchase penv)) as [d|];
    [|split; reflexivity].
  destruct (Json.truthy d); [|split; reflexivity]. cbn [negb].
  destruct (Phone.extract_ids d) as [[phone_number order_id]|e];
    [|split; reflexivity].
  destruct (Json.truthy phone_number); [|split; reflexivity]. cbn [negb].
  destruct (Phone.type_number penv) as [u|e]; [|split; reflexivity].
  destruct (Json.truthy order_id); [|split; reflexivity]. cbn [negb].
  destruct (fst (Sms.get_smspool_sms cfg (Phone.check penv order_id)))
    as [sms_text|]; [|split; reflexivity].
  destruct (Json.truthy sms_text); [|split; reflexivity]. cbn [negb].
  destruct sms_text as [| | |sms_text| |]; try (split; reflexivity).
  destruct (Phone.otp_input penv); [|split; reflexivity]. cbn [negb].
  destruct (Phone.type_otp penv) as [u'|e]; split; reflexivity.
Qed.

Lemma calm_phone_step : calm (phone_step cfg env).
Proof.
  unfold phone_step.
  destruct (phone_events_quiet (phone env)) as [Q R].
  destruct (Phone.handle_phone_verification cfg (phone env)) as [handled evs].
  simpl in Q, R. apply calm_bind.
  - split; [exact Q | exact R].
  - apply calm_log. now destruct handled.
Qed.

Lemma calm_understand_step : calm (understand_step env).
Proof.
  unfold understand_step.
  destruct (browser env "i_understand_button" 0); [apply calm_ret|].
  apply calm_bind; [apply calm_log; reflexivity|].
  apply calm_bind; [apply calm_shot; reflexivity | apply calm_call].
Qed.

Lemma calm_before_gates : calm (before_gates cfg env gemail).
Proof.
  unfold before_gates, mandatory.
  repeat (apply calm_bind;
          [ first [ apply calm_call
                  | apply calm_fatal_step; reflexivity
                  | apply calm_retry_step; reflexivity
                  | apply calm_optional_step; [reflexivity | intros m; reflexivity]
                  | apply calm_phone_step ] |]).
  apply calm_understand_step.
Qed.

End Blocks.

(** *** The steps after the gates *)

Lemma after_gates_shape (env : Env) (gemail : string) :
  quiet (snd (after_gates env gemail))
  /\ (browser env "switch_back_window" 0 = Ok tt ->
      reports (snd (after_gates env gemail)) = []
      /\ fst (after_gates env gemail) = Return true).
Proof.
  unfold after_gates, fatal_step, success_check, back_step, optional_step.
  cbn [shot success failure].
  destruct (browser env "switch_back_window" 0) as [[]|e].
  - destruct (visible env "success_message") as [[|]|e1];
      destruct (visible env "back_button") as [[|]|e2];
      try destruct (browser env "back_button" 0) as [[]|e3];
      (split; [reflexivity | intros _; split; reflexivity]).
  - split; [reflexivity | discriminate].
Qed.

(** *** The gates *)

Local Ltac gate_done :=
  split; [simpl; tauto|];
  split; [simpl; discriminate|];
  split; [reflexivity|];
  let A := fresh "A" in
  intros A; unfold allow_clicked in A; simpl in A;
  repeat (destruct A as [A|A]; [discriminate A|]); exact A.

Lemma shape_prefix (env : Env) (gemail : string) (evs0 : list event)
  (c : ctl unit) (evs : list event) :
  quiet evs0 -> reports evs0 = [] ->
  shape env gemail (c, evs) -> shape env gemail (c, (evs0 ++ evs)%list).
Proof.
  intros Q R S.
  inversion S as [c' evs' Q1 | c' evs1 evs2 Q1 R1 G2 Cc
                 | c' evs1 evs3 Q1 R1 Q3 Sw]; subst.
  - apply shape_early. now apply quiet_app.
  - rewrite app_assoc. apply shape_gate; auto.
    + now apply quiet_app.
    + now rewrite reports_app, R.
  - rewrite app_assoc. apply shape_allow; auto.
    + now apply quiet_app.
    + now rewrite reports_app, R.
Qed.

Lemma allow_gate_shape (env : Env) (gemail : string) :
  shape env gemail (allow_gate env gemail ;; after_gates env gemail).
Proof.
  unfold allow_gate, quit_driver.
  destruct (browser env "allow_button" 0) as [[]|e]; cbn [call].
  - destruct (after_gates_shape env gemail) as [Q H].
    destruct (after_gates env gemail) as [c evs3].
    cbn [bind ret emit try_except app fst snd] in *.
    apply (shape_allow env gemail c [] evs3); auto; reflexivity.
  - cbn [bind throw try_except app]. destruct (is_selenium e).
    + destruct (quit env QuitAllowHandler) as [[]|e'];
        cbn [bind call ret throw emit return_ app];
        apply (shape_gate env gemail _ []); try reflexivity;
        try discriminate; gate_done.
    + apply shape_early. reflexivity.
Qed.

Lemma gates_shape (env : Env) (gemail : string) :
  shape env gemail
    (continue_gate env gemail ;; allow_gate env gemail ;; after_gates env gemail).
Proof.
  pose proof (allow_gate_shape env gemail) as A.
  destruct (allow_gate env gemail ;; after_gates env gemail) as [c evs].
  unfold continue_gate, quit_driver.
  destruct (fst (Resolver.find_and_click_element _ _ _ _ _)) as [[|]|e].
  - cbn [bind emit try_except].
    apply (shape_prefix env gemail [_]); [reflexivity | reflexivity | exact A].
  - destruct (quit env QuitContinueElse) as [[]|e];
      cbn [bind call ret throw emit return_ try_except app].
    + apply (shape_gate env gemail _ []); try reflexivity;
        try discriminate; gate_done.
    + destruct (is_selenium e).
      * destruct (quit env QuitContinueHandler) as [[]|e'];
          cbn [bind call ret throw emit return_ try_except app];
          apply (shape_gate env gemail _ []); try reflexivity;
          try discriminate; gate_done.
      * apply (shape_gate env gemail _ []); try reflexivity;
          try discriminate; gate_done.
  - cbn [bind throw try_except app]. destruct (is_selenium e).
    + destruct (quit env QuitContinueHandler) as [[]|e'];
        cbn [bind call ret throw emit return_ try_except app];
        apply (shape_gate env gemail _ []); try reflexivity;
        try discriminate; gate_done.
    + apply shape_early. reflexivity.
Qed.

Lemma steps_shape (cfg : Config) (env : Env) (gemail : string) :
  shape env gemail (steps cfg env gemail).
Proof.
  unfold steps.
  destruct (calm_before_gates cfg env gemail) as [Q R].
  pose proof (gates_shape env gemail) as G.
  destruct (before_gates cfg env gemail) as [[[]|b|e] evs0]; simpl in Q, R.
  - destruct (continue_gate env gemail ;; allow_gate env gemail
              ;; after_gates env gemail) as [c evs].
    cbn [bind]. now apply shape_prefix.
  - contradiction.
  - cbn [bind]. now apply shape_early.
Qed.

(** *** The whole function *)

Lemma closing_shape (env : Env) (gemail : string) (c : ctl unit) :
  forallb is_issue (reports (closing env gemail c)) = true
  /\ ((forall e, c <> Throw e) -> reports (closing env gemail c) = [])
  /\ ~ allow_clicked (closing env gemail c)
  /\ ~ gate_failed (closing env gemail c)
  /\ exists pre line, closing env gemail c = (pre ++ [EvQuit; EvLog line])%list.
Proof.
  unfold closing, cleanup, on_exception, allow_clicked, gate_failed.
  destruct (quit env QuitFinally) as [[]|e'];
    destruct c as [[]|b|e]; cbn [app reports forallb];
    (split; [reflexivity|]);
    (split; [intros H; first [reflexivity | now destruct (H e)]|]);
    (split; [simpl; intuition discriminate|]);
    (split; [simpl; intuition discriminate|]).
  all: try (exists []; eexists; reflexivity).
  all: eexists [_; _]; eexists; reflexivity.
Qed.

Lemma run_log (cfg : Config) (env : Env)
  (gemail gpassword instantly_email instantly_password worker_id : string) :
  new_driver env = Ok tt ->
  exists c evs,
    steps cfg env gemail = (c, evs)
    /\ process_single_account cfg env gemail gpassword instantly_email
         instantly_password worker_id
       = (match c with Return b => b | _ => false end,
          (EvDriverStart (Worklist.user_data_dir worker_id (pid env) (randint env))
           :: evs ++ closing env gemail c)%list).
Proof.
  intros D. unfold process_single_account, closing. rewrite D.
  destruct (steps cfg env gemail) as [c evs]. exists c, evs.
  split; [reflexivity|].
  destruct c; cbn [bind emit app]; reflexivity.
Qed.

Lemma cleanup_shape (env : Env) (gemail : string) :
  (exists line, cleanup env gemail = [EvQuit; EvLog line])
  /\ (quit env QuitFinally = Ok tt ->
      cleanup env gemail = [EvQuit; EvLog ("Browser closed for " ++ gemail)]).
Proof.
  unfold cleanup. destruct (quit env QuitFinally) as [[]|e].
  - split; [eexists; reflexivity | reflexivity].
  - split; [eexists; reflexivity | discriminate].
Qed.

Lemma closing_reports (env : Env) (gemail : string) (c : ctl unit) :
  reports (closing env gemail c)
  = match c with
    | Throw e => ["issue: " ++ msg e]%string
    | _ => []
    end
  /\ quits (closing env gemail c) = 1.
Proof.
  unfold closing, cleanup, on_exception.
  destruct (quit env QuitFinally) as [[]|e']; destruct c as [[]|b|e];
    split; reflexivity.
Qed.

(** *** The gates when they fail *)

Local Ltac gate_run :=
  cbn [bind call ret throw emit return_ try_except app fst snd reports quits
       forallb].

Local Ltac not_this_gate :=
  let T := fresh "T" in
  intros T;
  repeat match goal with
         | H : _ \/ _ |- _ => destruct H
         | H : _ /\ _ |- _ => destruct H
         | H : exists _, _ |- _ => destruct H
         end;
  congruence.

Local Ltac this_gate :=
  intros _; eexists [_; _], _, _;
  split; [reflexivity|]; split; [reflexivity|]; split; reflexivity.

Local Ltac gate_leaf :=
  gate_run;
  split; [first [left; reflexivity | right; eexists; reflexivity]|];
  split; [reflexivity|];
  split; [first [discriminate | intros T; discriminate T]|];
  first [this_gate | not_this_gate].

(** The two gates and what follows them, when one of the gates fails:
    the block returns [False] or raises, reports nothing but issues, at
    least one when it returns; and a failure the gate handles itself is
    reported and followed at once by [driver.quit()]. *)
Lemma gates_fail (env : Env) (gemail : string) :
  continue_fails env \/ allow_fails env ->
  let m := continue_gate env gemail ;; allow_gate env gemail
           ;; after_gates env gemail in
  (fst m = Return false \/ exists e, fst m = Throw e)
  /\ forallb is_issue (reports (snd m)) = true
  /\ (fst m = Return false -> reports (snd m) <> [])
  /\ (continue_timeout env \/ allow_timeout env ->
      exists pre post status,
        snd m = (pre ++ [EvReport gemail status; EvQuit] ++ post)%list
        /\ reports pre = [] /\ quits pre = 0 /\ is_issue status = true).
Proof.
  intros F. cbv zeta.
  unfold continue_fails, allow_fails, continue_timeout, allow_timeout,
    continue_click in *.
  unfold continue_gate, allow_gate, quit_driver.
  destruct (fst (Resolver.find_and_click_element _ _ _ _ _)) as [[|]|e] eqn:C.
  - destruct F as [F|[_ [e A]]]; [congruence|]. rewrite A.
    destruct (is_selenium e) eqn:S.
    + destruct (quit env QuitAllowHandler) as [[]|e'];
        gate_run; rewrite S; gate_run;
        (split; [first [left; reflexivity | right; eexists; reflexivity]|]);
        (split; [reflexivity|]);
        (split; [first [discriminate | intros T; discriminate T]|]);
        intros _; eexists [_; _; _], _, _;
        (split; [reflexivity|]); (split; [reflexivity|]); split; reflexivity.
    + gate_run. rewrite S. gate_run.
      split; [right; eexists; reflexivity|].
      split; [reflexivity|].
      split; [intros T; discriminate T|].
      intros [[T|[e' [T _]]]|[_ [e' [T S']]]]; congruence.
  - destruct (quit env QuitContinueElse) as [[]|e]; [gate_leaf|].
    gate_run. destruct (is_selenium e).
    + destruct (quit env QuitContinueHandler) as [[]|e']; gate_leaf.
    + gate_leaf.
  - gate_run. destruct (is_selenium e) eqn:S.
    + destruct (quit env QuitContinueHandler) as [[]|e']; gate_leaf.
    + gate_run.
      split; [right; eexists; reflexivity|].
      split; [reflexivity|].
      split; [intros T; discriminate T|].
      intros [[T|[e' [T S']]]|[T _]]; congruence.
Qed.

(** How often the gates themselves call [driver.quit()]. *)
Lemma gates_quits (env : Env) (gemail : string) :
  quits (snd (continue_gate env gemail ;; allow_gate env gemail
              ;; after_gates env gemail))
  = match continue_click env with
    | Ok true =>
        match browser env "allow_button" 0 with
        | Ok _ => 0
        | Raise e => if is_selenium e then 1 else 0
        end
    | Ok false =>
        match quit env QuitContinueElse with
        | Ok _ => 1
        | Raise e => if is_selenium e then 2 else 1
        end
    | Raise e => if is_selenium e then 1 else 0
    end.
Proof.
  unfold continue_click, continue_gate, allow_gate, quit_driver.
  destruct (fst (Resolver.find_and_click_element _ _ _ _ _)) as [[|]|e].
  - destruct (browser env "allow_button" 0) as [[]|e].
    + destruct (after_gates_shape env gemail) as [Q _].
      apply quiet_quits in Q.
      destruct (after_gates env gemail) as [c evs3].
      gate_run. exact Q.
    + gate_run. destruct (is_selenium e); [|reflexivity].
      destruct (quit env QuitAllowHandler) as [[]|e']; reflexivity.
  - destruct (quit env QuitContinueElse) as [[]|e]; [reflexivity|].
    gate_run. destruct (is_selenium e); [|reflexivity].
    destruct (quit env QuitContinueHandler) as [[]|e']; reflexivity.
  - gate_run. destruct (is_selenium e); [|reflexivity].
    destruct (quit env QuitContinueHandler) as [[]|e']; reflexivity.
Qed.

(** An execution that reaches the gates: what it returns and logs, from
    what the gates and the steps after them do. *)
Lemma run_from_gates (cfg : Config) (env : Env)
  (gemail gpassword instantly_email instantly_password worker_id : string) :
  reaches_gates cfg env gemail ->
  exists evs0 c evs,
    quiet evs0 /\ reports evs0 = []
    /\ (continue_gate env gemail ;; allow_gate env gemail
        ;; after_gates env gemail) = (c, evs)
    /\ process_single_account cfg env gemail gpassword instantly_email
         instantly_password worker_id
       = (match c with Return b => b | _ => false end,
          (EvDriverStart (Worklist.user_data_dir worker_id (pid env) (randint env))
           :: evs0 ++ evs ++ closing env gemail c)%list).
Proof.
  intros [D B].
  destruct (run_log cfg env gemail gpassword instantly_email
              instantly_password worker_id D) as [c [evs [E1 E2]]].
  rewrite E2. unfold steps in E1.
  destruct (calm_before_gates cfg env gemail) as [Q R].
  destruct (before_gates cfg env gemail) as [c0 evs0].
  cbn [fst snd] in *. subst c0.
  destruct (continue_gate env gemail ;; allow_gate env gemail
            ;; after_gates env gemail) as [c' evs'].
  cbn [bind] in E1. inversion E1; subst.
  exists evs0, c, evs'. rewrite <- app_assoc. auto.
Qed.

(** C1, as stated, fails: when the window switch after a successful
    Allow click fails, "done" is followed by two issue reports. *)
Lemma done_followed_by_issue :
  Workflow.allow_clicked (snd (Workflow.sample_run Workflow.switch_back_fails))
  /\ Workflow.reports (snd (Workflow.sample_run Workflow.switch_back_fails))
     = ["done";
        "issue: Failed to switch back to main window: no such window";
        "issue: Failed to switch back to main window: no such window"].
Proof.
  split; [|vm_compute; reflexivity].
  unfold allow_clicked. vm_compute.
  repeat (first [left; reflexivity | right]).
Qed.

(** C1, amended: when the Allow click succeeds, "done" is the first
    status reported and is reported once; what may follow are issue
    reports, and nothing follows when the switch back to the host window
    works; and "done" is reported nowhere but after a successful Allow
    click. *)
Theorem done_reported_at_allow_click (cfg : Config) (env : Workflow.Env)
  (gemail gpassword instantly_email instantly_password worker_id : string) :
  let log := snd (Workflow.process_single_account cfg env gemail gpassword
                    instantly_email instantly_password worker_id) in
  (Workflow.allow_clicked log ->
   exists later,
     Workflow.reports log = "done" :: later
     /\ forallb Workflow.is_issue later = true
     /\ (Workflow.browser env "switch_back_window" 0 = Ok tt -> later = []))
  /\ (In "done" (Workflow.reports log) -> Workflow.allow_clicked log).
Proof.
  cbv zeta. destruct (new_driver env) as [[]|e0] eqn:D.
  - destruct (run_log cfg env gemail gpassword instantly_email
                instantly_password worker_id D) as [c [evs [E1 E2]]].
    rewrite E2. cbn [snd].
    pose proof (steps_shape cfg env gemail) as S. rewrite E1 in S.
    destruct (closing_shape env gemail c) as [Ci [Cn [Ca [Cg _]]]].
    cbn [reports]. rewrite reports_app.
    unfold allow_clicked in *. cbn [In]. rewrite !in_app_iff.
    inversion S as [c' evs' Q1 | c' evs1 evs2 Q1 R1 G2 Cc | c' evs1 evs3 Q1 R1 Q3 Sw]; subst.
    + pose proof (quiet_no_allow _ Q1) as Na. unfold allow_clicked in Na.
      pose proof (issues_not_done _ (quiet_issues _ Q1)) as Nd.
      pose proof (issues_not_done _ Ci) as Nd'.
      split.
      * intros [A|[A|A]]; [discriminate A | tauto | tauto].
      * tauto.
    + destruct G2 as [Hq [Hr [Hi Ha]]]. unfold allow_clicked in Ha.
      pose proof (quiet_no_allow _ Q1) as Na. unfold allow_clicked in Na.
      pose proof (issues_not_done _ Hi) as Nd.
      pose proof (issues_not_done _ Ci) as Nd'.
      rewrite !reports_app, R1. cbn [app]. rewrite !in_app_iff.
      split.
      * intros [A|[[A|A]|A]]; [discriminate A | tauto..].
      * tauto.
    + rewrite !reports_app, R1. cbn [reports app].
      split.
      * intros _. eexists. split; [reflexivity|]. split.
        -- rewrite forallb_app, (quiet_issues _ Q3), Ci. reflexivity.
        -- intros Sb. destruct (Sw Sb) as [R3 ->]. rewrite R3, Cn;
             [reflexivity | discriminate].
      * intros _. right. left. apply in_or_app. right. now left.
  - unfold process_single_account. rewrite D. cbn [snd on_exception reports].
    unfold allow_clicked. split.
    + intros [A|[A|[]]]; discriminate A.
    + intros [A|[]]. discriminate A.
Qed.

(** The hypotheses of C1 on an execution where everything works. *)
Lemma done_reported_at_allow_click_witness :
  exists later,
    Workflow.reports (snd (Workflow.sample_run Workflow.calm_env)) = "done" :: later
    /\ forallb Workflow.is_issue later = true
    /\ (Workflow.browser Workflow.calm_env "switch_back_window" 0 = Ok tt ->
        later = []).
Proof.
  apply (proj1 (done_reported_at_allow_click sample_cfg calm_env
                  "a@x.com" "pa" "host@x.com" "hp" "thread_1")).
  unfold allow_clicked. vm_compute.
  repeat (first [left; reflexivity | right]).
Defined.

(** C2: in every execution that reaches the gates and in which the
    Continue gate fails (no button could be clicked, or the search
    raised) or the Allow gate fails (waiting for the button or clicking
    it raised), [driver.quit()] is called before the function returns,
    at least one status is reported, every reported status starts with
    "issue:" and the function returns [False]; when the failure is one
    the gate handles itself, the first status reported is followed at
    once by [driver.quit()], and the browser is closed again later.
    Whenever a browser was started, the function ends by calling
    [driver.quit()] in its [finally] block, which logs the browser as
    closed when the call succeeds.  When no browser could be started
    there is no session to close. *)
Theorem browser_closed_on_every_path (cfg : Config) (env : Workflow.Env)
  (gemail gpassword instantly_email instantly_password worker_id : string) :
  let run := Workflow.process_single_account cfg env gemail gpassword
               instantly_email instantly_password worker_id in
  (Workflow.reaches_gates cfg env gemail ->
   Workflow.continue_fails env \/ Workflow.allow_fails env ->
   In EvQuit (snd run) /\ Workflow.reports (snd run) <> []
   /\ forallb Workflow.is_issue (Workflow.reports (snd run)) = true
   /\ fst run = false
   /\ (Workflow.continue_timeout env \/ Workflow.allow_timeout env ->
       exists pre post status,
         snd run = (pre ++ [EvReport gemail status; EvQuit] ++ post)%list
         /\ Workflow.reports pre = [] /\ Outcome.quits pre = 0
         /\ In EvQuit post))
  /\ (Workflow.new_driver env = Ok tt ->
      exists pre line, snd run = (pre ++ [EvQuit; EvLog line])%list)
  /\ (Workflow.new_driver env = Ok tt ->
      Workflow.quit env QuitFinally = Ok tt ->
      exists pre,
        snd run = (pre ++ [EvQuit; EvLog ("Browser closed for " ++ gemail)])%list)
  /\ (forall e, Workflow.new_driver env = Raise e ->
      forall dir, ~ In (EvDriverStart dir) (snd run)).
Proof.
  cbv zeta. split; [|split; [|split]].
  - intros Rg F.
    destruct (run_from_gates cfg env gemail gpassword instantly_email
                instantly_password worker_id Rg)
      as (evs0 & c & evs & Q0 & R0 & E & Run).
    rewrite Run. cbn [fst snd].
    pose proof (gates_fail env gemail F) as G. cbv zeta in G. rewrite E in G.
    cbn [fst snd] in G. destruct G as (Gc & Gi & Gr & Gt).
    destruct (closing_shape env gemail c) as (Ci & _ & _ & _ & cpre & line & Cl).
    destruct (closing_reports env gemail c) as [Cr _].
    assert (Last : In EvQuit (closing env gemail c)).
    { rewrite Cl. apply in_or_app. right. now left. }
    cbn [reports]. rewrite !reports_app, R0. cbn [app].
    split; [right; apply in_or_app; right; apply in_or_app; now right|].
    split.
    { destruct Gc as [-> | [e ->]].
      - intros N. apply app_eq_nil in N as [N _]. now apply Gr.
      - rewrite Cr. intros N. apply app_eq_nil in N as [_ N]. discriminate N. }
    split; [now rewrite forallb_app, Gi, Ci|].
    split; [destruct Gc as [-> | [e ->]]; reflexivity|].
    intros T. destruct (Gt T) as (pre & post & status & Es & Rp & Qp & _).
    exists (EvDriverStart (Worklist.user_data_dir worker_id (pid env) (randint env))
            :: evs0 ++ pre)%list,
           (post ++ closing env gemail c)%list, status.
    split; [|split; [|split]].
    + rewrite Es. cbn [app]. f_equal.
      now rewrite <- !app_assoc.
    + cbn [reports]. now rewrite reports_app, R0, Rp.
    + cbn [quits]. now rewrite quits_app, (quiet_quits _ Q0), Qp.
    + apply in_or_app. now right.
  - intros D.
    destruct (run_log cfg env gemail gpassword instantly_email
                instantly_password worker_id D) as [c [evs [E1 E2]]].
    rewrite E2. cbn [snd].
    destruct (cleanup_shape env gemail) as [[line Cl] _].
    unfold closing. rewrite Cl.
    eexists (_ :: evs ++ _)%list, line.
    cbn [app]. now rewrite <- app_assoc.
  - intros D Q.
    destruct (run_log cfg env gemail gpassword instantly_email
                instantly_password worker_id D) as [c [evs [E1 E2]]].
    rewrite E2. cbn [snd].
    destruct (cleanup_shape env gemail) as [_ Cok].
    unfold closing. rewrite (Cok Q).
    eexists (_ :: evs ++ _)%list.
    cbn [app]. now rewrite <- app_assoc.
  - intros e D dir. unfold process_single_account. rewrite D.
    cbn [snd on_exception]. simpl. intuition discriminate.
Qed.

(** The hypotheses of C2 on executions where the Continue button never
    shows up, where the Allow button never shows up, and where the Allow
    click fails with an exception the gate does not handle. *)
Lemma browser_closed_on_every_path_witness :
  (In EvQuit (snd (Workflow.sample_run Workflow.continue_missing))
   /\ Workflow.reports (snd (Workflow.sample_run Workflow.continue_missing)) <> []
   /\ forallb Workflow.is_issue
        (Workflow.reports (snd (Workflow.sample_run Workflow.continue_missing))) = true
   /\ fst (Workflow.sample_run Workflow.continue_missing) = false)
  /\ (Workflow.reports (snd (Workflow.sample_run Workflow.allow_missing)) <> []
      /\ forallb Workflow.is_issue
           (Workflow.reports (snd (Workflow.sample_run Workflow.allow_missing))) = true
      /\ fst (Workflow.sample_run Workflow.allow_missing) = false
      /\ exists pre post status,
           snd (Workflow.sample_run Workflow.allow_missing)
           = (pre ++ [EvReport "a@x.com" status; EvQuit] ++ post)%list
           /\ Workflow.reports pre = [] /\ Outcome.quits pre = 0
           /\ In EvQuit post)
  /\ (Workflow.reports (snd (Workflow.sample_run Workflow.allow_crashes)) <> []
      /\ forallb Workflow.is_issue
           (Workflow.reports (snd (Workflow.sample_run Workflow.allow_crashes))) = true
      /\ fst (Workflow.sample_run Workflow.allow_crashes) = false)
  /\ exists pre,
       snd (Workflow.sample_run Workflow.continue_missing)
       = (pre ++ [EvQuit; EvLog ("Browser closed for " ++ "a@x.com")])%list.
Proof.
  pose proof (browser_closed_on_every_path sample_cfg continue_missing
                "a@x.com" "pa" "host@x.com" "hp" "thread_1") as [G [_ [C _]]].
  pose proof (browser_closed_on_every_path sample_cfg allow_missing
                "a@x.com" "pa" "host@x.com" "hp" "thread_1") as [G1 _].
  pose proof (browser_closed_on_every_path sample_cfg allow_crashes
                "a@x.com" "pa" "host@x.com" "hp" "thread_1") as [G2 _].
  split; [|split; [|split]].
  - refine ((fun H => conj (proj1 H)
                        (conj (proj1 (proj2 H))
                           (conj (proj1 (proj2 (proj2 H)))
                                 (proj1 (proj2 (proj2 (proj2 H)))))))
              (G _ _)).
    + split; reflexivity.
    + left. unfold continue_fails. vm_compute. discriminate.
  - refine ((fun H => conj (proj1 (proj2 H))
                        (conj (proj1 (proj2 (proj2 H)))
                           (conj (proj1 (proj2 (proj2 (proj2 H))))
                                 (proj2 (proj2 (proj2 (proj2 H))) _))))
              (G1 _ _)).
    + right. split; [reflexivity|]. eexists. split; reflexivity.
    + split; reflexivity.
    + right. split; [reflexivity|]. eexists. reflexivity.
  - refine ((fun H => conj (proj1 (proj2 H))
                        (conj (proj1 (proj2 (proj2 H)))
                              (proj1 (proj2 (proj2 (proj2 H)))))) (G2 _ _)).
    + split; reflexivity.
    + right. split; [reflexivity|]. eexists. reflexivity.
  - apply C; reflexivity.
Defined.

(** C9: two workers of one batch get the same worker id, so with the
    same process id and equal draws of [random.randint] both executions
    start their browser on the same profile directory. *)
Theorem same_batch_same_profile_dir :
  exists l1 l2,
    Worklist.main Worklist.two_pending = Ok [[l1; l2]]
    /\ Worklist.gemail l1 <> Worklist.gemail l2
    /\ Worklist.worker_id l1 = "thread_1" /\ Worklist.worker_id l2 = "thread_1"
    /\ Workflow.valid_env Workflow.calm_env
    /\ hd_error (snd (Workflow.process_single_account
                        Workflow.sample_cfg Workflow.calm_env
                        (Worklist.gemail l1) (Worklist.gpassword l1)
                        (Worklist.instantly_email l1)
                        (Worklist.instantly_password l1) (Worklist.worker_id l1)))
       = Some (EvDriverStart "/tmp/seleniumbase_user_data_thread_1_4242_1234")
    /\ hd_error (snd (Workflow.process_single_account
                        Workflow.sample_cfg Workflow.calm_env
                        (Worklist.gemail l2) (Worklist.gpassword l2)
                        (Worklist.instantly_email l2)
                        (Worklist.instantly_password l2) (Worklist.worker_id l2)))
       = Some (EvDriverStart "/tmp/seleniumbase_user_data_thread_1_4242_1234").
Proof.
  eexists. eexists. split; [vm_compute; reflexivity|].
  split; [discriminate|].
  split; [reflexivity|]. split; [reflexivity|].
  split; [unfold valid_env; simpl; lia|].
  split; vm_compute; reflexivity.
Qed.

End WorkflowFacts.

(** ** More on worklist ingestion and batching *)

Module WorklistMore.
Import Base Worklist.

(** What [pad_row] appends, by the number of columns of the row. *)
Lemma pad_row_tail (row : list string) :
  pad_row row =
  (row ++ match length row with
          | 5 => ["pending"; ""]
          | 6 => [""]
          | S (S (S (S (S (S (S _)))))) => []
          | n => repeat "" (5 - n) ++ ["pending"; ""]
          end)%list.
Proof.
  destruct (Nat.le_gt_cases (length row) 4) as [L|L].
  - rewrite (WorklistFacts.pad_row_short row L).
    destruct (length row) as [|[|[|[|[|n]]]]]; try reflexivity; lia.
  - unfold pad_row.
    assert (E : (length row <? 5) = false) by (apply Nat.ltb_ge; lia).
    rewrite E.
    destruct (Nat.ltb_spec (length row) 6) as [L6|L6].
    + rewrite length_app. cbn [length].
      destruct (Nat.ltb_spec (length row + 1) 7) as [L7|L7]; [|lia].
      rewrite <- app_assoc.
      destruct (length row) as [|[|[|[|[|[|n]]]]]]; try lia. reflexivity.
    + destruct (Nat.ltb_spec (length row) 7) as [L7|L7].
      * destruct (length row) as [|[|[|[|[|[|[|n]]]]]]]; try lia. reflexivity.
      * destruct (length row) as [|[|[|[|[|[|[|n]]]]]]]; try lia.
        now rewrite app_nil_r.
Qed.

(** X1: after ingestion every row has at least seven columns, its own
    cells come first and unchanged, and padding again changes nothing. *)
Theorem pad_row_invariants (row : list string) :
  length (Worklist.pad_row row) = Nat.max 7 (length row)
  /\ firstn (length row) (Worklist.pad_row row) = row
  /\ Worklist.pad_row (Worklist.pad_row row) = Worklist.pad_row row.
Proof.
  assert (Len : length (pad_row row) = Nat.max 7 (length row)).
  { rewrite pad_row_tail, length_app.
    destruct (length row) as [|[|[|[|[|[|[|n]]]]]]]; simpl; lia. }
  split; [exact Len|]. split.
  - rewrite pad_row_tail, firstn_app, Nat.sub_diag, firstn_all. simpl.
    apply app_nil_r.
  - rewrite (pad_row_tail (pad_row row)), Len.
    destruct (Nat.max_spec 7 (length row)) as [[H ->]|[H ->]].
    + destruct (length row) as [|[|[|[|[|[|[|n]]]]]]]; try lia.
      apply app_nil_r.
    + apply app_nil_r.
Qed.

Lemma launch_batch_emails (i : nat) (batch : list (list string)) :
  map gemail (launch_batch i batch) =
  map (fun row => PyStr.strip (nth 0 row ""))
      (filter (fun row => negb (String.eqb (row_status row) "done")) batch).
Proof.
  induction batch as [|row batch IH]; simpl; [reflexivity|].
  unfold launch_row. destruct (String.eqb (row_status row) "done"); simpl.
  - exact IH.
  - now rewrite IH.
Qed.

Lemma launch_batch_length (i : nat) (batch : list (list string)) :
  length (launch_batch i batch) <= length batch.
Proof.
  induction batch as [|row batch IH]; simpl; [lia|].
  destruct (launch_row i row); simpl; lia.
Qed.

Lemma launch_batch_worker (i : nat) (batch : list (list string)) (l : launch) :
  In l (launch_batch i batch) ->
  worker_id l = ("thread_" ++ PyStr.str_of_nat (i + 1))%string.
Proof.
  induction batch as [|row batch IH]; simpl; [tauto|].
  unfold launch_row. destruct (String.eqb (row_status row) "done").
  - exact IH.
  - intros [<-|H]; [reflexivity | now apply IH].
Qed.

(** Cutting a list into consecutive slices of [w] loses nothing. *)
Lemma slices_concat (A : Type) (w : nat) :
  0 < w ->
  forall (m : nat) (l : list A),
    length l <= m * w ->
    concat (map (fun k => firstn w (skipn (k * w) l)) (seq 0 m)) = l.
Proof.
  intros W. induction m as [|m IH]; intros l L.
  - destruct l; [reflexivity | simpl in L; lia].
  - cbn [seq map concat]. rewrite <- seq_shift, map_map.
    cbn [Nat.mul skipn].
    rewrite (map_ext _ (fun k => firstn w (skipn (k * w) (skipn w l)))).
    + rewrite IH; [apply firstn_skipn|].
      rewrite length_skipn. simpl in L. lia.
    + intros k. rewrite skipn_skipn. f_equal. f_equal. simpl. lia.
Qed.

Lemma filter_concat (A : Type) (f : A -> bool) (ls : list (list A)) :
  filter f (concat ls) = concat (map (filter f) ls).
Proof.
  induction ls as [|l ls IH]; simpl; [reflexivity|].
  now rewrite filter_app, IH.
Qed.

Lemma slices_cover (n w : nat) : 0 < w -> n <= ((n + w - 1) / w) * w.
Proof.
  intros W.
  pose proof (Nat.div_mod_eq (n + w - 1) w) as E.
  pose proof (Nat.mod_upper_bound (n + w - 1) w ltac:(lia)) as U.
  nia.
Qed.

(** X2: with a positive width, every batch starts at most [width]
    threads, all with the same worker id; and over all batches the rows
    whose status is not "done" are launched once each, in sheet order,
    while the rows marked "done" are not launched. *)
Theorem schedule_launches_pending (width : nat) (rows : list (list string))
  (batches : list (list Worklist.launch)) :
  Worklist.schedule width rows = Ok batches ->
  Forall (fun batch => length batch <= width
                       /\ forall l1 l2, In l1 batch -> In l2 batch ->
                                        worker_id l1 = worker_id l2) batches
  /\ map gemail (concat batches)
     = map (fun row => PyStr.strip (nth 0 row ""))
           (filter (fun row => negb (String.eqb (Worklist.row_status row) "done"))
                   rows).
Proof.
  unfold schedule. destruct (width =? 0) eqn:Z; [discriminate|].
  apply Nat.eqb_neq in Z. intros [= <-]. split.
  - apply Forall_forall. intros batch B.
    apply in_map_iff in B as [i [<- _]]. split.
    + etransitivity; [apply launch_batch_length|].
      rewrite length_firstn. lia.
    + intros l1 l2 H1 H2.
      now rewrite (launch_batch_worker _ _ _ H1), (launch_batch_worker _ _ _ H2).
  - rewrite concat_map, map_map.
    rewrite (map_ext _ (fun i =>
               map (fun row => PyStr.strip (nth 0 row ""))
                   (filter (fun row => negb (String.eqb (row_status row) "done"))
                           (firstn width (skipn i rows)))))
      by (intros i; apply launch_batch_emails).
    unfold range_step. rewrite map_map.
    rewrite <- (map_map (fun k => firstn width (skipn (k * width) rows))
                        (fun b => map (fun row => PyStr.strip (nth 0 row ""))
                                      (filter (fun row => negb (String.eqb (row_status row) "done")) b))).
    rewrite <- (map_map (filter _) (map _)).
    rewrite <- concat_map, <- filter_concat.
    rewrite slices_concat; [reflexivity | lia | apply slices_cover; lia].
Qed.

(** The hypothesis of X2 on a sheet of two pending rows, width 2. *)
Lemma schedule_launches_pending_witness :
  map gemail (concat [launch_batch 0 (map pad_row (tl two_pending))])
  = map (fun row => PyStr.strip (nth 0 row ""))
        (filter (fun row => negb (String.eqb (Worklist.row_status row) "done"))
                (map pad_row (tl two_pending))).
Proof.
  exact (proj2 (schedule_launches_pending 2 (map pad_row (tl two_pending))
                  [launch_batch 0 (map pad_row (tl two_pending))] eq_refl)).
Defined.

(** *** Trimming *)

Lemma all_chars_weaken (p q : ascii -> bool) (s : string) :
  (forall c, p c = true -> q c = true) ->
  PyStr.all_chars p s = true -> PyStr.all_chars q s = true.
Proof.
  intros W. induction s as [|c s IH]; simpl; [reflexivity|].
  intros H. apply andb_true_iff in H as [H1 H2].
  now rewrite (W c H1), IH.
Qed.

Lemma int_space_is_space (c : ascii) :
  int_space c = true -> PyStr.is_space c = true.
Proof.
  unfold int_space, PyStr.is_space. cbv zeta.
  destruct (Nat.leb_spec 9 (nat_of_ascii c)), (Nat.leb_spec (nat_of_ascii c) 13),
    (Nat.eqb_spec (nat_of_ascii c) 32), (Nat.eqb_spec (nat_of_ascii c) 133),
    (Nat.eqb_spec (nat_of_ascii c) 160),
    (Nat.leb_spec 28 (nat_of_ascii c)), (Nat.leb_spec (nat_of_ascii c) 32);
    simpl; intros; try reflexivity; try discriminate; lia.
Qed.

Lemma digit_not_space (c : ascii) :
  PyStr.is_digit c = true -> PyStr.is_space c = false.
Proof.
  unfold PyStr.is_digit, PyStr.is_space. cbv zeta. intros H.
  apply andb_true_iff in H as [L U].
  apply Nat.leb_le in L. apply Nat.leb_le in U.
  destruct (Nat.leb_spec 9 (nat_of_ascii c)), (Nat.leb_spec (nat_of_ascii c) 13),
    (Nat.eqb_spec (nat_of_ascii c) 133), (Nat.eqb_spec (nat_of_ascii c) 160),
    (Nat.leb_spec 28 (nat_of_ascii c)), (Nat.leb_spec (nat_of_ascii c) 32);
    simpl; try reflexivity; lia.
Qed.

Lemma digit_not_int_space (c : ascii) :
  PyStr.is_digit c = true -> int_space c = false.
Proof.
  intros D. destruct (int_space c) eqn:S; [|reflexivity].
  apply int_space_is_space in S. now rewrite (digit_not_space c D) in S.
Qed.

Lemma digit_isdigit_char (c : ascii) :
  PyStr.is_digit c = true -> isdigit_char c = true.
Proof. intros D. unfold isdigit_char. cbv zeta. now rewrite D. Qed.

(** The two trimming functions of the script, [str.strip()] and the one
    built into [int()], differ in their white space only. *)
Section Trim.
Variable space : ascii -> bool.
Variable lstrip rstrip : string -> string.
Hypothesis lstrip_nil : lstrip EmptyString = EmptyString.
Hypothesis lstrip_cons : forall c s,
  lstrip (String c s) = if space c then lstrip s else String c s.
Hypothesis rstrip_nil : rstrip EmptyString = EmptyString.
Hypothesis rstrip_cons : forall c s,
  rstrip (String c s) =
  match rstrip s with
  | EmptyString => if space c then EmptyString else String c EmptyString
  | r => String c r
  end.
Hypothesis digit_no_space : forall c, PyStr.is_digit c = true -> space c = false.

Lemma lstrip_margin (pre s : string) :
  PyStr.all_chars space pre = true -> lstrip (pre ++ s) = lstrip s.
Proof.
  induction pre as [|c pre IH]; simpl; [reflexivity|].
  intros H. apply andb_true_iff in H as [H1 H2].
  now rewrite lstrip_cons, H1, IH.
Qed.

Lemma rstrip_spaces (post : string) :
  PyStr.all_chars space post = true -> rstrip post = EmptyString.
Proof.
  induction post as [|c post IH]; simpl; [intros _; exact rstrip_nil|].
  intros H. apply andb_true_iff in H as [H1 H2].
  now rewrite rstrip_cons, IH, H1.
Qed.

Lemma rstrip_margin (d post : string) :
  PyStr.all_chars PyStr.is_digit d = true ->
  PyStr.all_chars space post = true -> rstrip (d ++ post) = d.
Proof.
  intros D P. induction d as [|c d IH]; simpl.
  - now apply rstrip_spaces.
  - simpl in D. apply andb_true_iff in D as [D1 D2].
    rewrite rstrip_cons, IH by exact D2.
    destruct d; [now rewrite (digit_no_space c D1) | reflexivity].
Qed.

(** Trimming a digit run in its margins gives the digit run. *)
Lemma trim_number (pre d post : string) :
  PyStr.all_chars space pre = true -> PyStr.all_chars space post = true ->
  d <> "" -> PyStr.all_chars PyStr.is_digit d = true ->
  rstrip (lstrip (pre ++ d ++ post)) = d.
Proof.
  intros Pre Post N D. rewrite lstrip_margin by exact Pre.
  destruct d as [|c d]; [contradiction|].
  pose proof D as D'. simpl in D'. apply andb_true_iff in D' as [D1 D2].
  cbn [append]. rewrite lstrip_cons, (digit_no_space c D1).
  exact (rstrip_margin (String c d) post D Post).
Qed.

(** What trimming takes away is white space. *)
Lemma lstrip_split (s : string) :
  exists pre, s = pre ++ lstrip s /\ PyStr.all_chars space pre = true.
Proof.
  induction s as [|c s [pre [E P]]].
  - exists EmptyString. rewrite lstrip_nil. split; reflexivity.
  - rewrite lstrip_cons. destruct (space c) eqn:S.
    + exists (String c pre). simpl. rewrite S, P.
      split; [now f_equal | reflexivity].
    + exists EmptyString. split; reflexivity.
Qed.

Lemma rstrip_split (s : string) :
  exists post, s = rstrip s ++ post /\ PyStr.all_chars space post = true.
Proof.
  induction s as [|c s [post [E P]]].
  - exists EmptyString. rewrite rstrip_nil. split; reflexivity.
  - rewrite rstrip_cons. destruct (rstrip s) as [|a r].
    + simpl in E. subst s. destruct (space c) eqn:S.
      * exists (String c post). simpl. rewrite S, P. split; reflexivity.
      * exists post. split; [reflexivity | exact P].
    + exists post. split; [|exact P]. simpl. now f_equal.
Qed.

Lemma trim_split (s : string) :
  exists pre post,
    s = pre ++ rstrip (lstrip s) ++ post
    /\ PyStr.all_chars space pre = true /\ PyStr.all_chars space post = true.
Proof.
  destruct (lstrip_split s) as [pre [E1 P1]].
  destruct (rstrip_split (lstrip s)) as [post [E2 P2]].
  exists pre, post. split; [|split; assumption].
  now rewrite <- E2.
Qed.

End Trim.

Lemma strip_number (pre d post : string) :
  PyStr.all_chars PyStr.is_space pre = true ->
  PyStr.all_chars PyStr.is_space post = true ->
  d <> "" -> PyStr.all_chars PyStr.is_digit d = true ->
  PyStr.strip (pre ++ d ++ post) = d.
Proof.
  apply (trim_number PyStr.is_space PyStr.lstrip PyStr.rstrip);
    try reflexivity. exact digit_not_space.
Qed.

Lemma int_strip_number (pre d post : string) :
  PyStr.all_chars int_space pre = true ->
  PyStr.all_chars int_space post = true ->
  d <> "" -> PyStr.all_chars PyStr.is_digit d = true ->
  int_strip (pre ++ d ++ post) = d.
Proof.
  apply (trim_number int_space int_lstrip int_rstrip);
    try reflexivity. exact digit_not_int_space.
Qed.

Lemma int_strip_split (s : string) :
  exists pre post,
    s = pre ++ int_strip s ++ post
    /\ PyStr.all_chars int_space pre = true
    /\ PyStr.all_chars int_space post = true.
Proof.
  apply (trim_split int_space int_lstrip int_rstrip); reflexivity.
Qed.

(** [int()] on a cell that reads as a number, and on no other cell. *)
Lemma py_int_plain (pre digits post : string) :
  plain_number pre digits post ->
  py_int (pre ++ digits ++ post) = Ok (decimal 0 digits).
Proof.
  intros (Pre & Post & N & D & L). unfold py_int. cbv zeta.
  rewrite (int_strip_number pre digits post Pre Post N D), D.
  apply String.eqb_neq in N. rewrite N.
  apply Nat.leb_le in L. now rewrite L.
Qed.

Lemma py_int_ok (cell : string) (n : nat) :
  py_int cell = Ok n ->
  exists pre digits post,
    cell = pre ++ digits ++ post /\ plain_number pre digits post
    /\ n = decimal 0 digits.
Proof.
  unfold py_int. cbv zeta.
  destruct (String.eqb_spec (int_strip cell) "") as [E|N]; [discriminate|].
  destruct (PyStr.all_chars PyStr.is_digit (int_strip cell)) eqn:D;
    [|discriminate].
  destruct (Nat.leb_spec (String.length (int_strip cell)) int_max_str_digits)
    as [L|L]; [|discriminate].
  cbn [negb andb]. intros [= <-].
  destruct (int_strip_split cell) as [pre [post [E [Pre Post]]]].
  exists pre, (int_strip cell), post.
  split; [exact E|]. split; [|reflexivity].
  repeat split; assumption.
Qed.

(** X3: the width is the number written in the max_parallel_tabs cell of
    the first data row when that cell reads as a number, that is, 1 to
    4300 ASCII digits with nothing around them but white space that
    [int()] skips; in every other case it is the default 1: no such
    column, no row, a short row, a cell that is not made of digits, a
    superscript digit, one of the separators U+001C..U+001F next to the
    digits ([strip()] removes them, [int()] refuses them), or more than
    4300 digits. *)
Theorem max_parallel_tabs_default (header : list string)
  (rows : list (list string)) :
  (forall idx row0 rest pre digits post,
      Worklist.index_of "max_parallel_tabs" header = Some idx ->
      rows = row0 :: rest ->
      nth_error row0 idx = Some (pre ++ digits ++ post) ->
      Worklist.plain_number pre digits post ->
      Worklist.max_parallel_tabs header rows = Worklist.decimal 0 digits)
  /\ (Worklist.max_parallel_tabs header rows
      <> Worklist.DEFAULT_MAX_PARALLEL_TABS ->
      exists idx row0 rest pre digits post,
        Worklist.index_of "max_parallel_tabs" header = Some idx
        /\ rows = row0 :: rest
        /\ nth_error row0 idx = Some (pre ++ digits ++ post)
        /\ Worklist.plain_number pre digits post
        /\ Worklist.max_parallel_tabs header rows = Worklist.decimal 0 digits).
Proof.
  split.
  - intros idx row0 rest pre digits post I -> N P.
    unfold max_parallel_tabs. rewrite I, N, (py_int_plain _ _ _ P).
    destruct P as (Pre & Post & Ne & D & L).
    rewrite strip_number;
      [| exact (all_chars_weaken _ _ _ int_space_is_space Pre)
       | exact (all_chars_weaken _ _ _ int_space_is_space Post)
       | exact Ne | exact D].
    unfold isdigit. apply String.eqb_neq in Ne. rewrite Ne.
    rewrite (all_chars_weaken _ _ _ digit_isdigit_char D). reflexivity.
  - unfold max_parallel_tabs.
    destruct (index_of "max_parallel_tabs" header) as [idx|]; [|congruence].
    destruct rows as [|row0 rest]; [congruence|].
    destruct (nth_error row0 idx) as [cell|] eqn:N; [|congruence].
    destruct (isdigit (PyStr.strip cell)); [|congruence].
    destruct (py_int cell) as [n|e] eqn:P; [|congruence].
    intros _. destruct (py_int_ok cell n P) as (pre & digits & post & E & Pl & V).
    exists idx, row0, rest, pre, digits, post. subst cell. auto.
Qed.

(** X3 on a sheet whose width cell is "2", and on the same sheet with
    the separator U+001F before the 2. *)
Lemma max_parallel_tabs_default_witness :
  Worklist.max_parallel_tabs (hd [] two_pending) (map pad_row (tl two_pending))
  = 2
  /\ Worklist.max_parallel_tabs (hd [] separator_sheet)
       (map pad_row (tl separator_sheet))
     = Worklist.DEFAULT_MAX_PARALLEL_TABS.
Proof.
  split; [|reflexivity].
  refine (proj1 (max_parallel_tabs_default (hd [] two_pending)
                   (map pad_row (tl two_pending)))
                5 _ _ "" "2" "" eq_refl eq_refl eq_refl _).
  unfold plain_number, int_max_str_digits. cbn [String.length].
  repeat split; try reflexivity; [discriminate | lia].
Defined.

(** X4: a width cell of "0" is accepted by the digit test and makes
    [range] raise, so [main] crashes instead of using the default. *)
Theorem main_zero_width_raises (header : list string) (row0 : list string)
  (rest : list (list string)) (idx : nat) :
  Worklist.index_of "max_parallel_tabs" header = Some idx ->
  nth_error (Worklist.pad_row row0) idx = Some "0" ->
  Worklist.main (header :: row0 :: rest)
  = Raise (Exn OtherException "ValueError: range() arg 3 must not be zero").
Proof.
  intros I N. unfold main, read_google_sheet, max_parallel_tabs.
  cbn [map]. rewrite I, N. reflexivity.
Qed.

(** The hypotheses of X4 on a sheet whose width cell is "0". *)
Lemma main_zero_width_raises_witness :
  Worklist.main
    [ ["gemail"; "gpassword"; "instantly_email"; "instantly_password"; "status";
       "max_parallel_tabs"];
      ["a@x.com"; "pa"; "host@x.com"; "hp"; "pending"; "0"] ]
  = Raise (Exn OtherException "ValueError: range() arg 3 must not be zero").
Proof.
  apply (main_zero_width_raises _ _ [] 5); reflexivity.
Defined.

End WorklistMore.

(** ** More on the text helpers *)

Module OtpMore.
Import PyStr Otp StrFacts OtpFacts.

(** X7: the normalised number always starts with "+", normalising twice
    changes nothing, and leading zeros of an unprefixed number are
    dropped, so that a number of zeros only becomes the bare "+". *)
Theorem format_number_normal_form (s : string) :
  PyStr.startswith "+" (Otp.format_number s) = true
  /\ Otp.format_number (Otp.format_number s) = Otp.format_number s
  /\ (PyStr.startswith "+" s = false ->
      Otp.format_number (String "0" s) = Otp.format_number s).
Proof.
  unfold format_number.
  destruct (startswith "+" s) eqn:P.
  - split; [exact P|]. split; [now rewrite P | discriminate].
  - split; [reflexivity|]. split; [reflexivity|]. intros _. reflexivity.
Qed.

(** The hypothesis of X7 on a number of zeros only. *)
Lemma format_number_normal_form_witness :
  Otp.format_number (String "0" "00") = Otp.format_number "00"
  /\ Otp.format_number "00" = "+".
Proof.
  split; [|reflexivity].
  apply (proj2 (proj2 (format_number_normal_form "00"))). reflexivity.
Defined.

Lemma substring_prefix (n : nat) (s : string) :
  exists rest, s = (substring 0 n s ++ rest)%string.
Proof.
  revert s; induction n as [|n IH]; intros [|c s]; simpl; eauto.
  destruct (IH s) as [rest E]. exists rest. now rewrite <- E.
Qed.

Lemma substring_length_le (n : nat) (s : string) :
  String.length (substring 0 n s) <= n.
Proof.
  revert s; induction n as [|n IH]; intros [|c s]; simpl; try lia.
  specialize (IH s). lia.
Qed.

Lemma short_no_run (n : nat) (x : string) :
  String.length x < n -> ~ has_digit_run n x.
Proof.
  intros L [pre [r [post [E [_ Lr]]]]].
  rewrite E, !length_append in L. lia.
Qed.

(** The greedy quantifier stops at eight digits or at a non-digit. *)
Lemma take_digits_maximal (n : nat) (s : string) :
  exists rest,
    s = (take_digits n s ++ rest)%string
    /\ (String.length (take_digits n s) = n \/ take_digits 1 rest = "").
Proof.
  revert s; induction n as [|n IH]; intros [|c s]; simpl.
  - exists "". auto.
  - exists (String c s). auto.
  - exists "". auto.
  - destruct (is_digit c) eqn:D.
    + destruct (IH s) as [rest [E H]]. exists rest. simpl.
      split; [now rewrite <- E | destruct H; [left; lia | now right]].
    + exists (String c s). split; [reflexivity|]. right. simpl. now rewrite D.
Qed.

(** X8: the code found in an SMS is the leftmost one, and it is taken
    greedily: no four digits in a row start before it, and it either has
    eight digits or is followed by a non-digit or the end of the text. *)
Theorem re_search_otp_leftmost_greedy (s m : string) :
  Otp.re_search_otp s = Some m ->
  exists pre post,
    s = (pre ++ m ++ post)%string
    /\ ~ Otp.has_digit_run 4 (pre ++ substring 0 3 m)
    /\ (String.length m = 8 \/ Otp.take_digits 1 post = "").
Proof.
  revert m. induction s as [|c s IH]; intros m; rewrite re_search_otp_eq.
  - discriminate.
  - destruct (match_here (String c s)) as [m0|] eqn:M.
    + intros E. assert (Em : m0 = m) by congruence. subst m0. clear E.
      unfold match_here in M.
      destruct (4 <=? _); [|discriminate].
      assert (Em : m = take_digits 8 (String c s)) by congruence. clear M.
      destruct (take_digits_maximal 8 (String c s)) as [rest [E H]].
      rewrite <- Em in E, H.
      exists "", rest. split; [exact E|]. split; [|exact H].
      apply short_no_run. simpl. pose proof (substring_length_le 3 m). lia.
    + intros R. destruct (IH m R) as [pre [post [E [N G]]]].
      exists (String c pre), post. split; [simpl; now rewrite E|].
      split; [|exact G].
      intros [pre0 [r [post0 [E0 [D L]]]]].
      destruct pre0 as [|c0 pre0]; simpl in E0.
      * destruct (substring_prefix 3 m) as [mrest Em].
        apply (match_here_run r (post0 ++ mrest ++ post) D); [lia|].
        rewrite <- M. f_equal.
        rewrite <- append_assoc, <- E0. simpl. f_equal.
        rewrite E, append_assoc. f_equal.
        now rewrite <- append_assoc, <- Em.
      * injection E0 as _ E0. apply N. exists pre0, r, post0. auto.
Qed.

(** The hypothesis of X8 on an SMS with two codes. *)
Lemma re_search_otp_leftmost_greedy_witness :
  exists pre post,
    "ref 123 code 482913 or 771204" = (pre ++ "482913" ++ post)%string
    /\ ~ Otp.has_digit_run 4 (pre ++ substring 0 3 "482913")
    /\ (String.length "482913" = 8 \/ Otp.take_digits 1 post = "").
Proof.
  apply (re_search_otp_leftmost_greedy "ref 123 code 482913 or 771204" "482913").
  reflexivity.
Defined.

End OtpMore.

(** ** The status sink *)

Module SinkFacts.
Import Base Sink.

Local Ltac run :=
  cbn [attempts_loop]; unfold max_retries;
  cbn [Nat.ltb Nat.leb Nat.sub posts delays fst snd].

(** X5: a status update sends at least one and at most three POSTs with
    a pause between consecutive ones and none after the last; it gives
    [True] exactly when one of the first three attempts goes through
    after request errors only, [False] exactly when all three fail with
    request errors, and it raises only on an exception of another class. *)
Theorem update_status_in_sheet_retries (post : nat -> Sink.post_outcome) :
  let r := fst (Sink.update_status_in_sheet post) in
  let st := snd (Sink.update_status_in_sheet post) in
  1 <= posts st <= 3
  /\ delays st = posts st - 1
  /\ (r = Ok (Some true) <->
      exists k, k < 3 /\ post k = Posted
                /\ forall j, j < k -> exists m, post j = RequestFailed m)
  /\ (r = Ok (Some false) <-> forall j, j < 3 -> exists m, post j = RequestFailed m)
  /\ ((exists e, r = Raise e) <->
      exists k e, k < 3 /\ post k = Crashed e
                  /\ forall j, j < k -> exists m, post j = RequestFailed m).
Proof.
  cbv zeta. unfold update_status_in_sheet, max_retries.
  cbn [seq]. run.
  assert (Small : forall (P : nat -> Prop) k, k < 3 -> P 0 -> P 1 -> P 2 -> P k)
    by (intros P [|[|[|k]]] H; try lia; auto).
  assert (Before1 : forall j, j < 1 -> j = 0) by lia.
  assert (Before2 : forall j, j < 2 -> j = 0 \/ j = 1) by lia.
  destruct (post 0) as [|m0|e0] eqn:P0; run.
  - split; [lia|]. split; [reflexivity|].
    split; [|split].
    + split; [intros _|reflexivity]. exists 0. repeat split; [lia | exact P0 | lia].
    + split; [discriminate|]. intros H. destruct (H 0 ltac:(lia)) as [m E]. congruence.
    + split; [intros [e E]; discriminate|].
      intros [k [e [K [C B]]]]. destruct k as [|k]; [congruence|].
      destruct (B 0 ltac:(lia)) as [m E]. congruence.
  - destruct (post 1) as [|m1|e1] eqn:P1; run.
    + split; [lia|]. split; [reflexivity|].
      split; [|split].
      * split; [intros _|reflexivity]. exists 1.
        repeat split; [lia | exact P1|].
        intros j J. rewrite (Before1 j J). eauto.
      * split; [discriminate|]. intros H. destruct (H 1 ltac:(lia)) as [m E]. congruence.
      * split; [intros [e E]; discriminate|].
        intros [k [e [K [C B]]]]. destruct k as [|[|k]]; [congruence..|].
        destruct (B 1 ltac:(lia)) as [m E]. congruence.
    + destruct (post 2) as [|m2|e2] eqn:P2; run.
      * split; [lia|]. split; [reflexivity|].
        split; [|split].
        -- split; [intros _|reflexivity]. exists 2.
           repeat split; [lia | exact P2|].
           intros j J. destruct (Before2 j J) as [-> | ->]; eauto.
        -- split; [discriminate|]. intros H.
           destruct (H 2 ltac:(lia)) as [m E]. congruence.
        -- split; [intros [e E]; discriminate|].
           intros [k [e [K [C B]]]]. destruct k as [|[|[|k]]]; [congruence..|lia].
      * split; [lia|]. split; [reflexivity|].
        split; [|split].
        -- split; [discriminate|].
           intros [k [K [C B]]]. destruct k as [|[|[|k]]]; [congruence..|lia].
        -- split; [intros _|reflexivity]. intros j J.
           apply (Small (fun j => exists m, post j = RequestFailed m) j J); eauto.
        -- split; [intros [e E]; discriminate|].
           intros [k [e [K [C B]]]]. destruct k as [|[|[|k]]]; [congruence..|lia].
      * split; [lia|]. split; [reflexivity|].
        split; [|split].
        -- split; [discriminate|].
           intros [k [K [C B]]]. destruct k as [|[|[|k]]]; [congruence..|lia].
        -- split; [discriminate|]. intros H.
           destruct (H 2 ltac:(lia)) as [m E]. congruence.
        -- split; [intros _|eauto]. exists 2, e2.
           repeat split; [lia | exact P2|].
           intros j J. destruct (Before2 j J) as [-> | ->]; eauto.
    + split; [lia|]. split; [reflexivity|].
      split; [|split].
      * split; [discriminate|].
        intros [k [K [C B]]]. destruct k as [|[|k]]; [congruence..|].
        destruct (B 1 ltac:(lia)) as [m E]. congruence.
      * split; [discriminate|]. intros H.
        destruct (H 1 ltac:(lia)) as [m E]. congruence.
      * split; [intros _|eauto]. exists 1, e1.
        repeat split; [lia | exact P1|].
        intros j J. rewrite (Before1 j J). eauto.
  - split; [lia|]. split; [reflexivity|].
    split; [|split].
    + split; [discriminate|].
      intros [k [K [C B]]]. destruct k as [|k]; [congruence|].
      destruct (B 0 ltac:(lia)) as [m E]. congruence.
    + split; [discriminate|]. intros H.
      destruct (H 0 ltac:(lia)) as [m E]. congruence.
    + split; [intros _|eauto]. exists 0, e0. repeat split; [lia | exact P0 | lia].
Qed.

(** X5 on a sink that rejects the first two attempts. *)
Lemma update_status_in_sheet_retries_witness :
  fst (Sink.update_status_in_sheet (Sink.flaky 2)) = Ok (Some true).
Proof.
  apply (proj2 (proj1 (proj2 (proj2 (update_status_in_sheet_retries (flaky 2)))))).
  exists 2. repeat split; [lia|].
  intros j J. exists "503". destruct j as [|[|j]]; [reflexivity..|lia].
Defined.

End SinkFacts.

(** ** Typing *)

Module KeysFacts.
Import Base Keys.

(** X6: the element receives the characters of the text one by one and
    in order: what it has received is always a prefix of the text, it is
    the whole text when the call returns, and it stops at the first key
    the element refuses. *)
Theorem human_type_types_prefix (send_keys : nat -> ascii -> result unit)
  (k : nat) (text : string) :
  (exists rest, text = (snd (Keys.human_type send_keys k text) ++ rest)%string)
  /\ (fst (Keys.human_type send_keys k text) = Ok tt ->
      snd (Keys.human_type send_keys k text) = text)
  /\ (forall e, fst (Keys.human_type send_keys k text) = Raise e ->
      exists c rest,
        text = (snd (Keys.human_type send_keys k text) ++ String c rest)%string
        /\ send_keys (k + String.length (snd (Keys.human_type send_keys k text))) c
           = Raise e).
Proof.
  revert k. induction text as [|c text IH]; intros k; simpl.
  - split; [exists ""; reflexivity|]. split; [reflexivity | discriminate].
  - destruct (send_keys k c) as [[]|e0] eqn:S0; simpl.
    + destruct (IH (S k)) as [[rest E] [H1 H2]].
      destruct (human_type send_keys (S k) text) as [r typed]. simpl in *.
      split; [exists rest; now rewrite <- E|].
      split; [intros R; now rewrite (H1 R)|].
      intros e R. destruct (H2 e R) as [c' [rest' [E' S']]].
      exists c', rest'. split; [now rewrite <- E'|].
      now rewrite <- Nat.add_succ_comm.
    + split; [exists (String c text); reflexivity|].
      split; [discriminate|].
      intros e [= <-]. exists c, text. split; [reflexivity|].
      now rewrite Nat.add_0_r.
Qed.

(** X6 on an element that refuses the fourth key. *)
Lemma human_type_types_prefix_witness :
  snd (Keys.human_type (Keys.jammed_at 100) 0 "+15551234567") = "+15551234567"
  /\ exists c rest,
       "+15551234567"
       = (snd (Keys.human_type (Keys.jammed_at 3) 0 "+15551234567")
          ++ String c rest)%string
       /\ Keys.jammed_at 3
            (0 + String.length
                   (snd (Keys.human_type (Keys.jammed_at 3) 0 "+15551234567"))) c
          = Raise (Exn OtherException "element not interactable").
Proof.
  split.
  - apply (proj1 (proj2 (human_type_types_prefix (jammed_at 100) 0 "+15551234567"))).
    reflexivity.
  - apply (proj2 (proj2 (human_type_types_prefix (jammed_at 3) 0 "+15551234567"))).
    reflexivity.
Defined.

End KeysFacts.

(** ** More on the polling loop *)

Module SmsMore.
Import Base Json Sms SmsFacts.

Lemma populated_sms (res : check_json) (v : json) :
  populated res = Some v -> sms res = Some v /\ truthy v = true.
Proof.
  unfold populated. destruct (sms res) as [t|]; [|discriminate].
  destruct (truthy t) eqn:T; [|discriminate].
  intros [= <-]. auto.
Qed.

Lemma truthy_text (s : string) : truthy (JStr s) = true -> s <> "".
Proof.
  cbn [truthy]. destruct (String.eqb_spec s ""); [discriminate | auto].
Qed.

(** The turn of the loop in which the SMS arrives. *)
Lemma poll_receives (p : provider) (retries : nat) (res res' : check_json)
  (st : poll_state) (s : json) :
  waiting res ->
  p (requests st) = HttpReply 200 (Ok res') -> populated res' = Some s ->
  poll p (S retries) res st =
  (Some s, say ("SMS received: " ++ py_str s)
               {| requests := S (requests st); slept := slept st + 15;
                  log := log st |}).
Proof.
  intros [_ [t [T Ht]]] E P. cbn [poll]. rewrite T.
  destruct (Z.leb_spec t 0) as [L|L]; [lia|].
  unfold post, sleep. cbn [requests slept log]. rewrite E.
  cbn [Nat.eqb negb]. now rewrite P.
Qed.

Lemma poll_delivers (p : provider) (s : json) (k : nat) :
  forall retries res st,
    k < retries -> waiting res ->
    (forall n, n < k -> still_waiting (p (requests st + n))) ->
    (exists res', p (requests st + k) = HttpReply 200 (Ok res')
                  /\ populated res' = Some s) ->
    poll p retries res st =
    (Some s, say ("SMS received: " ++ py_str s)
                 {| requests := requests st + k + 1;
                    slept := slept st + 15 * (k + 1);
                    log := log st |}).
Proof.
  induction k as [|k IH]; intros retries res st L Wr W [res' [E P]].
  - destruct retries as [|retries]; [lia|].
    rewrite Nat.add_0_r in E.
    rewrite (poll_receives p retries res res' st s Wr E P).
    unfold say. cbn [requests slept log]. f_equal. f_equal; lia.
  - destruct retries as [|retries]; [lia|].
    destruct (still_waiting_inv _ (W 0 ltac:(lia))) as [res0 [E0 [P0 T0]]].
    rewrite Nat.add_0_r in E0.
    rewrite (poll_step p _ res res0 st Wr E0 P0).
    rewrite IH.
    + unfold say. cbn [requests slept log]. f_equal. f_equal; lia.
    + lia.
    + split; assumption.
    + intros n Hn. cbn [requests].
      replace (S (requests st) + n) with (requests st + S n) by lia.
      apply W. lia.
    + exists res'. cbn [requests].
      replace (S (requests st) + k) with (requests st + S k) by lia.
      auto.
Qed.

(** X9: with a configured key, an SMS entry (a non-empty string or any
    other truthy value) that shows up in the reply to request [k] (0 is
    the initial one, at most 6 re-polls follow), after replies that
    report time left, is returned after [k + 1] requests and [15 k]
    seconds of sleep; the last re-poll still counts. *)
Theorem get_smspool_sms_delivers (cfg : Config) (p : Sms.provider)
  (k : nat) (s : Json.json) :
  SMSPOOL_KEY cfg <> "" ->
  k <= 6 ->
  (forall n, n < k -> Sms.still_waiting (p n)) ->
  (exists res, p k = HttpReply 200 (Ok res) /\ Sms.populated res = Some s) ->
  fst (Sms.get_smspool_sms cfg p) = Some s
  /\ Sms.requests (snd (Sms.get_smspool_sms cfg p)) = S k
  /\ Sms.slept (snd (Sms.get_smspool_sms cfg p)) = 15 * k.
Proof.
  intros Hkey K W [res [E P]]. apply String.eqb_neq in Hkey.
  unfold get_smspool_sms. rewrite Hkey. unfold post, start.
  cbn [requests slept log].
  destruct k as [|k].
  - rewrite E. cbn [Nat.eqb negb]. rewrite P.
    unfold say. cbn [fst snd requests slept]. repeat split; lia.
  - destruct (still_waiting_inv _ (W 0 ltac:(lia))) as [res0 [E0 [P0 T0]]].
    rewrite E0. cbn [Nat.eqb negb]. rewrite P0.
    rewrite (poll_delivers p s k).
    + unfold say. cbn [fst snd requests slept]. repeat split; lia.
    + lia.
    + split; assumption.
    + intros n Hn. apply W. cbn [requests]. lia.
    + exists res. auto.
Qed.

(** A provider that delivers at request [k]. *)
Lemma get_smspool_sms_delivers_witness :
  fst (Sms.get_smspool_sms
         {| SMSPOOL_KEY := "key"; ENABLE_PHONE_VERIFICATION := true |}
         (fun n => if n <? 6 then Sms.always_patient n
                   else HttpReply 200 (Ok {| sms := Some (JStr "G-482913");
                                             time_left := TimeLeftInt 0 |})))
  = Some (JStr "G-482913")
  /\ Sms.requests (snd (Sms.get_smspool_sms
         {| SMSPOOL_KEY := "key"; ENABLE_PHONE_VERIFICATION := true |}
         (fun n => if n <? 6 then Sms.always_patient n
                   else HttpReply 200 (Ok {| sms := Some (JStr "G-482913");
                                             time_left := TimeLeftInt 0 |}))))
     = 7
  /\ Sms.slept (snd (Sms.get_smspool_sms
         {| SMSPOOL_KEY := "key"; ENABLE_PHONE_VERIFICATION := true |}
         (fun n => if n <? 6 then Sms.always_patient n
                   else HttpReply 200 (Ok {| sms := Some (JStr "G-482913");
                                             time_left := TimeLeftInt 0 |}))))
     = 15 * 6.
Proof.
  apply (get_smspool_sms_delivers _ _ 6 (JStr "G-482913")).
  - discriminate.
  - lia.
  - intros n Hn. apply Nat.ltb_lt in Hn. rewrite Hn.
    eexists. split; [reflexivity|]. split; [reflexivity|].
    exists 120%Z. split; [reflexivity | lia].
  - eexists. split; reflexivity.
Defined.

Lemma poll_sound (p : provider) (s : json) (retries : nat) :
  forall res st,
    fst (poll p retries res st) = Some s ->
    requests st < requests (snd (poll p retries res st))
    /\ exists res',
         p (requests (snd (poll p retries res st)) - 1) = HttpReply 200 (Ok res')
         /\ populated res' = Some s.
Proof.
  induction retries as [|retries IH]; intros res st; cbn [poll].
  - discriminate.
  - destruct (int_time_left res) as [t|e]; [|discriminate].
    destruct (t <=? 0)%Z; [discriminate|].
    unfold post, sleep. cbn [requests slept log].
    destruct (p (requests st)) as [e|code [res'|e]] eqn:E; try discriminate.
    + destruct (Nat.eqb_spec code 200) as [->|N]; cbn [negb]; [|discriminate].
      destruct (populated res') as [s'|] eqn:P.
      * unfold say. cbn [fst snd requests]. intros [= ->].
        split; [lia|]. exists res'. rewrite Nat.sub_1_r. cbn [Nat.pred]. auto.
      * intros H. destruct (IH res' _ H) as [L X]. cbn [requests] in L.
        split; [lia | exact X].
    + destruct (code =? 200); discriminate.
Qed.

(** What the routine returns passed the truth test of line 162 or 182. *)
Lemma get_smspool_sms_truthy (cfg : Config) (p : provider) (v : json) :
  fst (get_smspool_sms cfg p) = Some v -> truthy v = true.
Proof.
  unfold get_smspool_sms.
  destruct (String.eqb (SMSPOOL_KEY cfg) ""); [discriminate|].
  unfold post, start. cbn [requests slept log].
  destruct (p 0) as [e|code [res|e]]; try discriminate.
  - destruct (code =? 200); cbn [negb]; [|discriminate].
    destruct (populated res) as [v'|] eqn:P.
    + unfold say. cbn [fst]. intros [= ->]. now apply populated_sms in P.
    + intros H. destruct (poll_sound p v 6 res _ H) as [_ [res' [_ P']]].
      now apply populated_sms in P'.
  - destruct (code =? 200); discriminate.
Qed.

(** X10: a value returned by the polling routine is truthy, so a text
    returned is never empty; it was obtained with a configured key, and
    is the [sms] entry of the last reply received, which had status 200. *)
Theorem get_smspool_sms_sound (cfg : Config) (p : Sms.provider) (v : Json.json) :
  fst (Sms.get_smspool_sms cfg p) = Some v ->
  (Json.truthy v = true /\ forall s, v = JStr s -> s <> "")
  /\ SMSPOOL_KEY cfg <> ""
  /\ 1 <= Sms.requests (snd (Sms.get_smspool_sms cfg p)) <= 7
  /\ exists res,
       p (Sms.requests (snd (Sms.get_smspool_sms cfg p)) - 1) = HttpReply 200 (Ok res)
       /\ Sms.sms res = Some v.
Proof.
  assert (Text : forall w, truthy w = true ->
                           truthy w = true /\ forall s, w = JStr s -> s <> "").
  { intros w T. split; [exact T|]. intros s ->. now apply truthy_text. }
  unfold get_smspool_sms.
  destruct (String.eqb_spec (SMSPOOL_KEY cfg) "") as [K|K]; [discriminate|].
  unfold post, start. cbn [requests slept log].
  destruct (p 0) as [e|code [res|e]] eqn:E; try discriminate.
  - destruct (Nat.eqb_spec code 200) as [->|N]; cbn [negb]; [|discriminate].
    destruct (populated res) as [s'|] eqn:P.
    + unfold say. cbn [fst snd requests]. intros [= ->].
      destruct (populated_sms _ _ P) as [S1 S2].
      split; [now apply Text|]. split; [exact K|]. split; [lia|].
      exists res. rewrite Nat.sub_diag. auto.
    + intros H. destruct (poll_sound p v 6 res _ H) as [L [res' [E' P']]].
      pose proof (poll_bounded p 6 res
                    {| requests := 1; slept := 0; log := [] |}) as B.
      cbv zeta in B. cbn [requests] in L, B.
      destruct (populated_sms _ _ P') as [S1 S2].
      split; [now apply Text|]. split; [exact K|]. split; [lia|].
      exists res'. auto.
  - destruct (code =? 200); discriminate.
Qed.

(** X10 on a provider that answers at once. *)
Lemma get_smspool_sms_sound_witness :
  "G-482913" <> ""
  /\ SMSPOOL_KEY {| SMSPOOL_KEY := "key"; ENABLE_PHONE_VERIFICATION := true |} <> "".
Proof.
  pose proof (get_smspool_sms_sound
                {| SMSPOOL_KEY := "key"; ENABLE_PHONE_VERIFICATION := true |}
                (fun _ => HttpReply 200 (Ok {| sms := Some (JStr "G-482913");
                                               time_left := TimeLeftAbsent |}))
                (JStr "G-482913") eq_refl) as [[_ A] [B _]].
  split; [exact (A _ eq_refl) | exact B].
Defined.

End SmsMore.

(** ** More on the purchase response and the bypass *)

Module PhoneMore.
Import Base Json Phone PhoneFacts.

(** Probing a string or a list finds nothing or raises. *)
Lemma probe_non_mapping (keys : list string) (d : json) :
  (forall m, d <> JDict m) ->
  probe keys d = Ok JNull \/ exists e, probe keys d = Raise e.
Proof.
  intros N. induction keys as [|key keys IH]; simpl; [now left|].
  destruct d as [| | |s|l|m]; simpl; try (right; eexists; reflexivity).
  - destruct (occurs key s); [right; eexists; reflexivity | exact IH].
  - destruct (existsb (is_str key) l); [right; eexists; reflexivity | exact IH].
  - now destruct (N m).
Qed.

(** X11: a purchase response that is not a JSON object (a string, a
    list, a number, a boolean or null) never yields a phone number, and
    the bypass then returns [False] without raising. *)
Theorem non_mapping_yields_no_phone (d : json) (cfg : Config)
  (env : Phone.PhoneEnv) :
  (forall m, d <> JDict m) ->
  Phone.no_usable_phone d
  /\ (Phone.get_smspool_number cfg (Phone.purchase env) = Some d ->
      fst (Phone.handle_phone_verification cfg env) = false).
Proof.
  intros N.
  assert (U : no_usable_phone d).
  { unfold no_usable_phone, extract_ids.
    destruct (probe_non_mapping phone_keys d N) as [-> | [e ->]]; [|exact I].
    destruct (probe_non_mapping order_keys d N) as [-> | [e ->]]; [|exact I].
    cbn [truthy].
    destruct d as [| | |s|l|m]; simpl; try exact I.
    - destruct (occurs "result" s); [exact I | reflexivity].
    - destruct (existsb (is_str "result") l); [exact I | reflexivity].
    - now destruct (N m). }
  split; [exact U|].
  intros G. apply no_phone_no_bypass. intros d' G'.
  assert (d' = d) by congruence. now subst d'.
Qed.

(** X11 on the response "no numbers available". *)
Lemma non_mapping_yields_no_phone_witness :
  Phone.no_usable_phone (JStr "no numbers available").
Proof.
  refine (proj1 (non_mapping_yields_no_phone (JStr "no numbers available")
                   {| SMSPOOL_KEY := "key"; ENABLE_PHONE_VERIFICATION := true |}
                   msisdn_env _)).
  intros m. discriminate.
Defined.

(** X12: the first key present decides, also when its value is empty:
    a response whose [number] entry is null, empty or zero yields no
    phone number whatever its other top-level entries say, unless it has
    a nested [result] object. *)
Theorem empty_number_shadows_other_keys (d : list (string * json)) (v : json) :
  Json.assoc "number" d = Some v -> Json.truthy v = false ->
  Phone.nested_result d = None ->
  Phone.extract_ids (JDict d) = Ok (v, Phone.first_present Phone.order_keys d)
  /\ Phone.no_usable_phone (JDict d).
Proof.
  intros A T R. unfold no_usable_phone. rewrite extract_ids_dict.
  assert (F : first_present phone_keys d = v) by (simpl; now rewrite A).
  rewrite F, T, R. auto.
Qed.

(** X12 on a response with an empty number and a good phone entry. *)
Lemma empty_number_shadows_other_keys_witness :
  Phone.no_usable_phone
    (JDict [("number", JStr ""); ("phone", JStr "15551234567");
            ("orderid", JStr "A1")]).
Proof.
  apply (empty_number_shadows_other_keys _ (JStr "")); reflexivity.
Defined.

(** Without an order id the bypass fails. *)
Lemma no_order_no_bypass (cfg : Config) (env : PhoneEnv) (d phone_number order_id : json) :
  get_smspool_number cfg (purchase env) = Some d ->
  extract_ids d = Ok (phone_number, order_id) ->
  truthy order_id = false ->
  fst (handle_phone_verification cfg env) = false.
Proof.
  intros G X T. unfold handle_phone_verification.
  destruct (ENABLE_PHONE_VERIFICATION cfg); [|reflexivity]. cbn [negb].
  unfold bypass_body.
  destruct (phone_input env) as [[|]|e]; try reflexivity.
  rewrite G. destruct (truthy d); [|reflexivity]. cbn [negb].
  rewrite X. destruct (truthy phone_number); [|reflexivity]. cbn [negb].
  destruct (type_number env) as [u|e]; [|reflexivity].
  now rewrite T.
Qed.

(** X13: when the phone number is taken from the nested [result]
    object, the order id is taken from it as well and a top-level order
    id is discarded; if the nested object has neither orderid nor
    order_id, the bypass returns [False]. *)
Theorem nested_result_replaces_order_id (d r : list (string * json))
  (cfg : Config) (env : Phone.PhoneEnv) :
  Json.truthy (Phone.first_present Phone.phone_keys d) = false ->
  Phone.nested_result d = Some r ->
  Phone.extract_ids (JDict d)
  = Ok (Json.py_or (Json.dict_get r "number") (Json.dict_get r "phone"),
        Json.py_or (Json.dict_get r "orderid") (Json.dict_get r "order_id"))
  /\ (Phone.get_smspool_number cfg (Phone.purchase env) = Some (JDict d) ->
      Json.truthy (Json.py_or (Json.dict_get r "orderid") (Json.dict_get r "order_id"))
      = false ->
      fst (Phone.handle_phone_verification cfg env) = false).
Proof.
  intros T R.
  assert (X : extract_ids (JDict d)
              = Ok (py_or (dict_get r "number") (dict_get r "phone"),
                    py_or (dict_get r "orderid") (dict_get r "order_id")))
    by (now rewrite extract_ids_dict, T, R).
  split; [exact X|].
  intros G F. exact (no_order_no_bypass cfg env _ _ _ G X F).
Qed.

(** X13 on a response with the order id at the top level only. *)
Lemma nested_result_replaces_order_id_witness :
  Phone.extract_ids
    (JDict [("orderid", JStr "A1");
            ("result", JDict [("number", JStr "15551234567")])])
  = Ok (JStr "15551234567", JNull).
Proof.
  apply (proj1 (nested_result_replaces_order_id
                  [("orderid", JStr "A1");
                   ("result", JDict [("number", JStr "15551234567")])]
                  [("number", JStr "15551234567")]
                  {| SMSPOOL_KEY := "key"; ENABLE_PHONE_VERIFICATION := true |}
                  msisdn_env eq_refl eq_refl)).
Defined.

(** X14: the bypass returns [True] exactly when the feature is on, the
    prompt was found, the purchase gave a response with a usable number
    and order id, the number could be typed, the SMS service returned a
    text (a string, not a number or another JSON value, on which the
    search of line 316 raises), the OTP field was found and the code
    could be typed; and it never reports a status. *)
Theorem handle_phone_verification_success (cfg : Config) (env : Phone.PhoneEnv) :
  (fst (Phone.handle_phone_verification cfg env) = true <->
   ENABLE_PHONE_VERIFICATION cfg = true
   /\ Phone.phone_input env = Ok true
   /\ exists d phone_number order_id sms_text,
        Phone.get_smspool_number cfg (Phone.purchase env) = Some d
        /\ Json.truthy d = true
        /\ Phone.extract_ids d = Ok (phone_number, order_id)
        /\ Json.truthy phone_number = true
        /\ Json.truthy order_id = true
        /\ Phone.type_number env = Ok tt
        /\ fst (Sms.get_smspool_sms cfg (Phone.check env order_id))
           = Some (JStr sms_text)
        /\ Phone.otp_input env = true
        /\ Phone.type_otp env = Ok tt)
  /\ Workflow.reports (snd (Phone.handle_phone_verification cfg env)) = [].
Proof.
  split; [|apply (WorkflowFacts.phone_events_quiet cfg env)].
  split.
  - unfold handle_phone_verification, bypass_body.
    destruct (ENABLE_PHONE_VERIFICATION cfg); cbn [negb]; [|discriminate].
    destruct (phone_input env) as [[|]|e]; try discriminate.
    destruct (get_smspool_number cfg (purchase env)) as [d|]; [|discriminate].
    destruct (truthy d) eqn:Td; cbn [negb]; [|discriminate].
    destruct (extract_ids d) as [[phone_number order_id]|e] eqn:X;
      [|discriminate].
    destruct (truthy phone_number) eqn:Tp; cbn [negb]; [|discriminate].
    destruct (type_number env) as [[]|e]; [|discriminate].
    destruct (truthy order_id) eqn:To; cbn [negb]; [|discriminate].
    destruct (fst (Sms.get_smspool_sms cfg (check env order_id)))
      as [v|] eqn:S; [|discriminate].
    destruct (truthy v) eqn:Tv; cbn [negb]; [|discriminate].
    destruct v as [| | |sms_text| |]; try discriminate.
    destruct (otp_input env) eqn:Oi; cbn [negb]; [|discriminate].
    destruct (type_otp env) as [[]|e] eqn:Ty; [|discriminate].
    intros _. split; [reflexivity|]. split; [reflexivity|].
    exists d, phone_number, order_id, sms_text. repeat split; assumption.
  - intros (En & Pi & d & ph & oid & sms & G & Td & X & Tp & To & Tn & S
            & Oi & Ty).
    unfold handle_phone_verification, bypass_body.
    rewrite En, Pi, G, Td. cbn [negb]. rewrite X, Tp. cbn [negb].
    rewrite Tn, To. cbn [negb].
    rewrite S, (SmsMore.get_smspool_sms_truthy _ _ _ S). cbn [negb].
    rewrite Oi, Ty. reflexivity.
Qed.

(** X14 on a bypass in which everything works and the service answers
    with a text. *)
Lemma handle_phone_verification_success_witness :
  fst (Phone.handle_phone_verification
         {| SMSPOOL_KEY := "key"; ENABLE_PHONE_VERIFICATION := true |}
         (answering_env (JStr "Your code is 482913")))
  = true.
Proof.
  apply (proj1 (handle_phone_verification_success _ _)).
  split; [reflexivity|]. split; [reflexivity|].
  exists nested_order, (JStr "15551234567"), (JStr "A1"), "Your code is 482913".
  repeat split; reflexivity.
Defined.

(** X24: when the SMS service returns an [sms] entry that is truthy but
    not a string (the code as a JSON number, say), the search for the
    OTP raises; the bypass then returns [False], having taken the error
    screenshot and nothing else: no code is extracted or typed. *)
Theorem non_text_sms_fails_bypass (cfg : Config) (env : Phone.PhoneEnv)
  (d phone_number order_id v : Json.json) :
  ENABLE_PHONE_VERIFICATION cfg = true ->
  Phone.phone_input env = Ok true ->
  Phone.get_smspool_number cfg (Phone.purchase env) = Some d ->
  Json.truthy d = true ->
  Phone.extract_ids d = Ok (phone_number, order_id) ->
  Json.truthy phone_number = true ->
  Json.truthy order_id = true ->
  Phone.type_number env = Ok tt ->
  fst (Sms.get_smspool_sms cfg (Phone.check env order_id)) = Some v ->
  (forall s, v <> JStr s) ->
  fst (Phone.handle_phone_verification cfg env) = false
  /\ exists line,
       snd (Phone.handle_phone_verification cfg env)
       = [EvLog line; EvScreenshot "phone_verification_error"].
Proof.
  intros En Pi G Td X Tp To Tn S N.
  unfold handle_phone_verification, bypass_body.
  rewrite En, Pi, G, Td. cbn [negb]. rewrite X, Tp. cbn [negb].
  rewrite Tn, To. cbn [negb].
  rewrite S, (SmsMore.get_smspool_sms_truthy _ _ _ S). cbn [negb].
  destruct v as [| | |s| |]; try (split; [reflexivity | eexists; reflexivity]).
  now destruct (N s).
Qed.

(** X24 when the service answers with the number 482913. *)
Lemma non_text_sms_fails_bypass_witness :
  fst (Phone.handle_phone_verification
         {| SMSPOOL_KEY := "key"; ENABLE_PHONE_VERIFICATION := true |}
         (answering_env (JNum 482913)))
  = false.
Proof.
  refine (proj1 (non_text_sms_fails_bypass
                   {| SMSPOOL_KEY := "key"; ENABLE_PHONE_VERIFICATION := true |}
                   (answering_env (JNum 482913))
                   nested_order (JStr "15551234567") (JStr "A1") (JNum 482913)
                   eq_refl eq_refl eq_refl eq_refl eq_refl eq_refl eq_refl
                   eq_refl eq_refl _)).
  intros s. discriminate.
Defined.

End PhoneMore.

(** ** More on the element resolver *)

Module ResolverMore.
Import Base Resolver ResolverFacts Outcome.

Lemma recover_fatal (p : Page) (st st' : driver_state) (e : exn) :
  recover p st = (Fatal e, st') -> default_content p (clock st) = Raise e.
Proof.
  unfold recover, leave.
  destruct (default_content p (clock st)) as [u|e']; [discriminate|].
  now intros [= -> _].
Qed.

Lemma recover_hit_or (p : Page) (st st' : driver_state) (r : attempt_end) :
  recover p st = (r, st') -> r <> Hit.
Proof.
  unfold recover. destruct (leave p st) as [[u|e] st1]; intros [= <- _];
    discriminate.
Qed.

Lemma search_frames_clicked (p : Page) (selector : string) (timeout : nat)
  (js : bool) (iframes : list nat) :
  forall st st',
    search_frames p selector timeout js iframes st = (Clicked, st') ->
    exists t f, In f iframes
                /\ wait_click p t (InFrame f) selector timeout js = Ok tt.
Proof.
  induction iframes as [|iframe iframes IH]; intros st st'; cbn [search_frames].
  - discriminate.
  - unfold enter.
    destruct (switch_to_frame p (clock st) iframe) as [u|e]; [|discriminate].
    unfold search. cbn [tick ctx clock].
    destruct (wait_click p (S (clock st)) (InFrame iframe) selector timeout js)
      as [[]|e] eqn:W.
    + destruct (leave p _) as [[u2|e2] st3]; cbv beta iota.
      * intros _. exists (S (clock st)), iframe. split; [now left | exact W].
      * destruct (leave p st3) as [[u3|e3] st4]; [|discriminate].
        intros H. destruct (IH _ _ H) as [t [f [I X]]].
        exists t, f. split; [now right | exact X].
    + cbv beta iota. destruct (leave p _) as [[u3|e3] st4]; [|discriminate].
      intros H. destruct (IH _ _ H) as [t [f [I X]]].
      exists t, f. split; [now right | exact X].
Qed.

Lemma try_selector_end (p : Page) (selector : string) (timeout : nat) (js : bool)
  (st st' : driver_state) (r : attempt_end) :
  try_selector p selector timeout js st = (r, st') ->
  match r with
  | Hit => exists t c, wait_click p t c selector timeout js = Ok tt
  | Miss => True
  | Fatal e => exists t, default_content p t = Raise e
  end.
Proof.
  unfold try_selector.
  assert (R : forall st0, recover p st0 = (r, st') ->
              match r with
              | Hit => exists t c, wait_click p t c selector timeout js = Ok tt
              | Miss => True
              | Fatal e => exists t, default_content p t = Raise e
              end).
  { intros st0 H. destruct r as [| |e]; [|exact I|].
    - now apply recover_hit_or in H.
    - eexists. exact (recover_fatal _ _ _ _ H). }
  destruct (list_frames p st) as [[iframes|e] st1]; [|apply R].
  destruct (search_frames p selector timeout js iframes st1) as [[| |e] st2] eqn:F;
    [| |apply R].
  - intros [= <- _].
    destruct (search_frames_clicked _ _ _ _ _ _ _ F) as [t [f [_ X]]]. eauto.
  - destruct (leave p st2) as [[u|e] st3]; [|apply R].
    unfold search.
    destruct (wait_click p (clock st3) (ctx st3) selector timeout js)
      as [[]|e] eqn:W; intros [= <- _]; [eauto | exact I].
Qed.

(** X15: the resolver reports a click only when some wait-and-click
    for one of its selectors went through, and it raises only an
    exception that [switch_to.default_content()] raised; every other
    failure of the driver ends in [False]. *)
Theorem find_and_click_element_outcomes (p : Resolver.Page)
  (selectors : list string) (timeout : nat) (js : bool)
  (st : Resolver.driver_state) :
  (fst (Resolver.find_and_click_element p selectors timeout js st) = Ok true ->
   exists t c selector,
     In selector selectors
     /\ Resolver.wait_click p t c selector timeout js = Ok tt)
  /\ (forall e,
        fst (Resolver.find_and_click_element p selectors timeout js st) = Raise e ->
        exists t, Resolver.default_content p t = Raise e)
  /\ ((forall t, Resolver.default_content p t = Ok tt) ->
      exists b, fst (Resolver.find_and_click_element p selectors timeout js st) = Ok b).
Proof.
  assert (A : forall st,
             (fst (find_and_click_element p selectors timeout js st) = Ok true ->
              exists t c selector,
                In selector selectors /\ wait_click p t c selector timeout js = Ok tt)
             /\ (forall e,
                   fst (find_and_click_element p selectors timeout js st) = Raise e ->
                   exists t, default_content p t = Raise e)).
  { induction selectors as [|selector selectors IH]; intros st0;
      cbn [find_and_click_element].
    - split; [discriminate | intros e; discriminate].
    - destruct (try_selector p selector timeout js st0) as [[| |e0] st1] eqn:T;
        pose proof (try_selector_end _ _ _ _ _ _ _ T) as E; cbn [fst].
      + split; [|intros e; discriminate].
        intros _. destruct E as [t [c W]]. exists t, c, selector.
        split; [now left | exact W].
      + destruct (IH st1) as [I1 I2]. split; [|exact I2].
        intros H. destruct (I1 H) as [t [c [sel [I W]]]].
        exists t, c, sel. split; [now right | exact W].
      + split; [discriminate|]. intros e [= <-]. exact E. }
  destruct (A st) as [A1 A2]. split; [exact A1|]. split; [exact A2|].
  intros D.
  destruct (fst (find_and_click_element p selectors timeout js st)) as [b|e] eqn:R.
  - now exists b.
  - destruct (A2 e eq_refl) as [t X]. rewrite D in X. discriminate.
Qed.

(** X15 on the page with one frame. *)
Lemma find_and_click_element_outcomes_witness :
  exists t c selector,
    In selector ["a"; "b"]
    /\ Resolver.wait_click Resolver.one_frame_page t c selector 10 true = Ok tt.
Proof.
  apply (proj1 (find_and_click_element_outcomes Resolver.one_frame_page
                  ["a"; "b"] 10 true Resolver.start)).
  reflexivity.
Defined.

Lemma searches_app (a b : list action) :
  searches (a ++ b) = searches a + searches b.
Proof.
  induction a as [|x a IH]; simpl; [reflexivity|].
  destruct x; simpl; now rewrite IH.
Qed.

Section Static.
Variable iframes : list nat.
Variable clickable : context -> string -> bool.

Lemma spec_frames_hit (selector : string) (frames : list nat) :
  fst (spec_frames clickable selector frames)
  = existsb (fun f => clickable (InFrame f) selector) frames.
Proof.
  induction frames as [|f frames IH]; simpl; [reflexivity|].
  destruct (clickable (InFrame f) selector); [reflexivity|].
  destruct (spec_frames clickable selector frames). simpl in *. exact IH.
Qed.

Lemma spec_frames_searches (selector : string) (frames : list nat) :
  searches (snd (spec_frames clickable selector frames)) <= length frames
  /\ (fst (spec_frames clickable selector frames) = false ->
      searches (snd (spec_frames clickable selector frames)) = length frames).
Proof.
  induction frames as [|f frames IH]; simpl; [auto|].
  destruct (clickable (InFrame f) selector); simpl; [split; [lia | discriminate]|].
  destruct (spec_frames clickable selector frames) as [hit l]. simpl in *.
  destruct IH as [I1 I2]. split; [lia|]. intros H. rewrite (I2 H). reflexivity.
Qed.

Lemma spec_resolve_hit (selectors : list string) :
  fst (spec_resolve iframes clickable selectors)
  = existsb (fun selector =>
               existsb (fun f => clickable (InFrame f) selector) iframes
               || clickable Top selector) selectors.
Proof.
  induction selectors as [|selector selectors IH]; simpl; [reflexivity|].
  rewrite <- spec_frames_hit.
  destruct (spec_frames clickable selector iframes) as [hit l]. simpl.
  destruct hit; [reflexivity|]. simpl.
  destruct (clickable Top selector); [reflexivity|].
  destruct (spec_resolve iframes clickable selectors). simpl in *. exact IH.
Qed.

Lemma spec_resolve_searches (selectors : list string) :
  searches (snd (spec_resolve iframes clickable selectors))
  <= length selectors * (length iframes + 1)
  /\ (fst (spec_resolve iframes clickable selectors) = false ->
      searches (snd (spec_resolve iframes clickable selectors))
      = length selectors * (length iframes + 1)).
Proof.
  induction selectors as [|selector selectors IH]; simpl; [auto|].
  pose proof (spec_frames_searches selector iframes) as [F1 F2].
  destruct (spec_frames clickable selector iframes) as [hit l]. simpl in *.
  destruct hit; simpl; [split; [lia | discriminate]|].
  specialize (F2 eq_refl).
  destruct (clickable Top selector); simpl.
  - rewrite searches_app. simpl. split; [lia | discriminate].
  - destruct (spec_resolve iframes clickable selectors) as [hit' l']. simpl in *.
    destruct IH as [I1 I2].
    rewrite !searches_app. simpl. split; [lia|].
    intros H. rewrite (I2 H). lia.
Qed.

End Static.

(** X16: on a page that does not change, the resolver succeeds exactly
    when one of its selectors is clickable in one of the frames or in the
    top-level document. *)
Theorem find_and_click_element_static_complete (iframes : list nat)
  (clickable : Resolver.context -> string -> bool) (selectors : list string)
  (timeout : nat) (js : bool) :
  fst (Resolver.find_and_click_element (Resolver.static_page iframes clickable)
         selectors timeout js Resolver.start) = Ok true
  <-> exists selector,
        In selector selectors
        /\ (clickable Top selector = true
            \/ exists f, In f iframes /\ clickable (InFrame f) selector = true).
Proof.
  rewrite (spec_resolve_run iframes clickable timeout js selectors start eq_refl).
  cbn [fst]. rewrite spec_resolve_hit. split.
  - intros [= H]. apply existsb_exists in H as [selector [I H]].
    exists selector. split; [exact I|].
    apply orb_true_iff in H as [H|H]; [right | now left].
    apply existsb_exists in H as [f [If Hf]]. eauto.
  - intros [selector [I H]]. f_equal. apply existsb_exists.
    exists selector. split; [exact I|]. apply orb_true_iff.
    destruct H as [H|[f [If Hf]]]; [now right | left].
    apply existsb_exists. eauto.
Qed.

(** X17: on a page that does not change, the resolver waits for an
    element at most once per selector and document (each frame and the
    top level), and exactly that often when it ends without a match: a
    failing search costs [selectors * (frames + 1)] waits of up to
    [timeout] seconds each. *)
Theorem find_and_click_element_wait_count (iframes : list nat)
  (clickable : Resolver.context -> string -> bool) (selectors : list string)
  (timeout : nat) (js : bool) :
  let run := Resolver.find_and_click_element
               (Resolver.static_page iframes clickable) selectors timeout js
               Resolver.start in
  Outcome.searches (Resolver.actions (snd run))
  <= length selectors * (length iframes + 1)
  /\ (fst run = Ok false ->
      Outcome.searches (Resolver.actions (snd run))
      = length selectors * (length iframes + 1)).
Proof.
  cbv zeta.
  rewrite (spec_resolve_run iframes clickable timeout js selectors start eq_refl).
  cbn [fst snd advance actions start app].
  pose proof (spec_resolve_searches iframes clickable selectors) as [S1 S2].
  split; [exact S1|]. intros [= H]. exact (S2 H).
Qed.

(** X17 on a frameless page where nothing matches, with the ten
    selectors of the Continue gate. *)
Lemma find_and_click_element_wait_count_witness :
  Outcome.searches
    (Resolver.actions
       (snd (Resolver.find_and_click_element (Workflow.plain_page false)
               Workflow.continue_btns 10 true Resolver.start)))
  = 10 * (0 + 1).
Proof.
  apply (proj2 (find_and_click_element_wait_count [] (fun _ _ => false)
                  Workflow.continue_btns 10 true)).
  reflexivity.
Defined.

End ResolverMore.

(** ** More on the per-account workflow *)

Module WorkflowMore.
Import Base Workflow WorkflowFacts Outcome.

(** The steps after the gates end with [return True] or raise. *)
Lemma after_gates_end (env : Env) (gemail : string) :
  quiet (snd (after_gates env gemail))
  /\ ((fst (after_gates env gemail) = Return true
       /\ reports (snd (after_gates env gemail)) = [])
      \/ exists e, fst (after_gates env gemail) = Throw e).
Proof.
  unfold after_gates, fatal_step, success_check, back_step, optional_step.
  cbn [shot success failure].
  destruct (browser env "switch_back_window" 0) as [[]|e].
  - destruct (visible env "success_message") as [[|]|e1];
      destruct (visible env "back_button") as [[|]|e2];
      try destruct (browser env "back_button" 0) as [[]|e3];
      (split; [reflexivity | left; split; reflexivity]).
  - split; [reflexivity | right; eexists; reflexivity].
Qed.

Local Ltac gate_events :=
  split; [simpl; tauto|];
  split; [simpl; discriminate|];
  split; [reflexivity|];
  let A := fresh "A" in
  intros A; unfold allow_clicked in A; simpl in A;
  repeat (destruct A as [A|A]; [discriminate A|]); exact A.

Local Ltac gate_verdict :=
  apply (verdict_gate _ _ []);
  [ reflexivity | reflexivity | gate_events
  | unfold gate_failed; simpl; tauto
  | simpl; lia
  | first [left; reflexivity | right; eexists; reflexivity] ].

Lemma verdict_prefix (gemail : string) (evs0 : list event) (c : ctl unit)
  (evs : list event) :
  quiet evs0 -> reports evs0 = [] ->
  verdict gemail (c, evs) -> verdict gemail (c, (evs0 ++ evs)%list).
Proof.
  intros Q R V.
  inversion V as [evs1 evs3 Q1 R1 Q3 R3 | e evs1 evs3 Q1 R1 Q3
                 | c' evs1 evs2 Q1 R1 G2 F2 N2 C2 | e evs' Q1]; subst;
    try rewrite app_assoc.
  - apply verdict_done; auto; [now apply quiet_app | now rewrite reports_app, R].
  - apply verdict_late; auto; [now apply quiet_app | now rewrite reports_app, R].
  - apply verdict_gate; auto; [now apply quiet_app | now rewrite reports_app, R].
  - apply verdict_abort. now apply quiet_app.
Qed.

Lemma allow_gate_verdict (env : Env) (gemail : string) :
  verdict gemail (allow_gate env gemail ;; after_gates env gemail).
Proof.
  unfold allow_gate, quit_driver.
  destruct (browser env "allow_button" 0) as [[]|e]; cbn [call].
  - destruct (after_gates_end env gemail) as [Q H].
    destruct (after_gates env gemail) as [c evs3].
    cbn [bind ret emit try_except app fst snd] in *.
    destruct H as [[-> R]|[e ->]].
    + apply (verdict_done gemail [] evs3); auto; reflexivity.
    + apply (verdict_late gemail e [] evs3); auto; reflexivity.
  - cbn [bind throw try_except app]. destruct (is_selenium e).
    + destruct (quit env QuitAllowHandler) as [[]|e'];
        cbn [bind call ret throw emit return_ app]; gate_verdict.
    + apply verdict_abort. reflexivity.
Qed.

Lemma gates_verdict (env : Env) (gemail : string) :
  verdict gemail
    (continue_gate env gemail ;; allow_gate env gemail ;; after_gates env gemail).
Proof.
  pose proof (allow_gate_verdict env gemail) as A.
  destruct (allow_gate env gemail ;; after_gates env gemail) as [c evs].
  unfold continue_gate, quit_driver.
  destruct (fst (Resolver.find_and_click_element _ _ _ _ _)) as [[|]|e].
  - cbn [bind emit try_except].
    apply (verdict_prefix gemail [_]); [reflexivity | reflexivity | exact A].
  - destruct (quit env QuitContinueElse) as [[]|e];
      cbn [bind call ret throw emit return_ try_except app].
    + gate_verdict.
    + destruct (is_selenium e).
      * destruct (quit env QuitContinueHandler) as [[]|e'];
          cbn [bind call ret throw emit return_ try_except app]; gate_verdict.
      * gate_verdict.
  - cbn [bind throw try_except app]. destruct (is_selenium e).
    + destruct (quit env QuitContinueHandler) as [[]|e'];
        cbn [bind call ret throw emit return_ try_except app]; gate_verdict.
    + apply verdict_abort. reflexivity.
Qed.

Lemma steps_verdict (cfg : Config) (env : Env) (gemail : string) :
  verdict gemail (steps cfg env gemail).
Proof.
  unfold steps.
  destruct (calm_before_gates cfg env gemail) as [Q R].
  pose proof (gates_verdict env gemail) as G.
  destruct (before_gates cfg env gemail) as [[[]|b|e] evs0]; simpl in Q, R.
  - destruct (continue_gate env gemail ;; allow_gate env gemail
              ;; after_gates env gemail) as [c evs].
    cbn [bind]. now apply verdict_prefix.
  - contradiction.
  - cbn [bind]. now apply verdict_abort.
Qed.

Lemma issues_not_just_done (statuses : list string) :
  forallb is_issue statuses = true -> statuses <> ["done"].
Proof.
  intros H E. apply (issues_not_done _ H). rewrite E. now left.
Qed.

Lemma issues_last (statuses : list string) :
  statuses <> [] -> forallb is_issue statuses = true ->
  exists earlier status,
    statuses = (earlier ++ [status])%list /\ is_issue status = true.
Proof.
  intros N H. destruct (exists_last N) as [earlier [status E]].
  exists earlier, status. split; [exact E|].
  rewrite E, forallb_app in H. apply andb_true_iff in H as [_ H].
  simpl in H. now rewrite andb_true_r in H.
Qed.

(** X18: the function returns [True] exactly when "done" is the one
    and only status it reported; every execution reports at least one
    status; and when it returns [False] the last status reported is an
    issue. *)
Theorem process_single_account_verdict (cfg : Config) (env : Workflow.Env)
  (gemail gpassword instantly_email instantly_password worker_id : string) :
  let run := Workflow.process_single_account cfg env gemail gpassword
               instantly_email instantly_password worker_id in
  (fst run = true <-> Workflow.reports (snd run) = ["done"])
  /\ Workflow.reports (snd run) <> []
  /\ (fst run = false ->
      exists earlier status,
        Workflow.reports (snd run) = (earlier ++ [status])%list
        /\ Workflow.is_issue status = true).
Proof.
  cbv zeta. destruct (new_driver env) as [[]|e0] eqn:D.
  - destruct (run_log cfg env gemail gpassword instantly_email
                instantly_password worker_id D) as [c [evs [E1 E2]]].
    rewrite E2. cbn [fst snd reports]. rewrite reports_app.
    pose proof (steps_verdict cfg env gemail) as V. rewrite E1 in V.
    destruct (closing_reports env gemail c) as [Cr _]. rewrite Cr.
    inversion V as [evs1 evs3 Q1 R1 Q3 R3 | e evs1 evs3 Q1 R1 Q3
                   | c' evs1 evs2 Q1 R1 G2 F2 N2 C2 | e evs' Q1]; subst.
    + rewrite reports_app, R1. cbn [reports app]. rewrite R3.
      split; [split; reflexivity|]. split; [discriminate | discriminate].
    + rewrite reports_app, R1. cbn [reports app].
      split; [split; [discriminate|]|].
      * intros [= H]. symmetry in H. now apply app_cons_not_nil in H.
      * split; [discriminate|]. intros _.
        exists ("done" :: reports evs3), ("issue: " ++ msg e)%string.
        split; reflexivity.
    + destruct G2 as [Hq [Hr [Hi Ha]]].
      rewrite reports_app, R1. cbn [app].
      assert (I : forallb is_issue
                    (reports evs2 ++ match c with
                                     | Throw e => ["issue: " ++ msg e]%string
                                     | _ => []
                                     end) = true).
      { rewrite forallb_app, Hi. now destruct c. }
      assert (N : (reports evs2 ++ match c with
                                   | Throw e => ["issue: " ++ msg e]%string
                                   | _ => []
                                   end)%list <> []).
      { intros E. apply app_eq_nil in E as [E _]. contradiction. }
      split; [split|].
      * destruct C2 as [-> | [e ->]]; discriminate.
      * intros E. now apply issues_not_just_done in I.
      * split; [exact N|]. intros _. now apply issues_last.
    + assert (I : forallb is_issue (reports evs ++ ["issue: " ++ msg e]%string)
                  = true)
        by (rewrite forallb_app, (quiet_issues _ Q1); reflexivity).
      split; [split; [discriminate|]|].
      * intros E. now apply issues_not_just_done in I.
      * split; [intros E; now apply app_eq_nil in E as [_ E]|].
        intros _. exists (reports evs), ("issue: " ++ msg e)%string.
        split; reflexivity.
  - unfold process_single_account. rewrite D. cbn [fst snd on_exception reports].
    split; [split; discriminate|]. split; [discriminate|].
    intros _. exists [], ("issue: " ++ msg e0)%string. split; reflexivity.
Qed.

(** X18 on an execution where the Allow button never shows up. *)
Lemma process_single_account_verdict_witness :
  exists earlier status,
    Workflow.reports (snd (Workflow.sample_run Workflow.allow_missing))
    = (earlier ++ [status])%list
    /\ Workflow.is_issue status = true.
Proof.
  apply (proj2 (proj2 (process_single_account_verdict sample_cfg allow_missing
                         "a@x.com" "pa" "host@x.com" "hp" "thread_1"))).
  reflexivity.
Defined.

(** X19: without a browser [driver.quit()] is never called.  Once a
    browser was started it is called exactly once, by the [finally]
    block, unless execution reaches the gates and one of them fails
    with a failure it handles itself (the resolver finds nothing, or a
    Stale/Timeout/NoSuchElement exception); then the gate closes the
    browser and the [finally] block closes it again, two calls, or
    three when the call of line 784 itself raises one of those
    exceptions, which sends the Continue gate through its handler and
    its second [driver.quit()]. *)
Theorem driver_quit_count (cfg : Config) (env : Workflow.Env)
  (gemail gpassword instantly_email instantly_password worker_id : string) :
  let log := snd (Workflow.process_single_account cfg env gemail gpassword
                    instantly_email instantly_password worker_id) in
  (forall e, Workflow.new_driver env = Raise e -> Outcome.quits log = 0)
  /\ (Workflow.new_driver env = Ok tt ->
      ~ (Workflow.reaches_gates cfg env gemail
         /\ (Workflow.continue_timeout env \/ Workflow.allow_timeout env)) ->
      Outcome.quits log = 1)
  /\ (Workflow.reaches_gates cfg env gemail ->
      Workflow.continue_timeout env \/ Workflow.allow_timeout env ->
      2 <= Outcome.quits log <= 3
      /\ (Outcome.quits log = 3 <->
          Workflow.continue_click env = Ok false
          /\ exists e, Workflow.quit env QuitContinueElse = Raise e
                       /\ is_selenium e = true)).
Proof.
  cbv zeta. split; [|split].
  - intros e D. unfold process_single_account. rewrite D. reflexivity.
  - intros D N.
    destruct (run_log cfg env gemail gpassword instantly_email
                instantly_password worker_id D) as [c [evs [E1 E2]]].
    rewrite E2. cbn [snd quits].
    destruct (closing_reports env gemail c) as [_ Cq].
    rewrite quits_app, Cq.
    enough (quits evs = 0) by lia.
    unfold steps in E1.
    destruct (calm_before_gates cfg env gemail) as [Q0 _].
    pose proof (gates_quits env gemail) as G.
    destruct (before_gates cfg env gemail) as [[[]|b0|e0] evs0] eqn:B;
      cbn [fst snd] in Q0.
    + assert (N' : ~ (continue_timeout env \/ allow_timeout env)).
      { intros T. apply N. split; [|exact T].
        split; [exact D | now rewrite B]. }
      destruct (continue_gate env gemail ;; allow_gate env gemail
                ;; after_gates env gemail) as [c' evs'].
      cbn [bind] in E1. inversion E1; subst. cbn [snd] in G.
      rewrite quits_app, (quiet_quits _ Q0), G.
      unfold continue_timeout, allow_timeout in N'.
      destruct (continue_click env) as [[|]|e] eqn:C.
      * destruct (browser env "allow_button" 0) as [[]|e] eqn:A; [reflexivity|].
        destruct (is_selenium e) eqn:S; [|reflexivity].
        exfalso. apply N'. right. split; [reflexivity|]. now exists e.
      * exfalso. apply N'. left. now left.
      * destruct (is_selenium e) eqn:S; [|reflexivity].
        exfalso. apply N'. left. right. now exists e.
    + cbn [bind] in E1. inversion E1; subst. now apply quiet_quits.
    + cbn [bind] in E1. inversion E1; subst. now apply quiet_quits.
  - intros Rg T.
    destruct (run_from_gates cfg env gemail gpassword instantly_email
                instantly_password worker_id Rg)
      as (evs0 & c & evs & Q0 & R0 & E & Run).
    rewrite Run. cbn [snd quits].
    destruct (closing_reports env gemail c) as [_ Cq].
    rewrite !quits_app, Cq, (quiet_quits _ Q0).
    pose proof (gates_quits env gemail) as G. rewrite E in G. cbn [snd] in G.
    rewrite G. unfold continue_timeout, allow_timeout in T.
    destruct (continue_click env) as [[|]|e] eqn:C.
    + destruct T as [[T|[e [T _]]]|[_ [e [A S]]]]; try discriminate.
      rewrite A, S. split; [simpl; lia|].
      split; [simpl; lia | intros [H _]; discriminate H].
    + destruct (quit env QuitContinueElse) as [[]|e] eqn:Qe.
      * split; [simpl; lia|].
        split; [simpl; lia | intros [_ [e [H _]]]; discriminate H].
      * destruct (is_selenium e) eqn:S.
        -- split; [simpl; lia|].
           split; [intros _; split; [reflexivity | now exists e] | reflexivity].
        -- split; [simpl; lia|].
           split; [simpl; lia | intros [_ [e' [H S']]]; congruence].
    + destruct T as [[T|[e' [T S]]]|[T _]]; try discriminate.
      assert (e' = e) by congruence. subst e'. rewrite S.
      split; [simpl; lia|].
      split; [simpl; lia | intros [H _]; discriminate H].
Qed.

(** X19 on executions where the Continue button never shows up, where
    the Allow button never shows up, and where everything works. *)
Lemma driver_quit_count_witness :
  2 <= Outcome.quits (snd (Workflow.sample_run Workflow.continue_missing)) <= 3
  /\ 2 <= Outcome.quits (snd (Workflow.sample_run Workflow.allow_missing)) <= 3
  /\ Outcome.quits (snd (Workflow.sample_run Workflow.calm_env)) = 1.
Proof.
  pose proof (driver_quit_count sample_cfg continue_missing
                "a@x.com" "pa" "host@x.com" "hp" "thread_1") as [_ [_ C]].
  pose proof (driver_quit_count sample_cfg allow_missing
                "a@x.com" "pa" "host@x.com" "hp" "thread_1") as [_ [_ A]].
  pose proof (driver_quit_count sample_cfg calm_env
                "a@x.com" "pa" "host@x.com" "hp" "thread_1") as [_ [K _]].
  split; [|split].
  - apply C; [split; reflexivity|]. left. left. reflexivity.
  - apply A; [split; reflexivity|]. right. split; [reflexivity|].
    eexists. split; reflexivity.
  - apply K; [reflexivity|].
    intros [_ [[T|[e [T _]]]|[_ [e [T _]]]]]; discriminate T.
Defined.

Local Ltac step_run :=
  cbn [retry_step bind emit ret throw escalate app fst snd reports Nat.eqb].

Local Ltac no_witness :=
  let k := fresh "k" in
  let K := fresh "K" in
  let C := fresh "C" in
  let B := fresh "B" in
  intros [k [K [C B]]];
  destruct k as [|[|[|k]]]; try lia; try congruence;
  first [ destruct (B 0 ltac:(lia)) as [? [? ?]]; congruence
        | destruct (B 1 ltac:(lia)) as [? [? ?]]; congruence
        | destruct (B 2 ltac:(lia)) as [? [? ?]]; congruence ].

(** X20: a mandatory step runs its action at most three times.  It goes
    through exactly when one of the three attempts succeeds after
    Selenium wait failures only.  When all three attempts fail that way
    it logs the three retries, takes the screenshot of the step, reports
    "issue: <failure>: <third exception>" once and raises an exception
    with that message; in no other case does it report anything.  Any
    other exception ends the step at once and is passed on as it is.
    The step never returns from the function. *)
Theorem mandatory_step_retries (env : Workflow.Env) (gemail : string)
  (s : Workflow.step) :
  let m := Workflow.mandatory env gemail s in
  (fst m = Next tt <->
   exists k, k < 3 /\ Workflow.browser env (shot s) k = Ok tt
             /\ forall j, j < k ->
                  exists e, Workflow.browser env (shot s) j = Raise e
                            /\ is_selenium e = true)
  /\ (forall e0 e1 e2, Workflow.all_timed_out env s e0 e1 e2 ->
      m = (Throw (Exn OtherException (failure s ++ ": " ++ msg e2)),
           [EvLog ("Retry 1/3 for " ++ what s ++ ": " ++ msg e0);
            EvLog ("Retry 2/3 for " ++ what s ++ ": " ++ msg e1);
            EvLog ("Retry 3/3 for " ++ what s ++ ": " ++ msg e2);
            EvScreenshot (shot s);
            EvReport gemail ("issue: " ++ failure s ++ ": " ++ msg e2)]))
  /\ (Workflow.reports (snd m) <> [] ->
      exists e0 e1 e2, Workflow.all_timed_out env s e0 e1 e2)
  /\ (forall k e, k < 3 ->
      Workflow.browser env (shot s) k = Raise e -> is_selenium e = false ->
      (forall j, j < k ->
         exists e', Workflow.browser env (shot s) j = Raise e'
                    /\ is_selenium e' = true) ->
      fst m = Throw e /\ Workflow.reports (snd m) = [])
  /\ (forall b, fst m <> Return b).
Proof.
  cbv zeta. unfold mandatory. step_run.
  assert (Before1 : forall j, j < 1 -> j = 0) by lia.
  assert (Before2 : forall j, j < 2 -> j = 0 \/ j = 1) by lia.
  unfold all_timed_out.
  destruct (browser env (shot s) 0) as [[]|e0] eqn:P0; step_run.
  { split; [|split; [|split; [|split]]].
    - split; [intros _|reflexivity]. exists 0.
      repeat split; [lia | exact P0 | intros j J; lia].
    - intros a0 a1 a2 (H & _). discriminate H.
    - intros N. now destruct N.
    - intros k e K Pk Sk Bk. destruct k as [|k]; [congruence|].
      destruct (Bk 0 ltac:(lia)) as [e' [H _]]. congruence.
    - discriminate. }
  destruct (is_selenium e0) eqn:S0; step_run.
  2:{ split; [|split; [|split; [|split]]].
      - split; [discriminate | no_witness].
      - intros a0 a1 a2 (H & H' & _). congruence.
      - intros N. now destruct N.
      - intros k e K Pk Sk Bk. destruct k as [|k].
        + split; [congruence | reflexivity].
        + destruct (Bk 0 ltac:(lia)) as [e' [H H']]. congruence.
      - discriminate. }
  destruct (browser env (shot s) 1) as [[]|e1] eqn:P1; step_run.
  { split; [|split; [|split; [|split]]].
    - split; [intros _|reflexivity]. exists 1.
      repeat split; [lia | exact P1|].
      intros j J. rewrite (Before1 j J). eauto.
    - intros a0 a1 a2 (_ & _ & H & _). discriminate H.
    - intros N. now destruct N.
    - intros k e K Pk Sk Bk. destruct k as [|[|k]]; try congruence.
      destruct (Bk 1 ltac:(lia)) as [e' [H _]]. congruence.
    - discriminate. }
  destruct (is_selenium e1) eqn:S1; step_run.
  2:{ split; [|split; [|split; [|split]]].
      - split; [discriminate | no_witness].
      - intros a0 a1 a2 (_ & _ & H & H' & _). congruence.
      - intros N. now destruct N.
      - intros k e K Pk Sk Bk. destruct k as [|[|k]]; try congruence.
        + split; [congruence | reflexivity].
        + destruct (Bk 1 ltac:(lia)) as [e' [H H']]. congruence.
      - discriminate. }
  destruct (browser env (shot s) 2) as [[]|e2] eqn:P2; step_run.
  { split; [|split; [|split; [|split]]].
    - split; [intros _|reflexivity]. exists 2.
      repeat split; [lia | exact P2|].
      intros j J. destruct (Before2 j J) as [-> | ->]; eauto.
    - intros a0 a1 a2 (_ & _ & _ & _ & H & _). discriminate H.
    - intros N. now destruct N.
    - intros k e K Pk Sk Bk. destruct k as [|[|[|k]]]; try congruence. lia.
    - discriminate. }
  destruct (is_selenium e2) eqn:S2; step_run.
  2:{ split; [|split; [|split; [|split]]].
      - split; [discriminate | no_witness].
      - intros a0 a1 a2 (_ & _ & _ & _ & H & H'). congruence.
      - intros N. now destruct N.
      - intros k e K Pk Sk Bk. destruct k as [|[|[|k]]]; try congruence; [|lia].
        split; [congruence | reflexivity].
      - discriminate. }
  split; [|split; [|split; [|split]]].
  - split; [discriminate | no_witness].
  - intros a0 a1 a2 (H0 & _ & H1 & _ & H2 & _).
    assert (a0 = e0) by congruence. assert (a1 = e1) by congruence.
    assert (a2 = e2) by congruence. subst. reflexivity.
  - intros _. exists e0, e1, e2. repeat split; auto.
  - intros k e K Pk Sk Bk. destruct k as [|[|[|k]]]; try congruence. lia.
  - discriminate.
Qed.

(** X20 on a step whose first attempt times out, and on a step whose
    attempts all time out. *)
Lemma mandatory_step_retries_witness :
  fst (Workflow.mandatory
         (Workflow.env_where
            (fun _ attempt => if attempt =? 0
                              then Raise (Exn SeleniumWait "Message: timed out")
                              else Ok tt) true)
         "a@x.com"
         {| shot := "gmail_option"; what := "Gmail option";
            failure := "Failed to click Gmail option";
            success := "Clicked Gmail option" |})
  = Next tt
  /\ Workflow.reports
       (snd (Workflow.mandatory (Workflow.step_times_out "gmail_option") "a@x.com"
               {| shot := "gmail_option"; what := "Gmail option";
                  failure := "Failed to click Gmail option";
                  success := "Clicked Gmail option" |}))
     = ["issue: Failed to click Gmail option: Message: timed out"].
Proof.
  split.
  - apply (proj1 (mandatory_step_retries _ _ _)).
    exists 1. repeat split; [lia|].
    intros j J. assert (j = 0) by lia. subst j. eexists. split; reflexivity.
  - rewrite (proj1 (proj2 (mandatory_step_retries
                             (step_times_out "gmail_option") "a@x.com"
                             {| shot := "gmail_option"; what := "Gmail option";
                                failure := "Failed to click Gmail option";
                                success := "Clicked Gmail option" |}))
               (Exn SeleniumWait "Message: timed out")
               (Exn SeleniumWait "Message: timed out")
               (Exn SeleniumWait "Message: timed out")).
    + reflexivity.
    + repeat split; reflexivity.
Defined.

End WorkflowMore.

(** ** Failures of the SMS service *)

Module SmsAborts.
Import Base Sms SmsFacts Outcome.

Lemma poll_break_now (p : provider) (retries : nat) (res : check_json)
  (st : poll_state) :
  waiting res -> broken (p (requests st)) ->
  fst (poll p (S retries) res st) = None
  /\ requests (snd (poll p (S retries) res st)) = requests st + 1
  /\ slept (snd (poll p (S retries) res st)) = slept st + 15.
Proof.
  intros [_ [t [T Ht]]] B. cbn [poll]. rewrite T.
  destruct (Z.leb_spec t 0) as [L|L]; [lia|].
  unfold post, sleep, failed, say. cbn [requests slept log].
  unfold broken in B.
  destruct (p (requests st)) as [e|code json].
  - cbn [fst snd requests slept]. repeat split; lia.
  - destruct (Nat.eqb_spec code 200) as [->|N]; cbn [negb].
    + destruct B as [B|[e ->]]; [contradiction|].
      cbn [fst snd requests slept]. repeat split; lia.
    + cbn [fst snd requests slept]. repeat split; lia.
Qed.

Lemma poll_breaks (p : provider) (k : nat) :
  forall retries res st,
    k < retries -> waiting res ->
    (forall n, n < k -> still_waiting (p (requests st + n))) ->
    broken (p (requests st + k)) ->
    fst (poll p retries res st) = None
    /\ requests (snd (poll p retries res st)) = requests st + k + 1
    /\ slept (snd (poll p retries res st)) = slept st + 15 * (k + 1).
Proof.
  induction k as [|k IH]; intros retries res st L Wr W B.
  - destruct retries as [|retries]; [lia|].
    rewrite Nat.add_0_r in B.
    destruct (poll_break_now p retries res st Wr B) as [H1 [H2 H3]].
    repeat split; [exact H1 | lia | lia].
  - destruct retries as [|retries]; [lia|].
    destruct (still_waiting_inv _ (W 0 ltac:(lia))) as [res0 [E0 [P0 T0]]].
    rewrite Nat.add_0_r in E0.
    rewrite (poll_step p _ res res0 st Wr E0 P0).
    destruct (IH retries res0
                {| requests := S (requests st); slept := slept st + 15;
                   log := log st |}) as [H1 [H2 H3]].
    + lia.
    + split; assumption.
    + intros n Hn. cbn [requests].
      replace (S (requests st) + n) with (requests st + S n) by lia.
      apply W. lia.
    + cbn [requests].
      replace (S (requests st) + k) with (requests st + S k) by lia. exact B.
    + cbn [requests slept] in H2, H3. repeat split; [exact H1 | lia | lia].
Qed.

(** X21: a failed request is not retried: when the reply to request
    [k] (at most the sixth re-poll) has a status other than 200, does not
    decode, or the request raises, after replies that reported time left,
    the routine gives up with [None] right after that request. *)
Theorem get_smspool_sms_gives_up (cfg : Config) (p : Sms.provider) (k : nat) :
  SMSPOOL_KEY cfg <> "" ->
  k <= 6 ->
  (forall n, n < k -> Sms.still_waiting (p n)) ->
  Outcome.broken (p k) ->
  fst (Sms.get_smspool_sms cfg p) = None
  /\ Sms.requests (snd (Sms.get_smspool_sms cfg p)) = S k
  /\ Sms.slept (snd (Sms.get_smspool_sms cfg p)) = 15 * k.
Proof.
  intros Hkey K W B. apply String.eqb_neq in Hkey.
  unfold get_smspool_sms. rewrite Hkey. unfold post, start.
  cbn [requests slept log].
  destruct k as [|k].
  - unfold broken in B. unfold failed, say.
    destruct (p 0) as [e|code json].
    + cbn [fst snd requests slept]. repeat split; lia.
    + destruct (Nat.eqb_spec code 200) as [->|N]; cbn [negb].
      * destruct B as [B|[e ->]]; [contradiction|].
        cbn [fst snd requests slept]. repeat split; lia.
      * cbn [fst snd requests slept]. repeat split; lia.
  - destruct (still_waiting_inv _ (W 0 ltac:(lia))) as [res0 [E0 [P0 T0]]].
    rewrite E0. cbn [Nat.eqb negb]. rewrite P0.
    destruct (poll_breaks p k 6 res0
                {| requests := 1; slept := 0; log := [] |}) as [H1 [H2 H3]].
    + lia.
    + split; assumption.
    + intros n Hn. apply W. cbn [requests]. lia.
    + exact B.
    + cbn [requests slept] in H2, H3. repeat split; [exact H1 | lia | lia].
Qed.

(** X21 on a service that answers 503 to the second re-poll. *)
Lemma get_smspool_sms_gives_up_witness :
  fst (Sms.get_smspool_sms
         {| SMSPOOL_KEY := "key"; ENABLE_PHONE_VERIFICATION := true |}
         (fun n => if n <? 2 then Sms.always_patient n
                   else HttpReply 503 (Raise (Exn OtherException "no JSON"))))
  = None
  /\ Sms.requests (snd (Sms.get_smspool_sms
         {| SMSPOOL_KEY := "key"; ENABLE_PHONE_VERIFICATION := true |}
         (fun n => if n <? 2 then Sms.always_patient n
                   else HttpReply 503 (Raise (Exn OtherException "no JSON")))))
     = 3
  /\ Sms.slept (snd (Sms.get_smspool_sms
         {| SMSPOOL_KEY := "key"; ENABLE_PHONE_VERIFICATION := true |}
         (fun n => if n <? 2 then Sms.always_patient n
                   else HttpReply 503 (Raise (Exn OtherException "no JSON")))))
     = 15 * 2.
Proof.
  apply (get_smspool_sms_gives_up _ _ 2).
  - discriminate.
  - lia.
  - intros n Hn. apply Nat.ltb_lt in Hn. rewrite Hn.
    eexists. split; [reflexivity|]. split; [reflexivity|].
    exists 120%Z. split; [reflexivity | lia].
  - left. discriminate.
Defined.

End SmsAborts.

(** ** The cost of one resolver call *)

Module ResolverBounds.
Import Base Resolver.

Lemma leave_clock (p : Page) (st : driver_state) :
  clock (snd (leave p st)) = S (clock st).
Proof. unfold leave. now destruct (default_content p (clock st)). Qed.

Lemma enter_clock (p : Page) (iframe : nat) (st : driver_state) :
  clock (snd (enter p iframe st)) = S (clock st).
Proof. unfold enter. now destruct (switch_to_frame p (clock st) iframe). Qed.

Lemma recover_clock (p : Page) (st : driver_state) :
  clock (snd (recover p st)) = S (clock st).
Proof.
  unfold recover. pose proof (leave_clock p st) as L.
  now destruct (leave p st) as [[u|e] st1].
Qed.

Lemma search_frames_clock (p : Page) (selector : string) (timeout : nat)
  (js : bool) (iframes : list nat) :
  forall st,
    clock (snd (search_frames p selector timeout js iframes st))
    <= clock st + 4 * length iframes.
Proof.
  induction iframes as [|iframe iframes IH]; intros st; cbn [search_frames length].
  - simpl. lia.
  - pose proof (enter_clock p iframe st) as E.
    destruct (enter p iframe st) as [[u|e] st1]; cbn [snd] in *; [|lia].
    assert (S2 : clock (snd (search p selector timeout js st1)) = S (clock st1))
      by reflexivity.
    destruct (search p selector timeout js st1) as [[u1|e1] st2]; cbn [snd] in S2.
    + pose proof (leave_clock p st2) as L2.
      destruct (leave p st2) as [[u2|e2] st3]; cbn [snd] in L2; cbv beta iota.
      * cbn [snd]. lia.
      * pose proof (leave_clock p st3) as L3.
        destruct (leave p st3) as [[u3|e3] st4]; cbn [snd] in *; [|lia].
        specialize (IH st4). lia.
    + cbv beta iota. pose proof (leave_clock p st2) as L3.
      destruct (leave p st2) as [[u3|e3] st4]; cbn [snd] in *; [|lia].
      specialize (IH st4). lia.
Qed.

Section Bounded.
Variable p : Page.
Variable n : nat.
Hypothesis few_frames :
  forall t c iframes, find_iframes p t c = Ok iframes -> length iframes <= n.

Lemma try_selector_clock (selector : string) (timeout : nat) (js : bool)
  (st : driver_state) :
  clock (snd (try_selector p selector timeout js st)) <= clock st + 4 * n + 3.
Proof.
  unfold try_selector, list_frames.
  destruct (find_iframes p (clock st) (ctx st)) as [iframes|e] eqn:F.
  - pose proof (few_frames _ _ _ F) as N.
    pose proof (search_frames_clock p selector timeout js iframes
                  (tick ListFrames (ctx st) st)) as B.
    destruct (search_frames p selector timeout js iframes
                (tick ListFrames (ctx st) st)) as [[| |e] st2];
      cbn [snd tick clock] in *.
    + nia.
    + pose proof (leave_clock p st2) as L.
      destruct (leave p st2) as [[u|e] st3]; cbn [snd] in L.
      * unfold search.
        destruct (wait_click p (clock st3) (ctx st3) selector timeout js);
          cbn [snd tick clock]; nia.
      * pose proof (recover_clock p st3). nia.
    + pose proof (recover_clock p st2). nia.
  - pose proof (recover_clock p (tick ListFrames (ctx st) st)) as R.
    cbn [tick clock] in R. nia.
Qed.

Lemma find_and_click_element_clock (selectors : list string) (timeout : nat)
  (js : bool) :
  forall st,
    clock (snd (find_and_click_element p selectors timeout js st))
    <= clock st + length selectors * (4 * n + 3).
Proof.
  induction selectors as [|selector selectors IH]; intros st;
    cbn [find_and_click_element length].
  - simpl. lia.
  - pose proof (try_selector_clock selector timeout js st) as T.
    destruct (try_selector p selector timeout js st) as [[| |e] st1];
      cbn [snd] in *; try nia.
    specialize (IH st1). nia.
Qed.

End Bounded.

(** X22: whatever the driver does, one call of the resolver makes at
    most [4 n + 3] driver calls per selector on a page that never lists
    more than [n] frames. *)
Theorem find_and_click_element_call_bound (p : Resolver.Page) (n : nat)
  (selectors : list string) (timeout : nat) (js : bool)
  (st : Resolver.driver_state) :
  (forall t c iframes,
      Resolver.find_iframes p t c = Ok iframes -> length iframes <= n) ->
  Resolver.clock (snd (Resolver.find_and_click_element p selectors timeout js st))
  <= Resolver.clock st + length selectors * (4 * n + 3).
Proof.
  intros F. now apply find_and_click_element_clock.
Qed.

(** X22 on the page with one frame. *)
Lemma find_and_click_element_call_bound_witness :
  Resolver.clock
    (snd (Resolver.find_and_click_element Resolver.one_frame_page ["a"; "b"] 10 true
            Resolver.start))
  <= Resolver.clock Resolver.start + length ["a"; "b"] * (4 * 1 + 3).
Proof.
  apply (find_and_click_element_call_bound Resolver.one_frame_page 1).
  intros t c iframes [= <-]. simpl. lia.
Defined.

End ResolverBounds.

(** ** The bypass is best effort *)

Module BypassBestEffort.
Import Base Workflow WorkflowFacts Outcome WorkflowMore.

Lemma observe_bind (m m' k k' : M unit) :
  observe m = observe m' -> observe k = observe k' ->
  observe (m ;; k) = observe (m' ;; k').
Proof.
  unfold observe.
  destruct m as [[[]|b|e] evs], m' as [[[]|b'|e'] evs'],
           k as [c l], k' as [c' l']; simpl;
    intros H H'; inversion H; inversion H'; subst;
    rewrite ?reports_app, ?quits_app; congruence.
Qed.

Lemma observe_phone_step (cfg : Config) (env : Env) :
  observe (phone_step cfg env) = (Next tt, [], 0).
Proof.
  unfold phone_step, observe.
  destruct (phone_events_quiet cfg (phone env)) as [Q R].
  destruct (Phone.handle_phone_verification cfg (phone env)) as [handled evs].
  cbn [snd] in Q, R. cbn [bind emit_all emit fst snd].
  rewrite reports_app, quits_app, R, (quiet_quits _ Q). reflexivity.
Qed.

Lemma observe_steps (cfg : Config) (env : Env) (phone_ : Phone.PhoneEnv)
  (gemail : string) :
  observe (steps cfg (with_phone env phone_) gemail)
  = observe (steps cfg env gemail).
Proof.
  unfold steps, before_gates.
  repeat (apply observe_bind; [reflexivity|]).
  apply observe_bind; [|reflexivity].
  repeat (apply observe_bind; [reflexivity|]).
  apply observe_bind; [|reflexivity].
  now rewrite !observe_phone_step.
Qed.

(** X23: what happens during the phone verification never changes the
    return value, the statuses reported or the number of times the
    browser is closed: the bypass only adds log lines and screenshots. *)
Theorem phone_verification_is_best_effort (cfg : Config) (env : Workflow.Env)
  (phone_ : Phone.PhoneEnv)
  (gemail gpassword instantly_email instantly_password worker_id : string) :
  let run := Workflow.process_single_account cfg env gemail gpassword
               instantly_email instantly_password worker_id in
  let run' := Workflow.process_single_account cfg (Outcome.with_phone env phone_)
                gemail gpassword instantly_email instantly_password worker_id in
  fst run' = fst run
  /\ Workflow.reports (snd run') = Workflow.reports (snd run)
  /\ Outcome.quits (snd run') = Outcome.quits (snd run).
Proof.
  cbv zeta. pose proof (observe_steps cfg env phone_ gemail) as O.
  unfold process_single_account. cbn [with_phone new_driver pid randint].
  destruct (new_driver env) as [[]|e0]; [|auto].
  unfold observe in O.
  destruct (steps cfg (with_phone env phone_) gemail) as [c' evs'].
  destruct (steps cfg env gemail) as [c evs].
  cbn [fst snd] in O. injection O as -> R Q.
  unfold cleanup. cbn [with_phone quit].
  destruct (quit env QuitFinally) as [[]|e]; destruct c as [[]|b|e1];
    cbn [bind emit fst snd app reports quits];
    rewrite ?reports_app, ?quits_app, R, Q; auto.
Qed.

End BypassBestEffort.
